(** * shellyctl: the device abstraction layer of the Shelly plug client

    A shallow embedding of the Go sources of ripienaar/shellyctl:

    - [plug_v2.go]: the Gen-2 client [shellyPlugV2] and the Gen-1 client
      [shellyPlugV1] behind the unified [Plug] interface of [model.go]
      ([TurnOn], [TurnOff], [RenderEnergy], [RenderInfo], [Status],
      [Info]; the constructors [newShellyV2Plug] and [newShellyV1Plug];
      the transport adapter [get]), with the wire schema of both
      generations;
    - the legacy client [shellyPlug] with [NewShellyPlug], its [get],
      [TurnOn], [TurnOff], [Status] and [Info], and the actions of the
      legacy front end;
    - [deviceUrl], [newPlug] and the actions of the command line front
      end.

    [main] only declares the flags and is not embedded.  The report of
    [RenderInfo] prints times, durations and byte sizes through [time]
    and [go-humanize]: those three printers are a parameter
    ([Printers]).

    Go's [float64] is the kernel's binary64 [float], [int64] is [Z] with
    its range stated, [map[string]T] is stdpp's [gmap string T], a
    pointer that may be nil is an [option], and a function that performs
    I/O is a state transformer over [World] (requests sent, log lines,
    bytes written to the sink).  The device and [json.Unmarshal] are
    parameters: a function from requests to responses, and a decoder
    for each target type.  The text of a JSON document is kept as the
    document itself; plain text is kept character by character, with
    [%.2f] computed from the exact binary value. *)

From Stdlib Require Import ZArith QArith Qabs Floats Lia Lqa.
From Stdlib Require Import Ascii String DecimalString.
From stdpp Require Import base option list strings gmap.

Local Open Scope Z_scope.
Local Open Scope string_scope.

(** ** Go values *)

Module Go.

(** A Go [error] value.  [Errorf] is what [fmt.Errorf] builds (the
    formatted message); [ClientError] is an error handed back by the
    HTTP client; [DecodeFailure] one handed back by [json.Unmarshal];
    [UnsupportedValueError] is [json.Marshal] refusing a NaN or an
    infinity (which number it names is not recorded). *)
Inductive error : Type :=
| Errorf (msg : string)
| ClientError (msg : string)
| DecodeFailure (msg : string)
| UnsupportedValueError.

(** [err.Error()], as [%v] prints it. *)
Definition Error (e : error) : string :=
  match e with
  | Errorf msg => msg
  | ClientError msg => msg
  | DecodeFailure msg => msg
  | UnsupportedValueError => "json: unsupported value"
  end.

(** How a call ends: it returns, or the goroutine panics. *)
Inductive outcome (A : Type) : Type :=
| Returns (a : A)
| Panics (msg : string).
Global Arguments Returns {A} a.
Global Arguments Panics {A} msg.

Definition nil_dereference : string :=
  "runtime error: invalid memory address or nil pointer dereference".
Definition index_out_of_range : string :=
  "runtime error: index out of range".

(** The range of [int64]. *)
Definition int64 (z : Z) : Prop := - 2 ^ 63 <= z < 2 ^ 63.

(** [uint64(x)] of an [int64]: the same 64 bits read without a sign. *)
Definition uint64 (z : Z) : Z := z mod 2 ^ 64.

(** The [int64] that an arithmetic result wraps around to. *)
Definition wrap_int64 (z : Z) : Z := (z + 2 ^ 63) mod 2 ^ 64 - 2 ^ 63.

End Go.

(** ** float64 *)

Module Float64.

(** The conversion [float64(i)] of an [int64]: the nearest binary64
    value, ties to even. *)
Definition of_int64 (i : Z) : float :=
  SF2Prim (binary_normalize prec emax i 0 false).

(** The rational number a finite binary64 value stands for (0 for the
    values that stand for none). *)
Definition SF2Q (x : spec_float) : Q :=
  match x with
  | S754_finite s m e =>
      let a := if s then Z.neg m else Z.pos m in
      if (0 <=? e)%Z then inject_Z (a * 2 ^ e) else Qmake a (Z.to_pos (2 ^ (- e)))
  | _ => 0%Q
  end.

Definition to_Q (f : float) : Q := SF2Q (Prim2SF f).

(** Zero or a finite number: neither NaN nor an infinity. *)
Definition SFfinite (x : spec_float) : bool :=
  match x with
  | S754_zero _ | S754_finite _ _ _ => true
  | _ => false
  end.

(** The relative error allowed to a result of three roundings (the
    conversion of the counter, the constant, the product). *)
Definition tolerance : Q := 1 # 2 ^ 51.

(** [f] is [q] up to [tolerance]. *)
Definition approximates (f : float) (q : Q) : Prop :=
  (Qabs (to_Q f - q) <= tolerance * Qabs q)%Q.

(** Where the bits shifted out of a mantissa lie with respect to half
    of [2^n]: the reading of the round and sticky bits of
    [SpecFloat.shr_record]. *)
Definition tail_ok (n rem : Z) (r s : bool) : Prop :=
  match r, s with
  | false, false => rem = 0
  | false, true => 0 < rem /\ 2 * rem < 2 ^ n
  | true, false => 2 * rem = 2 ^ n
  | true, true => 2 ^ n < 2 * rem /\ rem < 2 ^ n
  end.

End Float64.

(** ** fmt verbs *)

Module Fmt.

(** [%t] *)
Definition verb_t (b : bool) : string := if b then "true" else "false".

Definition decimal (n : Z) : string :=
  NilZero.string_of_uint (N.to_uint (Z.to_N n)).

(** [%d] *)
Definition verb_d (n : Z) : string :=
  if (n <? 0)%Z then "-" ++ decimal (- n) else decimal n.

(** [n] zeros. *)
Fixpoint zeros (n : nat) : string :=
  match n with
  | O => ""
  | S k => String "0"%char (zeros k)
  end.

(** The integer nearest to [m * 2^e * 10^digits], ties to even: the
    decimal rounding of [strconv.FormatFloat(_, 'f', digits, 64)],
    which works on the exact decimal expansion of the binary value. *)
Definition scaled_round (digits : nat) (m : positive) (e : Z) : Z :=
  let n := Z.pos m * 10 ^ Z.of_nat digits in
  if (0 <=? e)%Z then n * 2 ^ e
  else
    let d := 2 ^ (- e) in
    let q := n / d in
    let r := n mod d in
    match (2 * r ?= d)%Z with
    | Lt => q
    | Gt => q + 1
    | Eq => if Z.even q then q else q + 1
    end.

(** The digits of [n / 10^digits] with the fraction padded to
    [digits] places. *)
Definition fixed (digits : nat) (n : Z) : string :=
  let p := 10 ^ Z.of_nat digits in
  let frac := decimal (n mod p) in
  match digits with
  | O => decimal n
  | _ => decimal (n / p) ++ "." ++ zeros (digits - String.length frac) ++ frac
  end.

(** [%.<digits>f] of a [float64]. *)
Definition verb_f (digits : nat) (f : float) : string :=
  match Prim2SF f with
  | S754_nan => "NaN"
  | S754_infinity false => "+Inf"
  | S754_infinity true => "-Inf"
  | S754_zero s => (if s then "-" else "") ++ fixed digits 0
  | S754_finite s m e =>
      (if s then "-" else "") ++ fixed digits (scaled_round digits m e)
  end.

End Fmt.

(** ** net/url *)

Module url.

(** [url.Userinfo]: a user name and an optional password. *)
Record Userinfo : Type := {
  username : string;
  password : string;
  passwordSet : bool
}.

Definition UserPassword (u p : string) : Userinfo :=
  {| username := u; password := p; passwordSet := true |}.

Definition Username (u : Userinfo) : string := username u.
Definition Password (u : Userinfo) : string * bool :=
  (password u, passwordSet u).

(** The fields of [url.URL] the clients read: [User] is nil when the
    address carries no credentials; [Host] is a host, or a host and a
    port with a colon between them. *)
Record URL : Type := {
  Scheme : string;
  User : option Userinfo;
  Host : string
}.

Definition is_digit (b : Ascii.ascii) : bool :=
  (48 <=? Ascii.nat_of_ascii b)%nat && (Ascii.nat_of_ascii b <=? 57)%nat.

Fixpoint all_digits (s : string) : bool :=
  match s with
  | EmptyString => true
  | String b rest => is_digit b && all_digits rest
  end.

(** [validOptionalPort]: the empty string, or a colon and digits. *)
Definition validOptionalPort (port : string) : bool :=
  match port with
  | EmptyString => true
  | String b rest => Ascii.eqb b ":"%char && all_digits rest
  end.

(** [strings.LastIndexByte] *)
Fixpoint LastIndexByte (s : string) (c : Ascii.ascii) : option nat :=
  match s with
  | EmptyString => None
  | String b rest =>
      match LastIndexByte rest c with
      | Some i => Some (S i)
      | None => if Ascii.eqb b c then Some O else None
      end
  end.

(** [s[i:]] and [s[:i]] *)
Definition from (i : nat) (s : string) : string :=
  String.substring i (String.length s - i) s.
Definition upto (i : nat) (s : string) : string :=
  String.substring 0 i s.

Fixpoint HasSuffix (s suffix : string) : bool :=
  String.eqb s suffix ||
  match s with
  | EmptyString => false
  | String _ rest => HasSuffix rest suffix
  end.

Definition HasPrefix (s pre : string) : bool := String.prefix pre s.

(** [splitHostPort]: a valid port after the last colon is cut off, then
    the square brackets of an IPv6 literal are removed. *)
Definition splitHostPort (hostPort : string) : string * string :=
  let '(host, port) :=
    match LastIndexByte hostPort ":"%char with
    | Some colon =>
        if validOptionalPort (from colon hostPort)
        then (upto colon hostPort, from (S colon) hostPort)
        else (hostPort, "")
    | None => (hostPort, "")
    end in
  if HasPrefix host "[" && HasSuffix host "]"
  then (String.substring 1 (String.length host - 2) host, port)
  else (host, port).

(** [u.Hostname()] *)
Definition Hostname (u : URL) : string := fst (splitHostPort (Host u)).

End url.

(** ** The HTTP client *)

Module resty.

(** What a request carries when [Get] is called: the URL given to
    [Get], the parameters of [SetQueryParams] (a nil map is the empty
    one) and the credentials of [SetBasicAuth], if it was called. *)
Record Request : Type := {
  URL : string;
  QueryParam : gmap string string;
  BasicAuth : option (string * string)
}.

(** The parts of a response the clients read: the status code, the
    body ([resp.String()], [resp.Body()]) and [resp.Request.URL]. *)
Record Response : Type := {
  StatusCode : Z;
  Body : string;
  RequestURL : string
}.

(** [resp.IsError()]: a status code above 399. *)
Definition IsError (r : Response) : bool := (399 <? StatusCode r)%Z.

End resty.

(** ** encoding/json *)

Module json.

(** The dynamic values the clients hand to the encoder ([any]): a nil
    interface, a [float64], a [map[string]string], a
    [map[string]any]. *)
#[warnings="-register-all"]
Inductive any : Type :=
| Nil
| Float64 (f : float)
| MapStringString (m : gmap string string)
| MapStringAny (m : gmap string any).

(** [m[k]] on a [map[string]any]: the nil interface for a missing
    key. *)
Definition index (m : gmap string any) (k : string) : any :=
  default Nil (m !! k).

(** The encoder refuses NaN and the infinities, everything else of
    [any] it encodes. *)
Fixpoint supported (v : any) : bool :=
  match v with
  | Nil => true
  | Float64 f => is_finite f
  | MapStringString _ => true
  | MapStringAny m => map_fold (fun _ x acc => supported x && acc) true m
  end.

(** A piece of output: literal text, or the text [json.MarshalIndent]
    produces for a document [v] with an empty prefix and an indent of
    two spaces, kept as the document it encodes. *)
Inductive chunk : Type :=
| Lit (s : string)
| Indented (v : any).

Definition MarshalIndent (v : any) : Go.error + list chunk :=
  if supported v then inr [Indented v] else inl Go.UnsupportedValueError.

(** [json.Unmarshal(body, &res)] for a target of type [T]: the decoded
    value, or the decoder's error. *)
Class Unmarshal (T : Type) : Type :=
  unmarshal : string -> Go.error + T.

End json.

(** ** The world a client acts on *)

(** The requests issued so far, the lines given to [log.Printf], and
    the bytes written to the [io.Writer] of the render operations. *)
Record World : Type := {
  sent : list resty.Request;
  logged : list string;
  written : list json.chunk
}.

Definition M (A : Type) : Type := World -> A * World.

Definition ret {A} (a : A) : M A := fun w => (a, w).
Definition bind {A B} (c : M A) (k : A -> M B) : M B :=
  fun w => let '(a, w') := c w in k a w'.

Notation "'let*' x ':=' c 'in' k" := (bind c (fun x => k))
  (at level 10, x pattern, c at level 100, k at level 200).
Notation "c ';;' k" := (bind c (fun _ => k))
  (at level 100, k at level 200, right associativity).

Definition LF : string := String (Ascii.ascii_of_nat 10) "".

(** [log.Printf(line)] *)
Definition log_Printf (line : string) : M unit :=
  fun w => (tt, {| sent := sent w; logged := logged w ++ [line]; written := written w |}).

(** [w.Write(b)] *)
Definition Write (b : list json.chunk) : M unit :=
  fun w => (tt, {| sent := sent w; logged := logged w; written := written w ++ b |}).

(** [fmt.Fprintf(w, format, ...)] with the formatted text, and
    [fmt.Fprintln(w, a)]. *)
Definition Fprintf (text : string) : M unit := Write [json.Lit text].
Definition Fprintln (a : list json.chunk) : M unit := Write (a ++ [json.Lit LF]).

(** The text of a sink that received literal text only. *)
Fixpoint text_of (b : list json.chunk) : option string :=
  match b with
  | [] => Some ""
  | json.Lit s :: rest => option_map (String.append s) (text_of rest)
  | json.Indented _ :: _ => None
  end.

(** A step that may panic, and the rest of the call: a panic ends the
    call there. *)
Definition and_then {A : Type} (c : M (Go.outcome unit)) (k : M (Go.outcome A))
    : M (Go.outcome A) :=
  let* r := c in
  match r with
  | Go.Returns _ => k
  | Go.Panics msg => ret (Go.Panics msg)
  end.

(** ** time and go-humanize *)

Module time.

(** [time.Second], in nanoseconds. *)
Definition Second : Z := 1000000000.

(** [time.Duration(n) * time.Second]: a [Duration] is an [int64] count
    of nanoseconds, and the product wraps around. *)
Definition seconds (n : Z) : Z := Go.wrap_int64 (n * Second).

End time.

(** The texts that come from outside the repository: [Time_String sec]
    is what [%s] prints for [time.Unix(sec, 0)] (it depends on the local
    time zone), [Duration_String ns] what [%v] prints for a
    [time.Duration] of [ns] nanoseconds, and [IBytes n] is
    [humanize.IBytes(n)] for a [uint64]. *)
Record Printers : Type := {
  Time_String : Z -> string;
  Duration_String : Z -> string;
  IBytes : Z -> string
}.

(** ** Wire schema, generation 1 *)

Module wiFiStatusV1.
Record t : Type := { Connected : bool; SSID : string; IP : string; RSSI : Z }.
Definition zero : t := {| Connected := false; SSID := ""; IP := ""; RSSI := 0 |}.
End wiFiStatusV1.

Module cloudStatusV1.
Record t : Type := { Enabled : bool; Connected : bool }.
Definition zero : t := {| Enabled := false; Connected := false |}.
End cloudStatusV1.

Module mQTTStatusV1.
Record t : Type := { Connected : bool }.
Definition zero : t := {| Connected := false |}.
End mQTTStatusV1.

Module updateStatusV1.
Record t : Type := {
  Status : string; HasUpdate : bool; NewVersion : string; OldVersion : string
}.
Definition zero : t :=
  {| Status := ""; HasUpdate := false; NewVersion := ""; OldVersion := "" |}.
End updateStatusV1.

Module fileSystemStatusV1.
Record t : Type := { Size : Z; Free : Z }.
Definition zero : t := {| Size := 0; Free := 0 |}.
End fileSystemStatusV1.

Module relayV1.
Record t : Type := {
  IsOn : bool;
  HasTimer : bool;
  TimerStarted : Z;
  TimerDuration : Z;
  TimerRemaining : Z;
  Overpower : bool;
  Source : string
}.
Definition zero : t :=
  {| IsOn := false; HasTimer := false; TimerStarted := 0; TimerDuration := 0;
     TimerRemaining := 0; Overpower := false; Source := "" |}.
End relayV1.

Module meterV1.
Record t : Type := {
  Power : float;
  Overpower : float;
  IsValid : bool;
  Timestamp : Z;
  Counters : list float;
  Total : Z
}.
Definition zero : t :=
  {| Power := 0; Overpower := 0; IsValid := false; Timestamp := 0;
     Counters := []; Total := 0 |}.
End meterV1.

Module deviceStatusV1.
Record t : Type := {
  WiFi : wiFiStatusV1.t;
  Cloud : cloudStatusV1.t;
  MQTT : mQTTStatusV1.t;
  Time : string;
  Unixtime : Z;
  Serial : Z;
  MAC : string;
  Update : updateStatusV1.t;
  FS : fileSystemStatusV1.t;
  Uptime : Z;
  Relays : list relayV1.t;
  Meters : list meterV1.t;
  RamTotal : Z;
  RamFree : Z;
  FsSize : Z;
  FsFree : Z
}.
(** [var res deviceStatusV1]: what the decoder starts from, and what
    a field keeps when the body does not mention it. *)
Definition zero : t :=
  {| WiFi := wiFiStatusV1.zero; Cloud := cloudStatusV1.zero;
     MQTT := mQTTStatusV1.zero; Time := ""; Unixtime := 0; Serial := 0;
     MAC := ""; Update := updateStatusV1.zero; FS := fileSystemStatusV1.zero;
     Uptime := 0; Relays := []; Meters := []; RamTotal := 0; RamFree := 0;
     FsSize := 0; FsFree := 0 |}.
Definition with_lists (rs : list relayV1.t) (ms : list meterV1.t) (s : t) : t :=
  {| WiFi := WiFi s; Cloud := Cloud s; MQTT := MQTT s; Time := Time s;
     Unixtime := Unixtime s; Serial := Serial s; MAC := MAC s;
     Update := Update s; FS := FS s; Uptime := Uptime s; Relays := rs;
     Meters := ms; RamTotal := RamTotal s; RamFree := RamFree s;
     FsSize := FsSize s; FsFree := FsFree s |}.
End deviceStatusV1.

(** The response of the [/shelly] endpoint. *)
Module deviceInfoV1.
Record t : Type := {
  Type_ : string; MAC : string; Auth : bool; FW : string; LongID : Z
}.
End deviceInfoV1.

(** ** Wire schema, generation 2 *)

Module UpdateInfoV2.
Record t : Type := { Version : string }.
End UpdateInfoV2.

Module AvailableUpdatesV2.
Record t : Type := { Beta : option UpdateInfoV2.t; Stable : option UpdateInfoV2.t }.
Definition zero : t := {| Beta := None; Stable := None |}.
End AvailableUpdatesV2.

Module WakeupReasonV2.
Record t : Type := { Boot : string; Cause : string }.
End WakeupReasonV2.

Module SystemStatusV2.
Record t : Type := {
  MAC : string;
  RestartRequired : bool;
  Time : string;
  UnixTime : Z;
  LastSyncTS : Z;
  Uptime : Z;
  RAMSize : Z;
  RAMFree : Z;
  FSSize : Z;
  FSFree : Z;
  CfgRev : Z;
  KVSRev : Z;
  ScheduleRev : Z;
  WebhookRev : Z;
  KNXRev : Z;
  BTRelayRev : Z;
  BTHCRev : Z;
  AvailableUpdates : AvailableUpdatesV2.t;
  WakeupReason : option WakeupReasonV2.t;
  WakeupPeriod : option Z;
  UTCOffset : Z
}.
End SystemStatusV2.

Module WifiStatusV2.
Record t : Type := {
  StaIP : string; Status : string; SSID : string; BSSID : string;
  RSSI : Z; APClientCount : Z
}.
End WifiStatusV2.

Module ActiveEnergyV2.
Record t : Type := { Total : float; ByMinute : list float; MinuteTS : Z }.
End ActiveEnergyV2.

Module ReturnedEnergyV2.
Record t : Type := { Total : float; ByMinute : list float; MinuteTS : Z }.
End ReturnedEnergyV2.

Module TemperatureStatusV2.
Record t : Type := { TC : float; TF : float }.
End TemperatureStatusV2.

Module SwitchStatusV2.
Record t : Type := {
  ID : Z;
  Source : string;
  Output : bool;
  TimerStartedAt : Z;
  TimerDuration : Z;
  APower : float;
  Voltage : float;
  Current : float;
  PF : float;
  Freq : float;
  AEnergy : option ActiveEnergyV2.t;
  RetAEnergy : option ReturnedEnergyV2.t;
  Temperature : option TemperatureStatusV2.t;
  Errors : list string
}.
Definition zero : t :=
  {| ID := 0; Source := ""; Output := false; TimerStartedAt := 0;
     TimerDuration := 0; APower := 0; Voltage := 0; Current := 0; PF := 0;
     Freq := 0; AEnergy := None; RetAEnergy := None; Temperature := None;
     Errors := [] |}.
End SwitchStatusV2.

Module SwitchStateV2.
Record t : Type := {
  IsOn : bool;
  HasTimer : bool;
  TimerStartedAt : Z;
  TimerDuration : float;
  TimerRemaining : float;
  Overpower : bool;
  Source : string
}.
Definition zero : t :=
  {| IsOn := false; HasTimer := false; TimerStartedAt := 0; TimerDuration := 0;
     TimerRemaining := 0; Overpower := false; Source := "" |}.
End SwitchStateV2.

Module DeviceStatusV2.
Record t : Type := {
  System : option SystemStatusV2.t;
  Switch1 : option SwitchStatusV2.t;
  WiFi : option WifiStatusV2.t
}.
Definition zero : t := {| System := None; Switch1 := None; WiFi := None |}.
End DeviceStatusV2.

Module DeviceInfoV2.
Record t : Type := {
  ID : string;
  MAC : string;
  Model : string;
  Gen : Z;
  FWID : string;
  Ver : string;
  App : string;
  Profile : string;
  AuthEn : bool;
  AuthDomain : string;
  Discoverable : bool;
  Key : string;
  Batch : string;
  FWSBits : string
}.
End DeviceInfoV2.

(** ** Process-wide settings *)

(** The package variables the render operations read: [jsonFormat],
    [choriaFormat] and [labels] (set once by the flag parser). *)
Record Config : Type := {
  jsonFormat : bool;
  choriaFormat : bool;
  labels : gmap string string
}.

(** The package variables of the command line front end: the device
    address [ip] (as [ip.String()] prints it), [user], [pass] and the
    generation switch [v2Plus]. *)
Record Flags : Type := {
  ip : string;
  user : string;
  pass : string;
  v2Plus : bool
}.

(** ** Transport *)

(** [client.Get(url)] on a prepared request: the request goes out (it is
    recorded in [sent]) and the device's answer, or the client's error,
    comes back.  [device] is the network with the plug behind it. *)
Definition client_Get (device : resty.Request -> Go.error + resty.Response)
    (req : resty.Request) : M (Go.error + resty.Response) :=
  fun w =>
    (device req,
     {| sent := sent w ++ [req]; logged := logged w; written := written w |}).

(** The credentials [SetBasicAuth] receives for an address: those of
    [address.User] when it is not nil. *)
Definition credentials (address : url.URL) : option (string * string) :=
  match url.User address with
  | Some usr =>
      let '(password, _) := url.Password usr in
      Some (url.Username usr, password)
  | None => None
  end.

(** The factor of [RenderEnergy] for generation 1: the [float64]
    constant [0.000016666666666666667], that is the binary64 value
    nearest to it, [4919131752989214 * 2^-68]. *)
Definition kwh_per_count : float := 0x1.179ec9cbd821ep-16%float.
Definition kwh_mantissa : positive := 4919131752989214.

(** The divisor of [RenderEnergy] for generation 2: 1000, that is
    [8796093022208000 * 2^-43]. *)
Definition thousand_mantissa : positive := 8796093022208000.

(** ** Device client, generation 2 *)

Module shellyPlugV2.

Record t : Type := { address : url.URL }.

Section Client.
Variable device : resty.Request -> Go.error + resty.Response.
Variable cfg : Config.
Context {decode_state : json.Unmarshal SwitchStateV2.t}.
Context {decode_status : json.Unmarshal DeviceStatusV2.t}.

(** [get]: one GET of [http://<Hostname>/<path>] with the queries and,
    when the address has a user, basic authentication; a client error
    and an error status are returned as errors, the body of a success
    is logged and decoded into the target.  ([SetDisableWarn] only
    silences the client's warning and is left out.) *)
Definition get {T : Type} {dec : json.Unmarshal T}
    (s : t) (path : string) (queries : gmap string string) : M (Go.error + T) :=
  let* r := client_Get device
              {| resty.URL := "http://" ++ url.Hostname (address s) ++ "/" ++ path;
                 resty.QueryParam := queries;
                 resty.BasicAuth := credentials (address s) |} in
  match r with
  | inl err => ret (inl err)
  | inr resp =>
      if resty.IsError resp
      then ret (inl (Go.Errorf (resty.RequestURL resp ++ ": " ++ resty.Body resp)))
      else
        let body := resty.Body resp in
        (log_Printf ("body: " ++ body ++ LF);;
         match json.unmarshal body with
         | inl err => ret (inl (Go.Errorf ("invalid response body: " ++ Go.Error err)))
         | inr res => ret (inr res)
         end)
  end.

Definition Status (s : t) : M (Go.error + DeviceStatusV2.t) :=
  get s "rpc/Shelly.GetStatus" ∅.

(** [RenderEnergy]: the two nil checks, then the [reading] map, then
    the format switch.  The map literal evaluates
    [status.Switch1.Temperature.TC] with no check of [Temperature]: on a
    nil pointer the call panics there, before the switch. *)
Definition RenderEnergy (s : t) : M (Go.outcome (option Go.error)) :=
  let* r := Status s in
  match r with
  | inl err => ret (Go.Returns (Some err))
  | inr status =>
    match DeviceStatusV2.Switch1 status with
    | None => ret (Go.Returns (Some (Go.Errorf "no switch information received")))
    | Some sw =>
      match SwitchStatusV2.AEnergy sw with
      | None => ret (Go.Returns (Some (Go.Errorf "no meter information received")))
      | Some aenergy =>
        let isOn : float := if SwitchStatusV2.Output sw then 1%float else 0%float in
        match SwitchStatusV2.Temperature sw with
        | None => ret (Go.Panics Go.nil_dereference)
        | Some temperature =>
          let reading : gmap string json.any :=
            {[ "power_watt" := json.Float64 (SwitchStatusV2.APower sw);
               "power_volt" := json.Float64 (SwitchStatusV2.Voltage sw);
               "power_ampere" := json.Float64 (SwitchStatusV2.Current sw);
               "power_frequency" := json.Float64 (SwitchStatusV2.Freq sw);
               "power_total_kwh" :=
                 json.Float64 (ActiveEnergyV2.Total aenergy / 1000)%float;
               "internal_celsius" :=
                 json.Float64 (TemperatureStatusV2.TC temperature);
               "is_on" := json.Float64 isOn ]} in
          if jsonFormat cfg then
            match json.MarshalIndent (json.MapStringAny reading) with
            | inl err => ret (Go.Returns (Some err))
            | inr j => (Fprintln j;; ret (Go.Returns None))
            end
          else if choriaFormat cfg then
            let data : gmap string json.any :=
              {[ "labels" := json.MapStringString (labels cfg);
                 "metrics" := json.MapStringAny
                   {[ "current_power_watt" := json.index reading "power_watt";
                      "current_power_volt" := json.index reading "power_volt";
                      "current_power_ampere" := json.index reading "power_ampere";
                      "current_power_frequency" := json.index reading "power_frequency";
                      "internal_celsius" := json.index reading "internal_celsius";
                      "total_energy_kwh" := json.index reading "power_total_kwh";
                      "relay_on" := json.index reading "is_on" ]} ]} in
            match json.MarshalIndent (json.MapStringAny data) with
            | inl err => ret (Go.Returns (Some err))
            | inr j => (Fprintln j;; ret (Go.Returns None))
            end
          else
            (Fprintln [json.Lit "Meter Information"];;
             Fprintln [];;
             Fprintf ("              Powered On: " ++ Fmt.verb_t (isOn =? 1)%float ++ LF);;
             Fprintf ("                   Power: " ++ Fmt.verb_f 2 (SwitchStatusV2.APower sw) ++ " Watt" ++ LF);;
             Fprintf ("                 Voltage: " ++ Fmt.verb_f 2 (SwitchStatusV2.Voltage sw) ++ " V" ++ LF);;
             Fprintf ("                 Current: " ++ Fmt.verb_f 2 (SwitchStatusV2.Current sw) ++ " Amp" ++ LF);;
             Fprintf ("               Frequency: " ++ Fmt.verb_f 2 (SwitchStatusV2.Freq sw) ++ " Hz" ++ LF);;
             Fprintf ("       Total Consumption: " ++ Fmt.verb_f 2 (ActiveEnergyV2.Total aenergy / 1000)%float ++ " kWh" ++ LF);;
             Fprintf ("           Internal Temp: " ++ Fmt.verb_f 2 (TemperatureStatusV2.TC temperature) ++ " C" ++ LF);;
             ret (Go.Returns None))
        end
      end
    end
  end.

Definition TurnOn (s : t) : M (bool * option Go.error) :=
  let* r := get s "relay/0" {[ "turn" := "on" ]} in
  match r with
  | inl err => ret (false, Some err)
  | inr res =>
      if negb (SwitchStateV2.IsOn res)
      then ret (false, Some (Go.Errorf "relay is not on"))
      else ret (SwitchStateV2.IsOn res, None)
  end.

Definition TurnOff (s : t) : M (bool * option Go.error) :=
  let* r := get s "relay/0" {[ "turn" := "off" ]} in
  match r with
  | inl err => ret (false, Some err)
  | inr res =>
      if SwitchStateV2.IsOn res
      then ret (SwitchStateV2.IsOn res, Some (Go.Errorf "relay is on"))
      else ret (SwitchStateV2.IsOn res, None)
  end.

(** *** The device report *)

Variable flags : Flags.
Variable lib : Printers.
Context {decode_info : json.Unmarshal DeviceInfoV2.t}.

Definition Info (s : t) : M (Go.error + DeviceInfoV2.t) :=
  get s "shelly" ∅.

(** [RenderInfo]: the two fetches, then the report, written line by
    line.  [status.System] and [status.WiFi] are read with no nil check,
    and so are [AEnergy] and [Temperature] of a switch that is present:
    on a nil pointer the call panics at that line, after the lines
    before it were written. *)
Definition RenderInfo (s : t) : M (Go.outcome (option Go.error)) :=
  let* r := Info s in
  match r with
  | inl err => ret (Go.Returns (Some err))
  | inr nfo =>
    let* r := Status s in
    match r with
    | inl err => ret (Go.Returns (Some err))
    | inr status =>
      (Fprintf ("Shelly device information for " ++ ip flags ++ LF);;
       Fprintln [];;
       Fprintln [json.Lit "Device Information"];;
       Fprintln [];;
       Fprintf ("         Device Type: " ++ DeviceInfoV2.Model nfo ++ LF);;
       Fprintf ("            Firmware: " ++ DeviceInfoV2.Ver nfo ++ LF);;
       match DeviceStatusV2.System status with
       | None => ret (Go.Panics Go.nil_dereference)
       | Some sys =>
         (Fprintf ("         MAC Address: " ++ SystemStatusV2.MAC sys ++ LF);;
          Fprintln [];;
          Fprintln [json.Lit "Device Status"];;
          Fprintln [];;
          Fprintf ("                Time: "
                   ++ Time_String lib (SystemStatusV2.UnixTime sys) ++ LF);;
          Fprintf ("              Uptime: "
                   ++ Duration_String lib (time.seconds (SystemStatusV2.Uptime sys)) ++ LF);;
          Fprintf ("        Memory Total: "
                   ++ IBytes lib (Go.uint64 (SystemStatusV2.RAMSize sys)) ++ LF);;
          Fprintf ("         Memory Free: "
                   ++ IBytes lib (Go.uint64 (SystemStatusV2.RAMFree sys)) ++ LF);;
          Fprintf ("       Storage Total: "
                   ++ IBytes lib (Go.uint64 (SystemStatusV2.FSSize sys)) ++ LF);;
          Fprintf ("        Storage Free: "
                   ++ IBytes lib (Go.uint64 (SystemStatusV2.FSFree sys)) ++ LF);;
          Fprintln [];;
          Fprintln [json.Lit "Network Information"];;
          Fprintln [];;
          match DeviceStatusV2.WiFi status with
          | None => ret (Go.Panics Go.nil_dereference)
          | Some wifi =>
            (Fprintf ("          IP Address: " ++ WifiStatusV2.StaIP wifi ++ LF);;
             Fprintf ("           WiFi SSID: " ++ WifiStatusV2.SSID wifi ++ LF);;
             Fprintf ("       WiFi Strength: " ++ Fmt.verb_d (WifiStatusV2.RSSI wifi) ++ LF);;
             Fprintln [];;
             Fprintln [json.Lit "Updates Information"];;
             Fprintln [];;
             let hasUpdates :=
               match AvailableUpdatesV2.Stable (SystemStatusV2.AvailableUpdates sys) with
               | Some _ => true
               | None => false
               end in
             Fprintf ("          Has Update: " ++ Fmt.verb_t hasUpdates ++ LF);;
             match AvailableUpdatesV2.Stable (SystemStatusV2.AvailableUpdates sys) with
             | Some stable =>
                 Fprintf ("    Latest Available: " ++ UpdateInfoV2.Version stable ++ LF)
             | None => ret tt
             end;;
             match DeviceStatusV2.Switch1 status with
             | None => ret (Go.Returns None)
             | Some sw =>
               (Fprintln [];;
                Fprintln [json.Lit "Relay Information"];;
                Fprintln [];;
                Fprintf ("        Power Status: "
                         ++ (if negb (SwitchStatusV2.Output sw) then "Off" else "On") ++ LF);;
                Fprintln [];;
                Fprintln [json.Lit "Meter Information"];;
                Fprintln [];;
                Fprintf ("                   Power: "
                         ++ Fmt.verb_f 2 (SwitchStatusV2.APower sw) ++ " Watt" ++ LF);;
                Fprintf ("                 Voltage: "
                         ++ Fmt.verb_f 2 (SwitchStatusV2.Voltage sw) ++ " V" ++ LF);;
                Fprintf ("                 Current: "
                         ++ Fmt.verb_f 2 (SwitchStatusV2.Current sw) ++ " Amp" ++ LF);;
                Fprintf ("               Frequency: "
                         ++ Fmt.verb_f 2 (SwitchStatusV2.Freq sw) ++ " Hz" ++ LF);;
                match SwitchStatusV2.AEnergy sw with
                | None => ret (Go.Panics Go.nil_dereference)
                | Some aenergy =>
                  (Fprintf ("       Total Consumption: "
                            ++ Fmt.verb_f 2 (ActiveEnergyV2.Total aenergy / 1000)%float
                            ++ " kWh" ++ LF);;
                   match SwitchStatusV2.Temperature sw with
                   | None => ret (Go.Panics Go.nil_dereference)
                   | Some temperature =>
                     (Fprintf ("           Internal Temp: "
                               ++ Fmt.verb_f 2 (TemperatureStatusV2.TC temperature)
                               ++ " C" ++ LF);;
                      ret (Go.Returns None))
                   end)
                end)
             end)
          end)
       end)
    end
  end.

End Client.

End shellyPlugV2.

(** ** Device client, generation 1 *)

Module shellyPlugV1.

Record t : Type := { address : url.URL }.

Section Client.
Variable device : resty.Request -> Go.error + resty.Response.
Variable cfg : Config.
Context {decode_relay : json.Unmarshal relayV1.t}.
Context {decode_status : json.Unmarshal deviceStatusV1.t}.

Definition get {T : Type} {dec : json.Unmarshal T}
    (s : t) (path : string) (queries : gmap string string) : M (Go.error + T) :=
  let* r := client_Get device
              {| resty.URL := "http://" ++ url.Hostname (address s) ++ "/" ++ path;
                 resty.QueryParam := queries;
                 resty.BasicAuth := credentials (address s) |} in
  match r with
  | inl err => ret (inl err)
  | inr resp =>
      if resty.IsError resp
      then ret (inl (Go.Errorf (resty.RequestURL resp ++ ": " ++ resty.Body resp)))
      else
        match json.unmarshal (resty.Body resp) with
        | inl err => ret (inl (Go.Errorf ("invalid response body: " ++ Go.Error err)))
        | inr res => ret (inr res)
        end
  end.

Definition Status (s : t) : M (Go.error + deviceStatusV1.t) :=
  get s "status" ∅.

(** [RenderEnergy]: exactly one meter, as many relays as meters, then
    the [reading] map of the first meter and relay and the format
    switch. *)
Definition RenderEnergy (s : t) : M (Go.outcome (option Go.error)) :=
  let* r := Status s in
  match r with
  | inl err => ret (Go.Returns (Some err))
  | inr status =>
    if negb (length (deviceStatusV1.Meters status) =? 1)%nat
    then ret (Go.Returns (Some (Go.Errorf "no meter information received")))
    else if negb (length (deviceStatusV1.Relays status)
                    =? length (deviceStatusV1.Meters status))%nat
    then ret (Go.Returns (Some (Go.Errorf "invalid relay information received")))
    else
      match deviceStatusV1.Meters status !! 0%nat,
            deviceStatusV1.Relays status !! 0%nat with
      | Some m, Some r =>
        let isOn : float := if relayV1.IsOn r then 1%float else 0%float in
        let reading : gmap string json.any :=
          {[ "power_watt" := json.Float64 (meterV1.Power m);
             "power_total_kwh" :=
               json.Float64 (Float64.of_int64 (meterV1.Total m) * kwh_per_count)%float;
             "is_on" := json.Float64 isOn ]} in
        if jsonFormat cfg then
          match json.MarshalIndent (json.MapStringAny reading) with
          | inl err => ret (Go.Returns (Some err))
          | inr j => (Fprintln j;; ret (Go.Returns None))
          end
        else if choriaFormat cfg then
          let data : gmap string json.any :=
            {[ "labels" := json.MapStringString (labels cfg);
               "metrics" := json.MapStringAny
                 {[ "current_power_watt" := json.index reading "power_watt";
                    "today_energy_kwh" := json.index reading "power_total_kwh";
                    "relay_on" := json.index reading "is_on" ]} ]} in
          match json.MarshalIndent (json.MapStringAny data) with
          | inl err => ret (Go.Returns (Some err))
          | inr j => (Fprintln j;; ret (Go.Returns None))
          end
        else
          (Fprintln [json.Lit "Meter Information"];;
           Fprintln [];;
           Fprintf ("          Powered On: " ++ Fmt.verb_t (isOn =? 1)%float ++ LF);;
           Fprintf ("               Power: " ++ Fmt.verb_f 2 (meterV1.Power m) ++ " Watt" ++ LF);;
           Fprintf ("   Total Consumption: "
                    ++ Fmt.verb_f 2 (Float64.of_int64 (meterV1.Total m) * kwh_per_count)%float
                    ++ " kWh" ++ LF);;
           ret (Go.Returns None))
      | _, _ => ret (Go.Panics Go.index_out_of_range)
      end
  end.

Definition TurnOn (s : t) : M (bool * option Go.error) :=
  let* r := get s "relay/0" {[ "turn" := "on" ]} in
  match r with
  | inl err => ret (false, Some err)
  | inr res =>
      if negb (relayV1.IsOn res)
      then ret (false, Some (Go.Errorf "relay is not on"))
      else ret (relayV1.IsOn res, None)
  end.

Definition TurnOff (s : t) : M (bool * option Go.error) :=
  let* r := get s "relay/0" {[ "turn" := "off" ]} in
  match r with
  | inl err => ret (false, Some err)
  | inr res =>
      if relayV1.IsOn res
      then ret (relayV1.IsOn res, Some (Go.Errorf "relay is on"))
      else ret (relayV1.IsOn res, None)
  end.

(** *** The device report *)

Variable flags : Flags.
Variable lib : Printers.
Context {decode_info : json.Unmarshal deviceInfoV1.t}.

Definition Info (s : t) : M (Go.error + deviceInfoV1.t) :=
  get s "shelly" ∅.

(** [RenderInfo]: the two fetches, then the report; the relay section
    when there is exactly one relay, the meter section when there is
    exactly one meter. *)
Definition RenderInfo (s : t) : M (Go.outcome (option Go.error)) :=
  let* r := Info s in
  match r with
  | inl err => ret (Go.Returns (Some err))
  | inr nfo =>
    let* r := Status s in
    match r with
    | inl err => ret (Go.Returns (Some err))
    | inr status =>
      (Fprintf ("Shelly device information for " ++ ip flags ++ LF);;
       Fprintln [];;
       Fprintln [json.Lit "Device Information"];;
       Fprintln [];;
       Fprintf ("         Device Type: " ++ deviceInfoV1.Type_ nfo ++ LF);;
       Fprintf ("            Firmware: " ++ deviceInfoV1.FW nfo ++ LF);;
       Fprintf ("         MAC Address: " ++ deviceStatusV1.MAC status ++ LF);;
       Fprintln [];;
       Fprintln [json.Lit "Device Status"];;
       Fprintln [];;
       Fprintf ("                Time: "
                ++ Time_String lib (deviceStatusV1.Unixtime status) ++ LF);;
       Fprintf ("              Uptime: "
                ++ Duration_String lib (time.seconds (deviceStatusV1.Uptime status)) ++ LF);;
       Fprintf ("        Memory Total: "
                ++ IBytes lib (Go.uint64 (deviceStatusV1.RamTotal status)) ++ LF);;
       Fprintf ("         Memory Free: "
                ++ IBytes lib (Go.uint64 (deviceStatusV1.RamFree status)) ++ LF);;
       Fprintf ("       Storage Total: "
                ++ IBytes lib (Go.uint64 (deviceStatusV1.FsSize status)) ++ LF);;
       Fprintf ("        Storage Free: "
                ++ IBytes lib (Go.uint64 (deviceStatusV1.FsFree status)) ++ LF);;
       Fprintln [];;
       Fprintln [json.Lit "Network Information"];;
       Fprintln [];;
       Fprintf ("          IP Address: " ++ wiFiStatusV1.IP (deviceStatusV1.WiFi status) ++ LF);;
       Fprintf ("           WiFi SSID: " ++ wiFiStatusV1.SSID (deviceStatusV1.WiFi status) ++ LF);;
       Fprintf ("       WiFi Strength: "
                ++ Fmt.verb_d (wiFiStatusV1.RSSI (deviceStatusV1.WiFi status)) ++ LF);;
       Fprintf ("       Cloud Enabled: "
                ++ Fmt.verb_t (cloudStatusV1.Enabled (deviceStatusV1.Cloud status)) ++ LF);;
       (if cloudStatusV1.Enabled (deviceStatusV1.Cloud status)
        then Fprintf ("     Cloud Connected: "
                      ++ Fmt.verb_t (cloudStatusV1.Connected (deviceStatusV1.Cloud status)) ++ LF)
        else ret tt);;
       Fprintf ("      MQTT Connected: "
                ++ Fmt.verb_t (mQTTStatusV1.Connected (deviceStatusV1.MQTT status)) ++ LF);;
       Fprintln [];;
       Fprintln [json.Lit "Updates Information"];;
       Fprintln [];;
       Fprintf ("          Has Update: "
                ++ Fmt.verb_t (updateStatusV1.HasUpdate (deviceStatusV1.Update status)) ++ LF);;
       Fprintf ("    Latest Available: "
                ++ updateStatusV1.NewVersion (deviceStatusV1.Update status) ++ LF);;
       and_then
         (if (length (deviceStatusV1.Relays status) =? 1)%nat
          then
            (Fprintln [];;
             Fprintln [json.Lit "Relay Information"];;
             Fprintln [];;
             match deviceStatusV1.Relays status !! 0%nat with
             | None => ret (Go.Panics Go.index_out_of_range)
             | Some r =>
               (Fprintf ("        Power Status: "
                         ++ (if negb (relayV1.IsOn r) then "Off" else "On") ++ LF);;
                Fprintf ("               Timer: " ++ Fmt.verb_t (relayV1.HasTimer r) ++ LF);;
                (if relayV1.HasTimer r
                 then
                   (Fprintf ("             Started: "
                             ++ Time_String lib (relayV1.TimerStarted r) ++ LF);;
                    Fprintf ("            Duration: "
                             ++ Duration_String lib (time.seconds (relayV1.TimerDuration r)) ++ LF);;
                    Fprintf ("           Remaining: "
                             ++ Duration_String lib (time.seconds (relayV1.TimerRemaining r)) ++ LF))
                 else ret tt);;
                ret (Go.Returns tt))
             end)
          else ret (Go.Returns tt))
         (and_then
            (if (length (deviceStatusV1.Meters status) =? 1)%nat
             then
               (Fprintln [];;
                Fprintln [json.Lit "Meter Information"];;
                Fprintln [];;
                match deviceStatusV1.Meters status !! 0%nat with
                | None => ret (Go.Panics Go.index_out_of_range)
                | Some m =>
                  (Fprintf ("               Power: "
                            ++ Fmt.verb_f 2 (meterV1.Power m) ++ " Watt" ++ LF);;
                   Fprintf ("   Total Consumption: "
                            ++ Fmt.verb_f 2 (Float64.of_int64 (meterV1.Total m) * kwh_per_count)%float
                            ++ " kWh" ++ LF);;
                   ret (Go.Returns tt))
                end)
             else ret (Go.Returns tt))
            (ret (Go.Returns None))))
    end
  end.

End Client.

End shellyPlugV1.

(** ** The legacy client *)

Module Relay.
Record t : Type := {
  IsOn : bool;
  HasTimer : bool;
  TimerStarted : Z;
  TimerDuration : Z;
  TimerRemaining : Z;
  Overpower : bool;
  Source : string
}.
End Relay.

Module Meter.
Record t : Type := {
  Power : float;
  Overpower : float;
  IsValid : bool;
  Timestamp : Z;
  Counters : list float;
  Total : Z
}.
End Meter.

Module WiFiStatus.
Record t : Type := { Connected : bool; SSID : string; IP : string; RSSI : Z }.
End WiFiStatus.

Module CloudStatus.
Record t : Type := { Enabled : bool; Connected : bool }.
End CloudStatus.

Module MQTTStatus.
Record t : Type := { Connected : bool }.
End MQTTStatus.

Module UpdateStatus.
Record t : Type := {
  Status : string; HasUpdate : bool; NewVersion : string; OldVersion : string
}.
End UpdateStatus.

Module FileSystemStatus.
Record t : Type := { Size : Z; Free : Z }.
End FileSystemStatus.

Module DeviceStatus.
Record t : Type := {
  WiFi : WiFiStatus.t;
  Cloud : CloudStatus.t;
  MQTT : MQTTStatus.t;
  Time : string;
  Unixtime : Z;
  Serial : Z;
  MAC : string;
  Update : UpdateStatus.t;
  FS : FileSystemStatus.t;
  Uptime : Z;
  Relays : list Relay.t;
  Meters : list Meter.t;
  RamTotal : Z;
  RamFree : Z;
  FsSize : Z;
  FsFree : Z
}.
End DeviceStatus.

Module DeviceInfo.
Record t : Type := {
  Type_ : string; MAC : string; Auth : bool; FW : string; LongID : Z
}.
End DeviceInfo.

Module shellyPlug.

Record t : Type := { address : url.URL }.

(** [NewShellyPlug] *)
Definition NewShellyPlug (address : url.URL) : M (Go.error + t) :=
  if String.eqb (url.Host address) ""
  then ret (inl (Go.Errorf "invalid address"))
  else ret (inr {| address := address |}).

Section Client.
Variable device : resty.Request -> Go.error + resty.Response.
Context {decode_relay : json.Unmarshal Relay.t}.
Context {decode_status : json.Unmarshal DeviceStatus.t}.

Definition get {T : Type} {dec : json.Unmarshal T}
    (s : t) (path : string) (queries : gmap string string) : M (Go.error + T) :=
  let* r := client_Get device
              {| resty.URL := "http://" ++ url.Hostname (address s) ++ "/" ++ path;
                 resty.QueryParam := queries;
                 resty.BasicAuth := credentials (address s) |} in
  match r with
  | inl err => ret (inl err)
  | inr resp =>
      if resty.IsError resp
      then ret (inl (Go.Errorf (resty.RequestURL resp ++ ": " ++ resty.Body resp)))
      else
        match json.unmarshal (resty.Body resp) with
        | inl err => ret (inl (Go.Errorf ("invalid response body: " ++ Go.Error err)))
        | inr res => ret (inr res)
        end
  end.

Definition TurnOn (s : t) : M (option Relay.t * option Go.error) :=
  let* r := get s "relay/0" {[ "turn" := "on" ]} in
  match r with
  | inl err => ret (None, Some err)
  | inr res =>
      if negb (Relay.IsOn res)
      then ret (None, Some (Go.Errorf "relay is not on"))
      else ret (Some res, None)
  end.

Definition TurnOff (s : t) : M (option Relay.t * option Go.error) :=
  let* r := get s "relay/0" {[ "turn" := "off" ]} in
  match r with
  | inl err => ret (None, Some err)
  | inr res =>
      if Relay.IsOn res
      then ret (Some res, Some (Go.Errorf "relay is on"))
      else ret (Some res, None)
  end.

Definition Status (s : t) : M (Go.error + DeviceStatus.t) :=
  get s "status" ∅.

Context {decode_info : json.Unmarshal DeviceInfo.t}.

Definition Info (s : t) : M (Go.error + DeviceInfo.t) :=
  get s "shelly" ∅.

End Client.

End shellyPlug.

(** ** The uniform capability interface *)

(** A [Plug] value: one of the two clients. *)
Inductive Plug : Type :=
| PlugV1 (p : shellyPlugV1.t)
| PlugV2 (p : shellyPlugV2.t).

(** [newShellyV1Plug] *)
Definition newShellyV1Plug (address : url.URL) : M (Go.error + Plug) :=
  if String.eqb (url.Host address) ""
  then ret (inl (Go.Errorf "invalid address"))
  else ret (inr (PlugV1 {| shellyPlugV1.address := address |})).

(** [newShellyV2Plug] *)
Definition newShellyV2Plug (address : url.URL) : M (Go.error + Plug) :=
  if String.eqb (url.Host address) ""
  then ret (inl (Go.Errorf "invalid address"))
  else ret (inr (PlugV2 {| shellyPlugV2.address := address |})).

(** [deviceUrl]: credentials are attached only when both the user name
    and the password are given. *)
Definition deviceUrl (f : Flags) : url.URL :=
  let usr :=
    if negb (String.eqb (user f) "") && negb (String.eqb (pass f) "")
    then Some (url.UserPassword (user f) (pass f))
    else None in
  {| url.Scheme := "http"; url.Host := ip f; url.User := usr |}.

(** [newPlug] *)
Definition newPlug (f : Flags) : M (Go.error + Plug) :=
  if v2Plus f
  then ret (inl (Go.Errorf "shelly V2+ devices are not supported yet"))
  else newShellyV1Plug (deviceUrl f).

Section Interface.
Variable device : resty.Request -> Go.error + resty.Response.
Variable cfg : Config.
Context {decode_relay : json.Unmarshal relayV1.t}.
Context {decode_statusV1 : json.Unmarshal deviceStatusV1.t}.
Context {decode_state : json.Unmarshal SwitchStateV2.t}.
Context {decode_statusV2 : json.Unmarshal DeviceStatusV2.t}.

Definition TurnOn (p : Plug) : M (bool * option Go.error) :=
  match p with
  | PlugV1 s => shellyPlugV1.TurnOn device s
  | PlugV2 s => shellyPlugV2.TurnOn device s
  end.

Definition TurnOff (p : Plug) : M (bool * option Go.error) :=
  match p with
  | PlugV1 s => shellyPlugV1.TurnOff device s
  | PlugV2 s => shellyPlugV2.TurnOff device s
  end.

Definition RenderEnergy (p : Plug) : M (Go.outcome (option Go.error)) :=
  match p with
  | PlugV1 s => shellyPlugV1.RenderEnergy device cfg s
  | PlugV2 s => shellyPlugV2.RenderEnergy device cfg s
  end.

(** [energyAction]: [RenderEnergy] on [os.Stdout], the sink of the
    world. *)
Definition energyAction (f : Flags) : M (Go.outcome (option Go.error)) :=
  let* r := newPlug f in
  match r with
  | inl err => ret (Go.Returns (Some err))
  | inr plug => RenderEnergy plug
  end.

(** [onAction] *)
Definition onAction (f : Flags) : M (option Go.error) :=
  let* r := newPlug f in
  match r with
  | inl err => ret (Some err)
  | inr plug =>
      let* res := TurnOn plug in
      match snd res with
      | Some e => ret (Some e)
      | None => (Fprintln [json.Lit "Device turned on"];; ret None)
      end
  end.

(** [offAction] *)
Definition offAction (f : Flags) : M (option Go.error) :=
  let* r := newPlug f in
  match r with
  | inl err => ret (Some err)
  | inr plug =>
      let* res := TurnOff plug in
      match snd res with
      | Some e => ret (Some e)
      | None => (Fprintln [json.Lit "Device turned off"];; ret None)
      end
  end.

(** *** The device report *)

Variable lib : Printers.
Context {decode_infoV1 : json.Unmarshal deviceInfoV1.t}.
Context {decode_infoV2 : json.Unmarshal DeviceInfoV2.t}.

(** [RenderInfo] reads the package variable [ip]: [f] holds it. *)
Definition RenderInfo (f : Flags) (p : Plug) : M (Go.outcome (option Go.error)) :=
  match p with
  | PlugV1 s => shellyPlugV1.RenderInfo device f lib s
  | PlugV2 s => shellyPlugV2.RenderInfo device f lib s
  end.

(** [infoAction]: [RenderInfo] on [os.Stdout]. *)
Definition infoAction (f : Flags) : M (Go.outcome (option Go.error)) :=
  let* r := newPlug f in
  match r with
  | inl err => ret (Go.Returns (Some err))
  | inr plug => RenderInfo f plug
  end.

End Interface.

(** ** The front end of the legacy client *)

Module legacy.

Section FrontEnd.
Variable device : resty.Request -> Go.error + resty.Response.
Variable cfg : Config.
Context {decode_status : json.Unmarshal DeviceStatus.t}.

(** [energyAction] of the legacy front end: it renders the meter
    itself, on [os.Stdout], and reads no relay. *)
Definition energyAction (f : Flags) : M (Go.outcome (option Go.error)) :=
  let* p := shellyPlug.NewShellyPlug (deviceUrl f) in
  match p with
  | inl err => ret (Go.Returns (Some err))
  | inr plug =>
    let* r := shellyPlug.Status device plug in
    match r with
    | inl err => ret (Go.Returns (Some err))
    | inr nfo =>
      if negb (length (DeviceStatus.Meters nfo) =? 1)%nat
      then ret (Go.Returns (Some (Go.Errorf "no meter information received")))
      else
        match DeviceStatus.Meters nfo !! 0%nat with
        | None => ret (Go.Panics Go.index_out_of_range)
        | Some m =>
          let reading : gmap string json.any :=
            {[ "power_watt" := json.Float64 (Meter.Power m);
               "power_total_kwh" :=
                 json.Float64 (Float64.of_int64 (Meter.Total m) * kwh_per_count)%float ]} in
          if jsonFormat cfg then
            match json.MarshalIndent (json.MapStringAny reading) with
            | inl err => ret (Go.Returns (Some err))
            | inr j => (Fprintln j;; ret (Go.Returns None))
            end
          else if choriaFormat cfg then
            let data : gmap string json.any :=
              {[ "labels" := json.MapStringString (labels cfg);
                 "metrics" := json.MapStringAny
                   {[ "current_power_watt" := json.index reading "power_watt";
                      "today_energy_kwh" := json.index reading "power_total_kwh" ]} ]} in
            match json.MarshalIndent (json.MapStringAny data) with
            | inl err => ret (Go.Returns (Some err))
            | inr j => (Fprintln j;; ret (Go.Returns None))
            end
          else
            (Fprintln [json.Lit "Meter Information"];;
             Fprintln [];;
             Fprintf ("               Power: " ++ Fmt.verb_f 2 (Meter.Power m) ++ " Watt" ++ LF);;
             Fprintf ("   Total Consumption: "
                      ++ Fmt.verb_f 2 (Float64.of_int64 (Meter.Total m) * kwh_per_count)%float
                      ++ " kWh" ++ LF);;
             ret (Go.Returns None))
        end
    end
  end.

Variable lib : Printers.
Context {decode_relay : json.Unmarshal Relay.t}.
Context {decode_info : json.Unmarshal DeviceInfo.t}.

(** [infoAction] of the legacy front end: the report of the generation 1
    client, printed on [os.Stdout], with the total memory under the
    label [Memory Used]. *)
Definition infoAction (f : Flags) : M (Go.outcome (option Go.error)) :=
  let* p := shellyPlug.NewShellyPlug (deviceUrl f) in
  match p with
  | inl err => ret (Go.Returns (Some err))
  | inr plug =>
    let* r := shellyPlug.Info device plug in
    match r with
    | inl err => ret (Go.Returns (Some err))
    | inr nfo =>
      let* r := shellyPlug.Status device plug in
      match r with
      | inl err => ret (Go.Returns (Some err))
      | inr status =>
        (Fprintf ("Shelly device information for " ++ ip f ++ LF);;
         Fprintln [];;
         Fprintln [json.Lit "Device Information"];;
         Fprintln [];;
         Fprintf ("         Device Type: " ++ DeviceInfo.Type_ nfo ++ LF);;
         Fprintf ("            Firmware: " ++ DeviceInfo.FW nfo ++ LF);;
         Fprintf ("         MAC Address: " ++ DeviceStatus.MAC status ++ LF);;
         Fprintln [];;
         Fprintln [json.Lit "Device Status"];;
         Fprintln [];;
         Fprintf ("                Time: "
                  ++ Time_String lib (DeviceStatus.Unixtime status) ++ LF);;
         Fprintf ("              Uptime: "
                  ++ Duration_String lib (time.seconds (DeviceStatus.Uptime status)) ++ LF);;
         Fprintf ("         Memory Used: "
                  ++ IBytes lib (Go.uint64 (DeviceStatus.RamTotal status)) ++ LF);;
         Fprintf ("         Memory Free: "
                  ++ IBytes lib (Go.uint64 (DeviceStatus.RamFree status)) ++ LF);;
         Fprintf ("       Storage Total: "
                  ++ IBytes lib (Go.uint64 (DeviceStatus.FsSize status)) ++ LF);;
         Fprintf ("        Storage Free: "
                  ++ IBytes lib (Go.uint64 (DeviceStatus.FsFree status)) ++ LF);;
         Fprintln [];;
         Fprintln [json.Lit "Network Information"];;
         Fprintln [];;
         Fprintf ("          IP Address: " ++ WiFiStatus.IP (DeviceStatus.WiFi status) ++ LF);;
         Fprintf ("           WiFi SSID: " ++ WiFiStatus.SSID (DeviceStatus.WiFi status) ++ LF);;
         Fprintf ("       WiFi Strength: "
                  ++ Fmt.verb_d (WiFiStatus.RSSI (DeviceStatus.WiFi status)) ++ LF);;
         Fprintf ("       Cloud Enabled: "
                  ++ Fmt.verb_t (CloudStatus.Enabled (DeviceStatus.Cloud status)) ++ LF);;
         (if CloudStatus.Enabled (DeviceStatus.Cloud status)
          then Fprintf ("     Cloud Connected: "
                        ++ Fmt.verb_t (CloudStatus.Connected (DeviceStatus.Cloud status)) ++ LF)
          else ret tt);;
         Fprintf ("      MQTT Connected: "
                  ++ Fmt.verb_t (MQTTStatus.Connected (DeviceStatus.MQTT status)) ++ LF);;
         Fprintln [];;
         Fprintln [json.Lit "Updates Information"];;
         Fprintln [];;
         Fprintf ("          Has Update: "
                  ++ Fmt.verb_t (UpdateStatus.HasUpdate (DeviceStatus.Update status)) ++ LF);;
         Fprintf ("    Latest Available: "
                  ++ UpdateStatus.NewVersion (DeviceStatus.Update status) ++ LF);;
         and_then
           (if (length (DeviceStatus.Relays status) =? 1)%nat
            then
              (Fprintln [];;
               Fprintln [json.Lit "Relay Information"];;
               Fprintln [];;
               match DeviceStatus.Relays status !! 0%nat with
               | None => ret (Go.Panics Go.index_out_of_range)
               | Some r =>
                 (Fprintf ("        Power Status: "
                           ++ (if negb (Relay.IsOn r) then "Off" else "On") ++ LF);;
                  Fprintf ("               Timer: " ++ Fmt.verb_t (Relay.HasTimer r) ++ LF);;
                  (if Relay.HasTimer r
                   then
                     (Fprintf ("             Started: "
                               ++ Time_String lib (Relay.TimerStarted r) ++ LF);;
                      Fprintf ("            Duration: "
                               ++ Duration_String lib (time.seconds (Relay.TimerDuration r)) ++ LF);;
                      Fprintf ("           Remaining: "
                               ++ Duration_String lib (time.seconds (Relay.TimerRemaining r)) ++ LF))
                   else ret tt);;
                  ret (Go.Returns tt))
               end)
            else ret (Go.Returns tt))
           (and_then
              (if (length (DeviceStatus.Meters status) =? 1)%nat
               then
                 (Fprintln [];;
                  Fprintln [json.Lit "Meter Information"];;
                  Fprintln [];;
                  match DeviceStatus.Meters status !! 0%nat with
                  | None => ret (Go.Panics Go.index_out_of_range)
                  | Some m =>
                    (Fprintf ("               Power: "
                              ++ Fmt.verb_f 2 (Meter.Power m) ++ " Watt" ++ LF);;
                     Fprintf ("   Total Consumption: "
                              ++ Fmt.verb_f 2 (Float64.of_int64 (Meter.Total m) * kwh_per_count)%float
                              ++ " kWh" ++ LF);;
                     ret (Go.Returns tt))
                  end)
               else ret (Go.Returns tt))
              (ret (Go.Returns None))))
      end
    end
  end.

(** [onAction] and [offAction] of the legacy front end. *)
Definition onAction (f : Flags) : M (option Go.error) :=
  let* p := shellyPlug.NewShellyPlug (deviceUrl f) in
  match p with
  | inl err => ret (Some err)
  | inr plug =>
      let* res := shellyPlug.TurnOn device plug in
      match snd res with
      | Some e => ret (Some e)
      | None => (Fprintln [json.Lit "Device turned on"];; ret None)
      end
  end.

Definition offAction (f : Flags) : M (option Go.error) :=
  let* p := shellyPlug.NewShellyPlug (deviceUrl f) in
  match p with
  | inl err => ret (Some err)
  | inr plug =>
      let* res := shellyPlug.TurnOff device plug in
      match snd res with
      | Some e => ret (Some e)
      | None => (Fprintln [json.Lit "Device turned off"];; ret None)
      end
  end.

End FrontEnd.

End legacy.

(** ** Vocabulary of the statements *)

(** The request a transport adapter prepares for [path] with [queries]
    on a client configured with [address]. *)
Definition request_to (address : url.URL) (path : string)
    (queries : gmap string string) : resty.Request :=
  {| resty.URL := "http://" ++ url.Hostname address ++ "/" ++ path;
     resty.QueryParam := queries;
     resty.BasicAuth := credentials address |}.

(** The device answers [req] with a success status and a body that
    decodes to [v]. *)
Definition answers {T : Type} (device : resty.Request -> Go.error + resty.Response)
    (dec : json.Unmarshal T) (req : resty.Request) (v : T) : Prop :=
  exists resp : resty.Response,
    device req = inr resp /\
    resty.IsError resp = false /\
    dec (resty.Body resp) = inr v.

(** The world after one more request. *)
Definition after_request (req : resty.Request) (w : World) : World :=
  {| sent := sent w ++ [req]; logged := logged w; written := written w |}.

(** [substr] occurs in [s]. *)
Fixpoint Contains (s substr : string) : bool :=
  String.prefix substr s ||
  match s with
  | EmptyString => false
  | String _ rest => Contains rest substr
  end.

(** The [float64] that the decoder reads from the number 2.45: the
    binary64 value nearest to it. *)
Definition power_2_45 : float := 0x1.399999999999ap+1%float.

(** The status [json.Unmarshal] fills in from a body that holds only a
    [meters] array of one meter with [power] 2.45 and [total] 615: every
    other field keeps its zero value, [Relays] is nil. *)
Definition meter_615 : meterV1.t :=
  {| meterV1.Power := power_2_45; meterV1.Overpower := 0; meterV1.IsValid := false;
     meterV1.Timestamp := 0; meterV1.Counters := []; meterV1.Total := 615 |}.

Definition status_meters_only : deviceStatusV1.t :=
  deviceStatusV1.with_lists [] [meter_615] deviceStatusV1.zero.

(** The same body as the legacy client decodes it. *)
Definition legacy_status_meters_only : DeviceStatus.t :=
  {| DeviceStatus.WiFi :=
       {| WiFiStatus.Connected := false; WiFiStatus.SSID := ""; WiFiStatus.IP := "";
          WiFiStatus.RSSI := 0 |};
     DeviceStatus.Cloud := {| CloudStatus.Enabled := false; CloudStatus.Connected := false |};
     DeviceStatus.MQTT := {| MQTTStatus.Connected := false |};
     DeviceStatus.Time := ""; DeviceStatus.Unixtime := 0; DeviceStatus.Serial := 0;
     DeviceStatus.MAC := "";
     DeviceStatus.Update :=
       {| UpdateStatus.Status := ""; UpdateStatus.HasUpdate := false;
          UpdateStatus.NewVersion := ""; UpdateStatus.OldVersion := "" |};
     DeviceStatus.FS := {| FileSystemStatus.Size := 0; FileSystemStatus.Free := 0 |};
     DeviceStatus.Uptime := 0;
     DeviceStatus.Relays := [];
     DeviceStatus.Meters :=
       [ {| Meter.Power := power_2_45; Meter.Overpower := 0; Meter.IsValid := false;
            Meter.Timestamp := 0; Meter.Counters := []; Meter.Total := 615 |} ];
     DeviceStatus.RamTotal := 0; DeviceStatus.RamFree := 0;
     DeviceStatus.FsSize := 0; DeviceStatus.FsFree := 0 |}.

Definition flags_for (host : string) : Flags :=
  {| ip := host; user := ""; pass := ""; v2Plus := false |}.

(** A generation 2 status as a plug reports it when the switch has an
    energy counter (1500 Wh) and no temperature sensor: [temperature]
    is absent from the body, so the pointer stays nil. *)
Definition switch_without_temperature : SwitchStatusV2.t :=
  {| SwitchStatusV2.ID := 0; SwitchStatusV2.Source := "init";
     SwitchStatusV2.Output := true; SwitchStatusV2.TimerStartedAt := 0;
     SwitchStatusV2.TimerDuration := 0; SwitchStatusV2.APower := 8.5;
     SwitchStatusV2.Voltage := 230; SwitchStatusV2.Current := 0.0625;
     SwitchStatusV2.PF := 0.5; SwitchStatusV2.Freq := 50;
     SwitchStatusV2.AEnergy :=
       Some {| ActiveEnergyV2.Total := 1500; ActiveEnergyV2.ByMinute := [];
               ActiveEnergyV2.MinuteTS := 0 |};
     SwitchStatusV2.RetAEnergy := None;
     SwitchStatusV2.Temperature := None;
     SwitchStatusV2.Errors := [] |}.

Definition status_without_temperature : DeviceStatusV2.t :=
  {| DeviceStatusV2.System := None;
     DeviceStatusV2.Switch1 := Some switch_without_temperature;
     DeviceStatusV2.WiFi := None |}.

(** The same switch with a temperature reading of 32.5 degrees. *)
Definition switch_with_temperature : SwitchStatusV2.t :=
  {| SwitchStatusV2.ID := 0; SwitchStatusV2.Source := "init";
     SwitchStatusV2.Output := true; SwitchStatusV2.TimerStartedAt := 0;
     SwitchStatusV2.TimerDuration := 0; SwitchStatusV2.APower := 8.5;
     SwitchStatusV2.Voltage := 230; SwitchStatusV2.Current := 0.0625;
     SwitchStatusV2.PF := 0.5; SwitchStatusV2.Freq := 50;
     SwitchStatusV2.AEnergy :=
       Some {| ActiveEnergyV2.Total := 1500; ActiveEnergyV2.ByMinute := [];
               ActiveEnergyV2.MinuteTS := 0 |};
     SwitchStatusV2.RetAEnergy := None;
     SwitchStatusV2.Temperature :=
       Some {| TemperatureStatusV2.TC := 32.5; TemperatureStatusV2.TF := 90.5 |};
     SwitchStatusV2.Errors := [] |}.

Definition status_with_temperature : DeviceStatusV2.t :=
  {| DeviceStatusV2.System := None;
     DeviceStatusV2.Switch1 := Some switch_with_temperature;
     DeviceStatusV2.WiFi := None |}.

(** A device that answers every request with status 200 and [body]. *)
Definition replies (body : string) : resty.Request -> Go.error + resty.Response :=
  fun req =>
    inr {| resty.StatusCode := 200; resty.Body := body;
           resty.RequestURL := resty.URL req |}.

(** A decoder that reads [v] from every body. *)
Definition reads {T : Type} (v : T) : json.Unmarshal T := fun _ => inr v.

Definition idle : World := {| sent := []; logged := []; written := [] |}.

Definition plain_address (host : string) : url.URL :=
  {| url.Scheme := "http"; url.User := None; url.Host := host |}.

Definition text_mode : Config :=
  {| jsonFormat := false; choriaFormat := false; labels := ∅ |}.
Definition json_mode : Config :=
  {| jsonFormat := true; choriaFormat := false; labels := ∅ |}.
Definition metrics_mode : Config :=
  {| jsonFormat := false; choriaFormat := true; labels := {[ "location" := "office" ]} |}.

(** The same body with a relay list of one relay (off), and with one of
    two relays. *)
Definition status_one_relay : deviceStatusV1.t :=
  deviceStatusV1.with_lists [relayV1.zero] [meter_615] deviceStatusV1.zero.

Definition status_two_relays : deviceStatusV1.t :=
  deviceStatusV1.with_lists [relayV1.zero; relayV1.zero] [meter_615] deviceStatusV1.zero.

(** An echo of the relay endpoint with the output on, for each
    generation. *)
Definition relay_on : relayV1.t :=
  {| relayV1.IsOn := true; relayV1.HasTimer := false; relayV1.TimerStarted := 0;
     relayV1.TimerDuration := 0; relayV1.TimerRemaining := 0;
     relayV1.Overpower := false; relayV1.Source := "http" |}.

Definition switch_state_on : SwitchStateV2.t :=
  {| SwitchStateV2.IsOn := true; SwitchStateV2.HasTimer := false;
     SwitchStateV2.TimerStartedAt := 0; SwitchStateV2.TimerDuration := 0;
     SwitchStateV2.TimerRemaining := 0; SwitchStateV2.Overpower := false;
     SwitchStateV2.Source := "http" |}.

(** A generation 2 status with a switch that reports no energy. *)
Definition status_without_energy : DeviceStatusV2.t :=
  {| DeviceStatusV2.System := None;
     DeviceStatusV2.Switch1 := Some SwitchStatusV2.zero;
     DeviceStatusV2.WiFi := None |}.

(** An address with credentials, and the clients used in the examples. *)
Definition address_with_credentials : url.URL :=
  {| url.Scheme := "http"; url.User := Some (url.UserPassword "admin" "secret");
     url.Host := "192.168.1.1" |}.

Definition plug_v1 : shellyPlugV1.t :=
  {| shellyPlugV1.address := plain_address "192.168.1.1" |}.
Definition plug_v2 : shellyPlugV2.t :=
  {| shellyPlugV2.address := plain_address "192.168.1.1" |}.

(** The exchange for [req] fails with [err]: the client hands back
    [err]; or the device answers with an error status, and [err] names
    the request URL and the body; or the body of a success does not
    decode, and [err] wraps the decoder's message. *)
Definition fails_with {T : Type} (device : resty.Request -> Go.error + resty.Response)
    (dec : json.Unmarshal T) (req : resty.Request) (err : Go.error) : Prop :=
  device req = inl err \/
  (exists resp : resty.Response,
     device req = inr resp /\ resty.IsError resp = true /\
     err = Go.Errorf (resty.RequestURL resp ++ ": " ++ resty.Body resp)) \/
  (exists (resp : resty.Response) (e : Go.error),
     device req = inr resp /\ resty.IsError resp = false /\
     dec (resty.Body resp) = inl e /\
     err = Go.Errorf ("invalid response body: " ++ Go.Error e)).

(** The request of [TurnOn] ([state] is [on]) and [TurnOff] ([off]). *)
Definition turn_request (address : url.URL) (state : string) : resty.Request :=
  request_to address "relay/0" {[ "turn" := state ]}.

(** A network on which no request gets through, a device that answers
    every request with status 401, and a decoder that accepts no body. *)
Definition refuses (msg : string) : resty.Request -> Go.error + resty.Response :=
  fun _ => inl (Go.ClientError msg).

Definition denies (body : string) : resty.Request -> Go.error + resty.Response :=
  fun req =>
    inr {| resty.StatusCode := 401; resty.Body := body;
           resty.RequestURL := resty.URL req |}.

Definition rejects {T : Type} (msg : string) : json.Unmarshal T :=
  fun _ => inl (Go.DecodeFailure msg).

(** The world after [out] has been written to the sink, and a
    computation that does nothing but write [out] and return [a]. *)
Definition wrote (out : list json.chunk) (w : World) : World :=
  {| sent := sent w; logged := logged w; written := (written w ++ out)%list |}.

Definition emits {A : Type} (c : M A) (a : A) (out : list json.chunk) : Prop :=
  forall w : World, c w = (a, wrote out w).

(** Flags with credentials, flags with the [v2] switch on, and printers
    that print the number they are given. *)
Definition flags_with_credentials : Flags :=
  {| ip := "192.168.1.1"; user := "admin"; pass := "secret"; v2Plus := false |}.

Definition flags_v2 : Flags :=
  {| ip := "192.168.1.1"; user := ""; pass := ""; v2Plus := true |}.

Definition plain_printers : Printers :=
  {| Time_String := fun sec => "@" ++ Fmt.verb_d sec;
     Duration_String := fun ns => Fmt.verb_d ns ++ "ns";
     IBytes := fun n => Fmt.verb_d n ++ " B" |}.

(** The [shelly] document of a generation 1 plug. *)
Definition info_v1 : deviceInfoV1.t :=
  {| deviceInfoV1.Type_ := "SHPLG-S"; deviceInfoV1.MAC := "C45BBE6B4B4A";
     deviceInfoV1.Auth := false; deviceInfoV1.FW := "1.11.0";
     deviceInfoV1.LongID := 1 |}.

(** A generation 1 plug that has been up for a day, with its relay on. *)
Definition status_running : deviceStatusV1.t :=
  {| deviceStatusV1.WiFi :=
       {| wiFiStatusV1.Connected := true; wiFiStatusV1.SSID := "home";
          wiFiStatusV1.IP := "192.168.1.1"; wiFiStatusV1.RSSI := -59 |};
     deviceStatusV1.Cloud := {| cloudStatusV1.Enabled := false; cloudStatusV1.Connected := false |};
     deviceStatusV1.MQTT := {| mQTTStatusV1.Connected := false |};
     deviceStatusV1.Time := "12:00"; deviceStatusV1.Unixtime := 1700000000;
     deviceStatusV1.Serial := 1; deviceStatusV1.MAC := "C45BBE6B4B4A";
     deviceStatusV1.Update := updateStatusV1.zero;
     deviceStatusV1.FS := {| fileSystemStatusV1.Size := 233681; fileSystemStatusV1.Free := 165158 |};
     deviceStatusV1.Uptime := 86400;
     deviceStatusV1.Relays := [relay_on];
     deviceStatusV1.Meters := [meter_615];
     deviceStatusV1.RamTotal := 51272; deviceStatusV1.RamFree := 38762;
     deviceStatusV1.FsSize := 233681; deviceStatusV1.FsFree := 165158 |}.

Definition info_v2 : DeviceInfoV2.t :=
  {| DeviceInfoV2.ID := "shellyplusplugs-c45bbe6b4b4a"; DeviceInfoV2.MAC := "C45BBE6B4B4A";
     DeviceInfoV2.Model := "SNPL-00112EU"; DeviceInfoV2.Gen := 2;
     DeviceInfoV2.FWID := "20231107-164738"; DeviceInfoV2.Ver := "1.0.8";
     DeviceInfoV2.App := "PlusPlugS"; DeviceInfoV2.Profile := "";
     DeviceInfoV2.AuthEn := false; DeviceInfoV2.AuthDomain := "";
     DeviceInfoV2.Discoverable := false; DeviceInfoV2.Key := "";
     DeviceInfoV2.Batch := ""; DeviceInfoV2.FWSBits := "" |}.

(** A generation 2 system status for which only a beta firmware is on
    offer, and a connected WiFi status. *)
Definition system_beta_only : SystemStatusV2.t :=
  {| SystemStatusV2.MAC := "C45BBE6B4B4A"; SystemStatusV2.RestartRequired := false;
     SystemStatusV2.Time := "12:00"; SystemStatusV2.UnixTime := 1700000000;
     SystemStatusV2.LastSyncTS := 1699999000; SystemStatusV2.Uptime := 86400;
     SystemStatusV2.RAMSize := 246256; SystemStatusV2.RAMFree := 143240;
     SystemStatusV2.FSSize := 458752; SystemStatusV2.FSFree := 147456;
     SystemStatusV2.CfgRev := 10; SystemStatusV2.KVSRev := 0;
     SystemStatusV2.ScheduleRev := 0; SystemStatusV2.WebhookRev := 0;
     SystemStatusV2.KNXRev := 0; SystemStatusV2.BTRelayRev := 0;
     SystemStatusV2.BTHCRev := 0;
     SystemStatusV2.AvailableUpdates :=
       {| AvailableUpdatesV2.Beta := Some {| UpdateInfoV2.Version := "1.1.0-beta2" |};
          AvailableUpdatesV2.Stable := None |};
     SystemStatusV2.WakeupReason := None; SystemStatusV2.WakeupPeriod := None;
     SystemStatusV2.UTCOffset := 3600 |}.

Definition wifi_connected : WifiStatusV2.t :=
  {| WifiStatusV2.StaIP := "192.168.1.1"; WifiStatusV2.Status := "got ip";
     WifiStatusV2.SSID := "home"; WifiStatusV2.BSSID := "";
     WifiStatusV2.RSSI := -59; WifiStatusV2.APClientCount := 0 |}.

(** The whole status of a plug without a temperature sensor, and of a
    device without a switch. *)
Definition status_plug_without_temperature : DeviceStatusV2.t :=
  {| DeviceStatusV2.System := Some system_beta_only;
     DeviceStatusV2.Switch1 := Some switch_without_temperature;
     DeviceStatusV2.WiFi := Some wifi_connected |}.

Definition status_without_switch : DeviceStatusV2.t :=
  {| DeviceStatusV2.System := Some system_beta_only;
     DeviceStatusV2.Switch1 := None;
     DeviceStatusV2.WiFi := Some wifi_connected |}.

(** The legacy echo of the relay endpoint, output on and output off. *)
Definition legacy_relay (on : bool) : Relay.t :=
  {| Relay.IsOn := on; Relay.HasTimer := false; Relay.TimerStarted := 0;
     Relay.TimerDuration := 0; Relay.TimerRemaining := 0;
     Relay.Overpower := false; Relay.Source := "http" |}.

(** Two decoders of the relay echo read the same document: they fail
    with the same error, or read the same [ison]. *)
Definition same_echo (legacy : json.Unmarshal Relay.t) (unified : json.Unmarshal relayV1.t)
    : Prop :=
  forall body : string,
    match legacy body, unified body with
    | inl e, inl e' => e = e'
    | inr r, inr r' => Relay.IsOn r = relayV1.IsOn r'
    | _, _ => False
    end.

(** The documents of the legacy client, read as the generation 1 client
    reads them: the same fields under the new type names. *)
Definition relay_as_V1 (r : Relay.t) : relayV1.t :=
  {| relayV1.IsOn := Relay.IsOn r; relayV1.HasTimer := Relay.HasTimer r;
     relayV1.TimerStarted := Relay.TimerStarted r;
     relayV1.TimerDuration := Relay.TimerDuration r;
     relayV1.TimerRemaining := Relay.TimerRemaining r;
     relayV1.Overpower := Relay.Overpower r; relayV1.Source := Relay.Source r |}.

Definition meter_as_V1 (m : Meter.t) : meterV1.t :=
  {| meterV1.Power := Meter.Power m; meterV1.Overpower := Meter.Overpower m;
     meterV1.IsValid := Meter.IsValid m; meterV1.Timestamp := Meter.Timestamp m;
     meterV1.Counters := Meter.Counters m; meterV1.Total := Meter.Total m |}.

Definition status_as_V1 (s : DeviceStatus.t) : deviceStatusV1.t :=
  {| deviceStatusV1.WiFi :=
       {| wiFiStatusV1.Connected := WiFiStatus.Connected (DeviceStatus.WiFi s);
          wiFiStatusV1.SSID := WiFiStatus.SSID (DeviceStatus.WiFi s);
          wiFiStatusV1.IP := WiFiStatus.IP (DeviceStatus.WiFi s);
          wiFiStatusV1.RSSI := WiFiStatus.RSSI (DeviceStatus.WiFi s) |};
     deviceStatusV1.Cloud :=
       {| cloudStatusV1.Enabled := CloudStatus.Enabled (DeviceStatus.Cloud s);
          cloudStatusV1.Connected := CloudStatus.Connected (DeviceStatus.Cloud s) |};
     deviceStatusV1.MQTT :=
       {| mQTTStatusV1.Connected := MQTTStatus.Connected (DeviceStatus.MQTT s) |};
     deviceStatusV1.Time := DeviceStatus.Time s;
     deviceStatusV1.Unixtime := DeviceStatus.Unixtime s;
     deviceStatusV1.Serial := DeviceStatus.Serial s;
     deviceStatusV1.MAC := DeviceStatus.MAC s;
     deviceStatusV1.Update :=
       {| updateStatusV1.Status := UpdateStatus.Status (DeviceStatus.Update s);
          updateStatusV1.HasUpdate := UpdateStatus.HasUpdate (DeviceStatus.Update s);
          updateStatusV1.NewVersion := UpdateStatus.NewVersion (DeviceStatus.Update s);
          updateStatusV1.OldVersion := UpdateStatus.OldVersion (DeviceStatus.Update s) |};
     deviceStatusV1.FS :=
       {| fileSystemStatusV1.Size := FileSystemStatus.Size (DeviceStatus.FS s);
          fileSystemStatusV1.Free := FileSystemStatus.Free (DeviceStatus.FS s) |};
     deviceStatusV1.Uptime := DeviceStatus.Uptime s;
     deviceStatusV1.Relays := map relay_as_V1 (DeviceStatus.Relays s);
     deviceStatusV1.Meters := map meter_as_V1 (DeviceStatus.Meters s);
     deviceStatusV1.RamTotal := DeviceStatus.RamTotal s;
     deviceStatusV1.RamFree := DeviceStatus.RamFree s;
     deviceStatusV1.FsSize := DeviceStatus.FsSize s;
     deviceStatusV1.FsFree := DeviceStatus.FsFree s |}.

Definition info_as_V1 (i : DeviceInfo.t) : deviceInfoV1.t :=
  {| deviceInfoV1.Type_ := DeviceInfo.Type_ i; deviceInfoV1.MAC := DeviceInfo.MAC i;
     deviceInfoV1.Auth := DeviceInfo.Auth i; deviceInfoV1.FW := DeviceInfo.FW i;
     deviceInfoV1.LongID := DeviceInfo.LongID i |}.

(** The unified decoder reads every body as the legacy decoder does. *)
Definition same_document {A B : Type} (conv : A -> B)
    (legacy : json.Unmarshal A) (unified : json.Unmarshal B) : Prop :=
  forall body : string,
    unified body =
    match legacy body with
    | inl e => inl e
    | inr a => inr (conv a)
    end.

Definition legacy_info : DeviceInfo.t :=
  {| DeviceInfo.Type_ := "SHPLG-S"; DeviceInfo.MAC := "C45BBE6B4B4A";
     DeviceInfo.Auth := false; DeviceInfo.FW := "1.11.0"; DeviceInfo.LongID := 1 |}.

(** * Properties *)

(** ** Rounding in binary64

    [SpecFloat] specifies the primitive operations; the lemmas below
    bound what one rounding to nearest loses, and from that what
    [float64(total) * 0.000016666666666666667] loses. *)

Section Rounding.

Import Float64.
Local Open Scope Z_scope.

Lemma iter_pos_nat {A} (f : A -> A) (p : positive) (x : A) :
  SpecFloat.iter_pos f p x = Nat.iter (Pos.to_nat p) f x.
Proof.
  revert x. induction p as [p IH|p IH|]; intros x; cbn [SpecFloat.iter_pos].
  - rewrite !IH, Pos2Nat.inj_xI, <- Nat.iter_add, <- Nat.iter_succ_r.
    f_equal. lia.
  - rewrite !IH, Pos2Nat.inj_xO, <- Nat.iter_add. f_equal. lia.
  - reflexivity.
Qed.

Lemma shr_1_nonneg m r s :
  0 <= m ->
  shr_1 {| shr_m := m; shr_r := r; shr_s := s |} =
  {| shr_m := m / 2; shr_r := Z.odd m; shr_s := r || s |}.
Proof.
  intros Hm. destruct m as [|p|p]; [reflexivity| |lia].
  destruct p as [p|p|]; simpl.
  - f_equal. rewrite Pos2Z.inj_xI. apply Z.div_unique with 1; lia.
  - f_equal. rewrite Pos2Z.inj_xO. apply Z.div_unique with 0; lia.
  - reflexivity.
Qed.

Lemma shr_iter_spec (m : Z) (k : nat) :
  0 <= m ->
  let rec := Nat.iter k shr_1 {| shr_m := m; shr_r := false; shr_s := false |} in
  0 <= shr_m rec /\
  tail_ok (Z.of_nat k) (m - shr_m rec * 2 ^ Z.of_nat k) (shr_r rec) (shr_s rec).
Proof.
  intros Hm. induction k as [|k IH].
  - simpl. split; [lia|]. unfold tail_ok. lia.
  - cbn zeta in *. rewrite Nat.iter_succ.
    destruct (Nat.iter k shr_1 _) as [q r s]. cbn [shr_m shr_r shr_s] in IH.
    destruct IH as [Hq Ht].
    rewrite shr_1_nonneg by assumption. cbn [shr_m shr_r shr_s].
    assert (Hp : 0 < 2 ^ Z.of_nat k) by (apply Z.pow_pos_nonneg; lia).
    assert (HS : 2 ^ Z.of_nat (S k) = 2 * 2 ^ Z.of_nat k)
      by (rewrite Nat2Z.inj_succ, Z.pow_succ_r by lia; reflexivity).
    pose proof (Z.div_mod q 2 ltac:(lia)) as Hdm.
    pose proof (Z.mod_pos_bound q 2 ltac:(lia)) as Hb.
    split; [apply Z.div_pos; lia|].
    replace (m - q / 2 * 2 ^ Z.of_nat (S k))
      with ((m - q * 2 ^ Z.of_nat k) + (q mod 2) * 2 ^ Z.of_nat k)
      by (rewrite HS; rewrite Hdm at 1; ring).
    generalize dependent (m - q * 2 ^ Z.of_nat k). intros rem Ht.
    rewrite Zodd_mod. unfold tail_ok in *. rewrite HS.
    destruct (Z.eqb_spec (q mod 2) 1) as [E|E].
    + rewrite E. change (Z.eqb 1 1) with true.
      destruct r, s; cbv [orb]; lia.
    + assert (E0 : q mod 2 = 0) by lia. rewrite E0.
      change (Z.eqb 0 1) with false.
      destruct r, s; cbv [orb]; lia.
Qed.

Lemma digits2_pos_bounds (p : positive) :
  2 ^ (Z.pos (digits2_pos p) - 1) <= Z.pos p < 2 ^ Z.pos (digits2_pos p).
Proof.
  induction p as [p IH|p IH|]; cbn [digits2_pos].
  - rewrite Pos2Z.inj_succ, (Pos2Z.inj_xI p).
    replace (Z.succ (Z.pos (digits2_pos p)) - 1) with (Z.succ (Z.pos (digits2_pos p) - 1)) by lia.
    rewrite (Z.pow_succ_r 2 (Z.pos (digits2_pos p) - 1)),
      (Z.pow_succ_r 2 (Z.pos (digits2_pos p))) by lia.
    lia.
  - rewrite Pos2Z.inj_succ, (Pos2Z.inj_xO p).
    replace (Z.succ (Z.pos (digits2_pos p)) - 1) with (Z.succ (Z.pos (digits2_pos p) - 1)) by lia.
    rewrite (Z.pow_succ_r 2 (Z.pos (digits2_pos p) - 1)),
      (Z.pow_succ_r 2 (Z.pos (digits2_pos p))) by lia.
    lia.
  - cbn. lia.
Qed.

Lemma digits2_pos_unique (p : positive) (k : Z) :
  2 ^ (k - 1) <= Z.pos p < 2 ^ k -> Z.pos (digits2_pos p) = k.
Proof.
  intros [Hlo Hhi]. pose proof (digits2_pos_bounds p) as [Blo Bhi].
  set (d := Z.pos (digits2_pos p)) in *.
  assert (0 < k).
  { destruct (Z_lt_le_dec 0 k); [assumption|].
    assert (2 ^ k <= 2 ^ 0) by (destruct (Z_lt_le_dec k 0);
      [rewrite Z.pow_neg_r by assumption; cbn; lia | apply Z.pow_le_mono_r; lia]).
    cbn in *. lia. }
  destruct (Z.lt_trichotomy d k) as [Hlt|[Heq|Hgt]]; [|assumption|].
  - assert (2 ^ d <= 2 ^ (k - 1)) by (apply Z.pow_le_mono_r; lia). lia.
  - assert (2 ^ k <= 2 ^ (d - 1)) by (apply Z.pow_le_mono_r; lia). lia.
Qed.

Lemma shr_as_iter (rec : shr_record) (e n : Z) :
  0 <= n -> shr rec e n = (Nat.iter (Z.to_nat n) shr_1 rec, e + n).
Proof.
  intros Hn. destruct n as [|p|p]; [|  |lia].
  - cbn. rewrite Z.add_0_r. reflexivity.
  - unfold shr. rewrite iter_pos_nat. reflexivity.
Qed.

Lemma round_nearest_even_spec (n mx q : Z) (r s : bool) :
  0 <= n -> tail_ok n (mx - q * 2 ^ n) r s ->
  let m1 := round_nearest_even q (loc_of_shr_record {| shr_m := q; shr_r := r; shr_s := s |}) in
  (m1 = q \/ m1 = q + 1) /\ 0 <= mx - q * 2 ^ n < 2 ^ n /\
  2 * Z.abs (m1 * 2 ^ n - mx) <= 2 ^ n.
Proof.
  intros Hn Ht. assert (Hp : 0 < 2 ^ n) by (apply Z.pow_pos_nonneg; lia).
  unfold tail_ok in Ht.
  destruct r, s; cbn [loc_of_shr_record round_nearest_even]; cbv zeta;
    try destruct (Z.even q); lia.
Qed.

Lemma fexp_normal (e : Z) : -1021 <= e -> fexp prec emax e = e - 53.
Proof. intros H. unfold fexp, SpecFloat.emin, prec, emax. lia. Qed.

Lemma binary_round_aux_spec (sx : bool) (mx : positive) (ex : Z) :
  let n := Z.pos (digits2_pos mx) - 53 in
  0 <= n -> -1074 <= ex + n -> ex + n + 1 <= 971 ->
  exists (m' : positive) (e' : Z),
    binary_round_aux prec emax sx (Z.pos mx) ex loc_Exact = S754_finite sx m' e' /\
    Z.pos (digits2_pos m') = 53 /\
    ex + n <= e' <= ex + n + 1 /\
    2 * Z.abs (Z.pos m' * 2 ^ (e' - ex) - Z.pos mx) <= 2 ^ n.
Proof.
  intros n Hn Hlo Hhi.
  pose proof (digits2_pos_bounds mx) as [Blo Bhi].
  replace (Z.pos (digits2_pos mx)) with (n + 53) in Blo, Bhi by (unfold n; lia).
  replace (n + 53 - 1) with (52 + n) in Blo by lia.
  rewrite Z.pow_add_r in Blo by lia. rewrite Z.pow_add_r in Bhi by lia.
  assert (Hp : 0 < 2 ^ n) by (apply Z.pow_pos_nonneg; lia).
  unfold binary_round_aux, shr_fexp.
  cbn [Zdigits2 shr_record_of_loc].
  rewrite fexp_normal by (unfold n in *; lia).
  replace (Z.pos (digits2_pos mx) + ex - 53 - ex) with n by (unfold n; lia).
  rewrite shr_as_iter by assumption.
  pose proof (shr_iter_spec (Z.pos mx) (Z.to_nat n) ltac:(lia)) as Hs.
  cbn zeta in Hs. rewrite Z2Nat.id in Hs by assumption.
  destruct (Nat.iter (Z.to_nat n) shr_1 _) as [q r s].
  cbn [shr_m shr_r shr_s] in Hs. destruct Hs as [Hq Ht].
  pose proof (round_nearest_even_spec n (Z.pos mx) q r s Hn Ht) as Hr.
  cbn zeta in Hr. cbn [shr_m].
  set (m1 := round_nearest_even q _) in *.
  destruct Hr as (Hm1 & Hrem & Herr).
  assert (Hqb : 2 ^ 52 <= q < 2 ^ 53) by nia.
  destruct (Z.eq_dec m1 (2 ^ 53)) as [Etop|Ntop].
  - (* the rounded mantissa carries into the next binade *)
    rewrite Etop in *.
    exists (2 ^ 52)%positive, (ex + n + 1).
    replace (ex + n + 1 - ex) with (n + 1) by lia.
    rewrite Z.pow_add_r by lia.
    split; [|split; [reflexivity|split; [lia|]]].
    + change (Zdigits2 (2 ^ 53)) with 54.
      rewrite fexp_normal by lia.
      replace (54 + (ex + n) - 53 - (ex + n)) with 1 by lia.
      cbn [shr shr_record_of_loc SpecFloat.iter_pos].
      change (shr_m (shr_1 {| shr_m := 2 ^ 53; shr_r := false; shr_s := false |}))
        with (Z.pos (2 ^ 52)).
      cbv iota beta. replace (ex + n + 1 <=? emax - prec) with true; [reflexivity|].
      symmetry. apply Z.leb_le. unfold emax, prec. lia.
    + change (Z.pos (2 ^ 52)) with (2 ^ 52). change (2 ^ 1) with 2.
      change (2 ^ 53) with (2 * 2 ^ 52) in Herr. lia.
  - assert (Hm1b : 2 ^ 52 <= m1 < 2 ^ 53) by lia.
    destruct m1 as [|p1|p1]; [cbn in Hm1b; lia| |cbn in Hm1b; lia].
    exists p1, (ex + n).
    replace (ex + n - ex) with n by lia.
    assert (Hd : Z.pos (digits2_pos p1) = 53) by (apply digits2_pos_unique; exact Hm1b).
    split; [|split; [exact Hd|split; [lia|exact Herr]]].
    cbn [Zdigits2]. rewrite Hd.
    rewrite fexp_normal by lia.
    replace (53 + (ex + n) - 53 - (ex + n)) with 0 by lia.
    cbn [shr shr_record_of_loc shr_m].
    replace (ex + n <=? emax - prec) with true; [reflexivity|].
    symmetry. apply Z.leb_le. unfold emax, prec. lia.
Qed.

Lemma iter_xO (p k : positive) : Z.pos (Pos.iter xO p k) = Z.pos p * 2 ^ Z.pos k.
Proof.
  induction k as [|k IH] using Pos.peano_ind.
  - cbn. lia.
  - rewrite Pos.iter_succ, Pos2Z.inj_xO, IH, Pos2Z.inj_succ, Z.pow_succ_r by lia. ring.
Qed.

Lemma finite_valid (s : bool) (m : positive) (e : Z) :
  Z.pos (digits2_pos m) = 53 -> -1074 <= e <= 971 ->
  valid_binary (S754_finite s m e) = true.
Proof.
  intros Hd He. unfold SpecFloat.valid_binary, bounded, canonical_mantissa.
  rewrite Hd. unfold fexp, SpecFloat.emin, prec, emax.
  apply andb_true_intro. split; [apply Z.eqb_eq | apply Z.leb_le]; lia.
Qed.

(** The conversion of a non-zero [int64]: a normal number within half a
    unit in the last place. *)
Lemma binary_normalize_int (t : Z) :
  t <> 0 -> - 2 ^ 63 <= t < 2 ^ 63 ->
  exists (m1 : positive) (e1 : Z),
    binary_normalize prec emax t 0 false = S754_finite (t <? 0) m1 e1 /\
    Z.pos (digits2_pos m1) = 53 /\ -52 <= e1 <= 12 /\
    2 ^ 53 * Z.abs (Z.pos m1 * 2 ^ (e1 + 52) - Z.abs t * 2 ^ 52) <= Z.abs t * 2 ^ 52.
Proof.
  intros Hnz Hr.
  assert (Hgen : forall (s : bool) (p : positive), Z.pos p <= 2 ^ 63 ->
    exists (m1 : positive) (e1 : Z),
      binary_round prec emax s p 0 = S754_finite s m1 e1 /\
      Z.pos (digits2_pos m1) = 53 /\ -52 <= e1 <= 12 /\
      2 ^ 53 * Z.abs (Z.pos m1 * 2 ^ (e1 + 52) - Z.pos p * 2 ^ 52) <= Z.pos p * 2 ^ 52).
  { intros s p Hp. unfold binary_round.
    pose proof (digits2_pos_bounds p) as [Blo Bhi].
    set (d := Z.pos (digits2_pos p)) in *.
    assert (Hd1 : 1 <= d) by (unfold d; lia).
    assert (Hd64 : d <= 64).
    { destruct (Z_le_gt_dec d 64); [assumption|].
      assert (2 ^ 64 <= 2 ^ (d - 1)) by (apply Z.pow_le_mono_r; lia).
      change (2 ^ 64) with (2 * 2 ^ 63) in *. lia. }
    rewrite Z.add_0_r, fexp_normal by lia.
    unfold shl_align. rewrite Z.sub_0_r.
    destruct (d - 53) as [|k|k] eqn:Ek.
    - (* exactly 53 digits *)
      destruct (binary_round_aux_spec s p 0) as (m1 & e1 & Hres & Hdig & He & Herr);
        fold d; try lia.
      fold d in He, Herr. rewrite Ek in He, Herr. change (2 ^ 0) with 1 in Herr.
      assert (e1 = 0 \/ e1 = 1) as [-> | ->] by lia.
      + exists m1, 0. rewrite Hres. split; [reflexivity|split; [assumption|split; [lia|]]].
        change (2 ^ (0 - 0)) with 1 in Herr. change (0 + 52) with 52.
        replace (Z.pos m1 * 2 ^ 52 - Z.pos p * 2 ^ 52) with 0 by nia.
        cbn [Z.abs]. nia.
      + exists m1, 1. rewrite Hres. split; [reflexivity|split; [assumption|split; [lia|]]].
        change (2 ^ (1 - 0)) with 2 in Herr. change (2 ^ (1 + 52)) with (2 * 2 ^ 52).
        replace (Z.pos m1 * (2 * 2 ^ 52) - Z.pos p * 2 ^ 52) with 0 by nia.
        cbn [Z.abs]. nia.
    - (* more than 53 digits: the low bits are rounded away *)
      destruct (binary_round_aux_spec s p 0) as (m1 & e1 & Hres & Hdig & He & Herr);
        fold d; try lia.
      fold d in He, Herr. rewrite Ek in He, Herr. rewrite Z.sub_0_r in Herr.
      exists m1, e1. rewrite Hres.
      split; [reflexivity|split; [assumption|split; [lia|]]].
      replace (d - 1) with (52 + Z.pos k) in Blo by lia.
      rewrite Z.pow_add_r in Blo by lia.
      rewrite Z.pow_add_r by lia.
      assert (Hk : 0 < 2 ^ Z.pos k) by (apply Z.pow_pos_nonneg; lia).
      change (2 ^ 53) with (2 * 2 ^ 52) in *.
      set (A := Z.pos m1 * 2 ^ e1) in *.
      replace (Z.pos m1 * (2 ^ e1 * 2 ^ 52) - Z.pos p * 2 ^ 52)
        with ((A - Z.pos p) * 2 ^ 52) by (unfold A; ring).
      rewrite Z.abs_mul. change (Z.abs (2 ^ 52)) with (2 ^ 52). nia.
    - (* fewer than 53 digits: the mantissa is shifted left, exactly *)
      assert (Hsh : Z.pos (Pos.iter xO p k) = Z.pos p * 2 ^ Z.pos k) by apply iter_xO.
      assert (Hdk : d + Z.pos k = 53) by lia.
      assert (Hpk : 2 ^ 52 <= Z.pos p * 2 ^ Z.pos k < 2 ^ 53).
      { assert (E52 : 2 ^ 52 = 2 ^ (d - 1) * 2 ^ Z.pos k)
          by (rewrite <- Z.pow_add_r by lia; f_equal; lia).
        assert (E53 : 2 ^ 53 = 2 ^ d * 2 ^ Z.pos k)
          by (rewrite <- Z.pow_add_r by lia; f_equal; lia).
        rewrite E52, E53.
        assert (0 < 2 ^ Z.pos k) by (apply Z.pow_pos_nonneg; lia).
        split; [apply Z.mul_le_mono_nonneg_r; lia | apply Z.mul_lt_mono_pos_r; lia]. }
      assert (Hdig : Z.pos (digits2_pos (Pos.iter xO p k)) = 53)
        by (apply digits2_pos_unique; rewrite Hsh; exact Hpk).
      destruct (binary_round_aux_spec s (Pos.iter xO p k) (Z.neg k))
        as (m1 & e1 & Hres & Hdig1 & He & Herr); rewrite ?Hdig; try lia.
      rewrite Hdig in He, Herr. change (53 - 53) with 0 in He, Herr.
      change (2 ^ 0) with 1 in Herr.
      assert (Hcases : e1 = Z.neg k \/ e1 = Z.neg k + 1) by lia.
      exists m1, e1. rewrite Hres.
      split; [reflexivity|split; [assumption|split; [lia|]]].
      rewrite Hsh in Herr.
      assert (Hz : Z.pos m1 * 2 ^ (e1 - Z.neg k) = Z.pos p * 2 ^ Z.pos k) by lia.
      replace (e1 + 52) with ((e1 - Z.neg k) + (52 - Z.pos k)) by lia.
      rewrite Z.pow_add_r by lia.
      replace (Z.pos m1 * (2 ^ (e1 - Z.neg k) * 2 ^ (52 - Z.pos k)))
        with (Z.pos m1 * 2 ^ (e1 - Z.neg k) * 2 ^ (52 - Z.pos k)) by ring.
      rewrite Hz.
      replace (Z.pos p * 2 ^ Z.pos k * 2 ^ (52 - Z.pos k)) with (Z.pos p * 2 ^ 52).
      + rewrite Z.sub_diag. cbn [Z.abs]. lia.
      + rewrite <- Z.mul_assoc, <- Z.pow_add_r by lia. f_equal. f_equal. lia. }
  destruct t as [|p|p]; [congruence| |].
  - destruct (Hgen false p ltac:(lia)) as (m1 & e1 & H); exists m1, e1. exact H.
  - destruct (Hgen true p ltac:(lia)) as (m1 & e1 & H); exists m1, e1. exact H.
Qed.

Lemma kwh_per_count_bits : Prim2SF kwh_per_count = S754_finite false kwh_mantissa (-68).
Proof. vm_compute. reflexivity. Qed.

Lemma SFmul_kwh (s : bool) (m1 : positive) (e1 : Z) :
  Z.pos (digits2_pos m1) = 53 -> -52 <= e1 <= 12 ->
  exists (m2 : positive) (e2 : Z),
    SFmul prec emax (S754_finite s m1 e1) (S754_finite false kwh_mantissa (-68))
      = S754_finite s m2 e2 /\
    Z.pos (digits2_pos m2) = 53 /\ e1 - 16 <= e2 <= e1 - 14 /\
    2 ^ 53 * Z.abs (Z.pos m2 * 2 ^ (e2 - e1 + 68) - Z.pos m1 * Z.pos kwh_mantissa)
      <= Z.pos m1 * Z.pos kwh_mantissa.
Proof.
  intros Hd He. cbn [SFmul]. rewrite xorb_false_r.
  pose proof (digits2_pos_bounds m1) as Hb1. rewrite Hd in Hb1.
  change (53 - 1) with 52 in Hb1.
  pose proof (digits2_pos_bounds (m1 * kwh_mantissa)) as [Blo Bhi].
  rewrite Pos2Z.inj_mul in Blo, Bhi.
  set (d := Z.pos (digits2_pos (m1 * kwh_mantissa))) in *.
  assert (Hc : 2 ^ 52 <= Z.pos kwh_mantissa < 2 ^ 53) by (cbv; split; congruence).
  assert (Hprod : 2 ^ 104 <= Z.pos m1 * Z.pos kwh_mantissa < 2 ^ 106).
  { change (2 ^ 104) with (2 ^ 52 * 2 ^ 52). change (2 ^ 106) with (2 ^ 53 * 2 ^ 53).
    split; [apply Z.mul_le_mono_nonneg | apply Z.mul_lt_mono_nonneg]; lia. }
  assert (Hd1 : 1 <= d) by (unfold d; lia).
  assert (Hdl : 105 <= d).
  { destruct (Z_le_gt_dec 105 d); [assumption|].
    assert (2 ^ d <= 2 ^ 104) by (apply Z.pow_le_mono_r; lia). lia. }
  assert (Hdu : d <= 106).
  { destruct (Z_le_gt_dec d 106); [assumption|].
    assert (2 ^ 106 <= 2 ^ (d - 1)) by (apply Z.pow_le_mono_r; lia). lia. }
  destruct (binary_round_aux_spec s (m1 * kwh_mantissa) (e1 + -68))
    as (m2 & e2 & Hres & Hdig & Hex & Herr); fold d; try lia.
  fold d in Hex, Herr.
  exists m2, e2. rewrite Hres.
  split; [reflexivity|split; [assumption|split; [lia|]]].
  rewrite Pos2Z.inj_mul in Herr.
  replace (e2 - (e1 + -68)) with (e2 - e1 + 68) in Herr by lia.
  replace (d - 1) with (52 + (d - 53)) in Blo by lia.
  rewrite Z.pow_add_r in Blo by lia.
  change (2 ^ 53) with (2 * 2 ^ 52).
  generalize dependent (2 ^ 52). intros. nia.
Qed.

Lemma tolerance_Z (T : Z) (m1 m2 : positive) (e1 e2 : Z) :
  0 < T -> -52 <= e1 <= 12 -> e1 - 16 <= e2 <= e1 - 14 ->
  2 ^ 53 * Z.abs (Z.pos m1 * 2 ^ (e1 + 52) - T * 2 ^ 52) <= T * 2 ^ 52 ->
  2 ^ 53 * Z.abs (Z.pos m2 * 2 ^ (e2 - e1 + 68) - Z.pos m1 * Z.pos kwh_mantissa)
    <= Z.pos m1 * Z.pos kwh_mantissa ->
  2 ^ 51 * Z.abs (60000 * Z.pos m2 - T * 2 ^ (- e2)) <= T * 2 ^ (- e2).
Proof.
  intros HT He1 He2 H1 H2.
  set (K := 2 ^ (e2 - e1 + 68)) in *.
  set (S := 2 ^ (e1 + 52)) in *.
  set (D := 2 ^ (- e2)).
  assert (HK : 0 < K) by (apply Z.pow_pos_nonneg; lia).
  assert (HS : 0 < S) by (apply Z.pow_pos_nonneg; lia).
  assert (HD : 0 < D) by (apply Z.pow_pos_nonneg; lia).
  assert (HKSD : K * S * D = 2 ^ 120).
  { unfold K, S, D. rewrite <- !Z.pow_add_r by lia. f_equal. lia. }
  set (X := Z.pos m1 * S) in *.
  set (W := Z.pos m2 * K * S).
  assert (H2s : 2 ^ 53 * Z.abs (W - X * Z.pos kwh_mantissa) <= X * Z.pos kwh_mantissa).
  { replace (W - X * Z.pos kwh_mantissa)
      with ((Z.pos m2 * K - Z.pos m1 * Z.pos kwh_mantissa) * S) by (unfold W, X; ring).
    rewrite Z.abs_mul, (Z.abs_eq S) by lia.
    replace (X * Z.pos kwh_mantissa) with (Z.pos m1 * Z.pos kwh_mantissa * S)
      by (unfold X; ring).
    rewrite Z.mul_assoc. apply Z.mul_le_mono_nonneg_r; [lia|exact H2]. }
  assert (L : 2 ^ 51 * Z.abs (60000 * W - T * 2 ^ 120) <= T * 2 ^ 120).
  { unfold kwh_mantissa in H2s. clearbody X W. clear - H1 H2s HT.
    change (2 ^ 53) with 9007199254740992 in *.
    change (2 ^ 52) with 4503599627370496 in *.
    change (2 ^ 51) with 2251799813685248.
    change (2 ^ 120) with 1329227995784915872903807060280344576.
    lia. }
  rewrite <- HKSD in L.
  replace (60000 * W - T * (K * S * D)) with ((60000 * Z.pos m2 - T * D) * (K * S)) in L
    by (unfold W; ring).
  rewrite Z.abs_mul, (Z.abs_eq (K * S)) in L by nia.
  assert (HKS : 0 < K * S) by nia.
  apply (Z.mul_le_mono_pos_r _ _ (K * S) HKS).
  lia.
Qed.

Lemma SFeqb_finite_refl (s : bool) (m : positive) (e : Z) :
  SFeqb (S754_finite s m e) (S754_finite s m e) = true.
Proof.
  unfold SFeqb, SFcompare. rewrite Z.compare_refl, Pos.compare_cont_refl.
  destruct s; reflexivity.
Qed.

Lemma finite_is_finite (f : float) (s : bool) (m : positive) (e : Z) :
  Prim2SF f = S754_finite s m e -> is_finite f = true.
Proof.
  intros H. unfold is_finite, is_nan, is_infinity.
  rewrite !FloatAxioms.eqb_spec, FloatAxioms.abs_spec, H, SFeqb_finite_refl. reflexivity.
Qed.

Lemma Q_tolerance (a t : Z) (P : positive) :
  2 ^ 51 * Z.abs (60000 * a - t * Z.pos P) <= Z.abs t * Z.pos P ->
  (Qabs ((a # P) - inject_Z t / 60000) <= tolerance * Qabs (inject_Z t / 60000))%Q.
Proof.
  intros H.
  assert (E : (inject_Z t / 60000 == t # 60000)%Q).
  { unfold Qeq, Qdiv, Qmult, Qinv, inject_Z. cbn [Qnum Qden]. lia. }
  rewrite E. unfold tolerance, Qle, Qabs, Qminus, Qplus, Qopp, Qmult. cbn [Qnum Qden].
  rewrite !Pos2Z.inj_mul.
  change (Z.pos (2 ^ 51)) with (2 ^ 51).
  replace (a * 60000 + - t * Z.pos P) with (60000 * a - t * Z.pos P) by ring.
  nia.
Qed.

Theorem kwh_within_tolerance (t : Z) :
  - 2 ^ 63 <= t < 2 ^ 63 ->
  let f := (of_int64 t * kwh_per_count)%float in
  is_finite f = true /\
  (Qabs (to_Q f - inject_Z t / 60000) <= tolerance * Qabs (inject_Z t / 60000))%Q.
Proof.
  intros Hr f. destruct (Z.eq_dec t 0) as [->|Hnz].
  - split; [reflexivity|]. vm_compute. discriminate.
  - destruct (binary_normalize_int t Hnz Hr) as (m1 & e1 & Hconv & Hd1 & He1 & Herr1).
    destruct (SFmul_kwh (t <? 0) m1 e1 Hd1 He1) as (m2 & e2 & Hmul & Hd2 & He2 & Herr2).
    assert (Hf : Prim2SF f = S754_finite (t <? 0) m2 e2).
    { unfold f, of_int64. rewrite mul_spec, Hconv.
      rewrite Prim2SF_SF2Prim by (apply finite_valid; [assumption|lia]).
      rewrite kwh_per_count_bits. exact Hmul. }
    split; [eapply finite_is_finite; exact Hf|].
    unfold to_Q. rewrite Hf. cbn [SF2Q].
    replace (0 <=? e2) with false by (symmetry; apply Z.leb_gt; lia).
    assert (HD : 0 < 2 ^ (- e2)) by (apply Z.pow_pos_nonneg; lia).
    apply Q_tolerance. rewrite Z2Pos.id by assumption.
    pose proof (tolerance_Z (Z.abs t) m1 m2 e1 e2 ltac:(lia) He1 He2 Herr1 Herr2) as HT.
    destruct (Z.ltb_spec t 0) as [Hneg|Hpos].
    + rewrite (Z.abs_neq t) in HT |- * by lia.
      replace (60000 * Z.neg m2 - t * 2 ^ (- e2))
        with (- (60000 * Z.pos m2 - - t * 2 ^ (- e2))) by (rewrite <- Pos2Z.opp_pos; ring).
      rewrite Z.abs_opp. exact HT.
    + rewrite (Z.abs_eq t) in HT |- * by lia. exact HT.
Qed.

Lemma is_finite_spec (f : float) : is_finite f = SFfinite (Prim2SF f).
Proof.
  unfold is_finite, is_nan, is_infinity.
  rewrite !FloatAxioms.eqb_spec, FloatAxioms.abs_spec.
  destruct (Prim2SF f) as [s|s| |s m e]; cbn [SFabs SFfinite].
  - destruct s; reflexivity.
  - destruct s; reflexivity.
  - reflexivity.
  - rewrite SFeqb_finite_refl. reflexivity.
Qed.

Lemma shr_m_iter (k : nat) : forall (m : Z) (r s : bool),
  0 <= m ->
  shr_m (Nat.iter k shr_1 {| shr_m := m; shr_r := r; shr_s := s |}) = m / 2 ^ Z.of_nat k.
Proof.
  induction k as [|k IH]; intros m r s Hm.
  - cbn. rewrite Z.div_1_r. reflexivity.
  - rewrite Nat.iter_succ_r, shr_1_nonneg by assumption.
    rewrite IH by (apply Z.div_pos; lia).
    rewrite Nat2Z.inj_succ, Z.pow_succ_r by lia.
    rewrite Z.div_div by (try apply Z.pow_pos_nonneg; lia). reflexivity.
Qed.

Lemma shr_general (rec : shr_record) (e n : Z) :
  shr rec e n = (Nat.iter (Z.to_nat n) shr_1 rec, Z.max e (e + n)).
Proof.
  destruct n as [|p|p]; cbn [shr Z.to_nat Nat.iter].
  - f_equal. lia.
  - rewrite iter_pos_nat. f_equal. lia.
  - f_equal. lia.
Qed.

Lemma Zdigits2_le (a k : Z) : 0 <= k -> 0 <= a < 2 ^ k -> Zdigits2 a <= k.
Proof.
  intros Hk [Ha Hlt]. destruct a as [|p|p]; [cbn; lia| |lia].
  cbn [Zdigits2]. pose proof (digits2_pos_bounds p) as [Blo _].
  destruct (Z_le_gt_dec (Z.pos (digits2_pos p)) k) as [|Hgt]; [assumption|].
  assert (2 ^ k <= 2 ^ (Z.pos (digits2_pos p) - 1)) by (apply Z.pow_le_mono_r; lia).
  lia.
Qed.

Lemma Zdigits2_bound (a : Z) : 0 <= a -> 0 <= Zdigits2 a /\ a < 2 ^ Zdigits2 a.
Proof.
  intros Ha. destruct a as [|p|p]; [cbn; lia| |lia].
  cbn [Zdigits2]. pose proof (digits2_pos_bounds p). lia.
Qed.

Lemma round_nearest_even_range (q : Z) (l : location) :
  q <= round_nearest_even q l <= q + 1.
Proof.
  destruct l as [|[]]; cbn [round_nearest_even]; try destruct (Z.even q); lia.
Qed.

(** Rounding cannot overflow a value below [2^1023]. *)
Lemma binary_round_aux_finite (sx : bool) (mz ez : Z) (lz : location) :
  0 <= mz -> Zdigits2 mz + ez <= 1023 -> ez <= 971 ->
  SFfinite (binary_round_aux prec emax sx mz ez lz) = true.
Proof.
  intros Hmz Hd He.
  destruct (Zdigits2_bound mz Hmz) as [Hdz Hlt].
  set (dz := Zdigits2 mz) in *.
  unfold binary_round_aux, shr_fexp. fold dz.
  set (n1 := fexp prec emax (dz + ez) - ez).
  assert (Hn1 : ez + n1 <= 970) by (unfold n1, fexp, SpecFloat.emin, prec, emax; lia).
  rewrite shr_general.
  assert (Hrec : exists r s, shr_record_of_loc mz lz = {| shr_m := mz; shr_r := r; shr_s := s |}).
  { destruct lz as [|[]]; cbn; eauto. }
  destruct Hrec as (r & s & ->).
  set (rec1 := Nat.iter (Z.to_nat n1) shr_1 _).
  assert (Hq1 : shr_m rec1 = mz / 2 ^ Z.of_nat (Z.to_nat n1)) by (apply shr_m_iter; assumption).
  set (e1 := Z.max ez (ez + n1)) in *.
  set (m1 := round_nearest_even (shr_m rec1) (loc_of_shr_record rec1)).
  pose proof (round_nearest_even_range (shr_m rec1) (loc_of_shr_record rec1)) as Hm1.
  fold m1 in Hm1. rewrite Hq1 in Hm1.
  set (k := Z.of_nat (Z.to_nat n1)) in *.
  assert (Hk : 0 <= k) by (unfold k; lia).
  assert (Hke : e1 = ez + k) by (unfold e1, k; lia).
  assert (Hpk : 0 < 2 ^ k) by (apply Z.pow_pos_nonneg; lia).
  assert (Hq0 : 0 <= mz / 2 ^ k) by (apply Z.div_pos; lia).
  assert (Hm1pos : 0 <= m1) by lia.
  (* the rounded mantissa has at most [max (dz - k) 0 + 1] digits *)
  assert (Hdm1 : Zdigits2 m1 + e1 <= 1024).
  { destruct (Z_le_gt_dec k dz) as [Hle|Hgt].
    - assert (Hq : mz / 2 ^ k < 2 ^ (dz - k)).
      { apply Z.div_lt_upper_bound; [lia|].
        rewrite <- Z.pow_add_r by lia. replace (k + (dz - k)) with dz by lia. exact Hlt. }
      assert (Zdigits2 m1 <= dz - k + 1).
      { apply Zdigits2_le; [lia|]. rewrite Z.pow_add_r by lia. change (2 ^ 1) with 2. lia. }
      lia.
    - assert (Hq : mz / 2 ^ k = 0).
      { apply Z.div_small. split; [assumption|].
        assert (2 ^ dz <= 2 ^ k) by (apply Z.pow_le_mono_r; lia). lia. }
      assert (Zdigits2 m1 <= 1).
      { apply Zdigits2_le; [lia|]. change (2 ^ 1) with 2. lia. }
      lia. }
  cbn [shr_record_of_loc]. rewrite shr_general.
  set (n2 := fexp prec emax (Zdigits2 m1 + e1) - e1).
  assert (Hn2 : e1 + n2 <= 971) by (unfold n2, fexp, SpecFloat.emin, prec, emax; lia).
  rewrite shr_m_iter by assumption.
  assert (Hfin : 0 <= m1 / 2 ^ Z.of_nat (Z.to_nat n2)).
  { apply Z.div_pos; [assumption|]. apply Z.pow_pos_nonneg; lia. }
  destruct (m1 / 2 ^ Z.of_nat (Z.to_nat n2)) as [|p|p]; [reflexivity| |lia].
  replace (Z.max e1 (e1 + n2) <=? emax - prec) with true; [reflexivity|].
  symmetry. apply Z.leb_le. unfold emax, prec. lia.
Qed.

Lemma thousand_bits : Prim2SF 1000%float = S754_finite false thousand_mantissa (-43).
Proof. vm_compute. reflexivity. Qed.

(** A valid finite number has at most 53 digits. *)
Lemma valid_digits (s : bool) (m : positive) (e : Z) :
  valid_binary (S754_finite s m e) = true ->
  Z.pos (digits2_pos m) <= 53 /\ -1074 <= e <= 971.
Proof.
  unfold SpecFloat.valid_binary, bounded, canonical_mantissa.
  intros H. apply andb_prop in H as [Hc He].
  apply Z.eqb_eq in Hc. apply Z.leb_le in He.
  unfold fexp, SpecFloat.emin, prec, emax in *. lia.
Qed.

Lemma SFdiv_thousand_finite (x : spec_float) :
  valid_binary x = true -> SFfinite x = true ->
  SFfinite (SFdiv prec emax x (S754_finite false thousand_mantissa (-43))) = true.
Proof.
  intros Hv Hf. destruct x as [s|s| |s mx ex]; try discriminate Hf; [reflexivity|].
  destruct (valid_digits s mx ex Hv) as [Hd He].
  cbn [SFdiv]. unfold SFdiv_core_binary.
  change (Zdigits2 (Z.pos thousand_mantissa)) with 53.
  cbn [Zdigits2].
  set (d1 := Z.pos (digits2_pos mx)) in *.
  set (e' := Z.min (fexp prec emax (d1 + ex - (53 + -43))) (ex - -43)).
  assert (He' : e' <= 961 /\ e' <= ex + 43 /\ -1074 <= e')
    by (unfold e', fexp, SpecFloat.emin, prec, emax; lia).
  set (sh := ex - -43 - e').
  assert (Hs : 0 <= sh) by (unfold sh; lia).
  set (m' := match sh with Z.pos _ => Z.shiftl (Z.pos mx) sh | 0 => Z.pos mx | Z.neg _ => 0 end).
  assert (Hm' : m' = Z.pos mx * 2 ^ sh).
  { unfold m'. destruct sh as [|p|p]; [cbn; lia| |lia].
    rewrite Z.shiftl_mul_pow2 by lia. reflexivity. }
  pose proof (digits2_pos_bounds mx) as [_ Bhi]. fold d1 in Bhi.
  assert (Hps : 0 < 2 ^ sh) by (apply Z.pow_pos_nonneg; lia).
  assert (Hm'b : 0 <= m' < 2 ^ (d1 + sh)).
  { rewrite Hm', Z.pow_add_r by (unfold d1; lia). split; [lia|].
    apply Z.mul_lt_mono_pos_r; assumption. }
  assert (Hq : Z.div_eucl m' (Z.pos thousand_mantissa) =
               (m' / Z.pos thousand_mantissa, m' mod Z.pos thousand_mantissa)).
  { unfold Z.div, Z.modulo. destruct (Z.div_eucl m' _); reflexivity. }
  rewrite Hq.
  set (q := m' / Z.pos thousand_mantissa).
  assert (Hq0 : 0 <= q) by (apply Z.div_pos; [lia|reflexivity]).
  assert (Hqle : q * 2 ^ 52 <= m').
  { assert (q * Z.pos thousand_mantissa <= m')
      by (unfold q; rewrite Z.mul_comm; apply Z.mul_div_le; reflexivity).
    assert (2 ^ 52 <= Z.pos thousand_mantissa) by (cbv; congruence).
    nia. }
  apply binary_round_aux_finite; [assumption| |lia].
  destruct (Z_le_gt_dec 52 (d1 + sh)) as [Hle|Hgt].
  - assert (Zdigits2 q <= d1 + sh - 52).
    { apply Zdigits2_le; [lia|]. split; [assumption|].
      apply (Z.mul_lt_mono_pos_r (2 ^ 52)); [reflexivity|].
      rewrite <- Z.pow_add_r by lia. replace (d1 + sh - 52 + 52) with (d1 + sh) by lia.
      lia. }
    unfold sh in *. lia.
  - assert (q = 0).
    { assert (2 ^ (d1 + sh) <= 2 ^ 52) by (apply Z.pow_le_mono_r; lia).
      assert (0 < 2 ^ 52) by reflexivity. nia. }
    subst q. rewrite H. cbn [Zdigits2]. lia.
Qed.

(** Dividing a finite [float64] by 1000 gives a finite [float64]. *)
Lemma div_thousand_finite (x : float) :
  is_finite x = true -> is_finite (x / 1000)%float = true.
Proof.
  rewrite !is_finite_spec, FloatAxioms.div_spec, thousand_bits.
  apply SFdiv_thousand_finite. apply Prim2SF_valid.
Qed.

End Rounding.

(** ** The transport adapters *)

Ltac step_world :=
  unfold bind, ret, client_Get, log_Printf, Fprintln, Fprintf, Write, after_request;
  cbn [fst snd sent logged written].

Section Transport.
Variable device : resty.Request -> Go.error + resty.Response.
Context {T : Type} {dec : json.Unmarshal T}.
Variables (path : string) (queries : gmap string string) (w : World).

(** Whatever the device answers, a fetch of the generation 1 client
    sends exactly the prepared request and writes nothing. *)
Lemma V1_get_world (s : shellyPlugV1.t) :
  let w' := snd (shellyPlugV1.get device s path queries w) in
  w' = after_request (request_to (shellyPlugV1.address s) path queries) w.
Proof.
  unfold shellyPlugV1.get, request_to. step_world.
  destruct (device _) as [err|resp]; [reflexivity|].
  destruct (resty.IsError resp); [reflexivity|].
  destruct (json.unmarshal _); reflexivity.
Qed.

Lemma V1_get_answers (s : shellyPlugV1.t) (v : T) :
  answers device dec (request_to (shellyPlugV1.address s) path queries) v ->
  fst (shellyPlugV1.get device s path queries w) = inr v.
Proof.
  intros (resp & Hdev & Hok & Hdec).
  unfold shellyPlugV1.get, request_to in *. step_world.
  rewrite Hdev, Hok. unfold json.unmarshal. rewrite Hdec. reflexivity.
Qed.

(** The generation 2 client also logs the body it received. *)
Lemma V2_get_world (s : shellyPlugV2.t) :
  let w' := snd (shellyPlugV2.get device s path queries w) in
  sent w' = (sent w ++ [request_to (shellyPlugV2.address s) path queries])%list /\
  written w' = written w.
Proof.
  unfold shellyPlugV2.get, request_to. step_world.
  destruct (device _) as [err|resp]; [split; reflexivity|].
  destruct (resty.IsError resp); [split; reflexivity|].
  cbn. destruct (json.unmarshal _); split; reflexivity.
Qed.

Lemma V2_get_answers (s : shellyPlugV2.t) (v : T) :
  answers device dec (request_to (shellyPlugV2.address s) path queries) v ->
  fst (shellyPlugV2.get device s path queries w) = inr v.
Proof.
  intros (resp & Hdev & Hok & Hdec).
  unfold shellyPlugV2.get, request_to in *. step_world.
  rewrite Hdev, Hok. cbn. unfold json.unmarshal. rewrite Hdec. reflexivity.
Qed.

Lemma legacy_get_world (s : shellyPlug.t) :
  let w' := snd (shellyPlug.get device s path queries w) in
  w' = after_request (request_to (shellyPlug.address s) path queries) w.
Proof.
  unfold shellyPlug.get, request_to. step_world.
  destruct (device _) as [err|resp]; [reflexivity|].
  destruct (resty.IsError resp); [reflexivity|].
  destruct (json.unmarshal _); reflexivity.
Qed.

End Transport.

(** A pair is its two components. *)
Lemma run_eq {A : Type} (c : M A) (w : World) : c w = (fst (c w), snd (c w)).
Proof. destruct (c w); reflexivity. Qed.

(** ** Request construction *)

(** C6. Every fetch of a transport adapter (generation 2, generation 1
    and the legacy client alike) issues one request, whose URL is
    [http://<host>/<path>] with the query parameters it was given, where
    [<host>] is [address.Hostname()]: the host of the configured address,
    without a port and without the brackets of an IPv6 literal. *)
Theorem C6_request_url
    (device : resty.Request -> Go.error + resty.Response)
    (T : Type) (dec : json.Unmarshal T)
    (path : string) (queries : gmap string string) (w : World)
    (s2 : shellyPlugV2.t) (s1 : shellyPlugV1.t) (s0 : shellyPlug.t) :
  (exists r : resty.Request,
      sent (snd (shellyPlugV2.get device s2 path queries w)) = (sent w ++ [r])%list /\
      resty.URL r = "http://" ++ url.Hostname (shellyPlugV2.address s2) ++ "/" ++ path /\
      resty.QueryParam r = queries) /\
  (exists r : resty.Request,
      sent (snd (shellyPlugV1.get device s1 path queries w)) = (sent w ++ [r])%list /\
      resty.URL r = "http://" ++ url.Hostname (shellyPlugV1.address s1) ++ "/" ++ path /\
      resty.QueryParam r = queries) /\
  (exists r : resty.Request,
      sent (snd (shellyPlug.get device s0 path queries w)) = (sent w ++ [r])%list /\
      resty.URL r = "http://" ++ url.Hostname (shellyPlug.address s0) ++ "/" ++ path /\
      resty.QueryParam r = queries).
Proof.
  repeat split.
  - exists (request_to (shellyPlugV2.address s2) path queries).
    split; [apply V2_get_world | split; reflexivity].
  - exists (request_to (shellyPlugV1.address s1) path queries).
    pose proof (V1_get_world device path queries w s1) as Hw. cbv zeta in Hw.
    rewrite Hw. repeat split.
  - exists (request_to (shellyPlug.address s0) path queries).
    pose proof (legacy_get_world device path queries w s0) as Hw. cbv zeta in Hw.
    rewrite Hw. repeat split.
Qed.

(** A host without a colon and without an opening bracket is its own
    [Hostname]: the dotted IPv4 addresses the front end passes reach the
    URL unchanged. *)
Lemma LastIndexByte_absent (s : string) (c : ascii) :
  String.index 0 (String c "") s = None -> url.LastIndexByte s c = None.
Proof.
  induction s as [|b rest IH]; [reflexivity|].
  cbn [String.index url.LastIndexByte String.prefix].
  destruct (Ascii.ascii_dec c b) as [->|Hne].
  - destruct rest; discriminate.
  - destruct (String.index 0 (String c "") rest) as [n|] eqn:E; [discriminate|].
    intros _. rewrite IH by reflexivity.
    destruct (Ascii.eqb_spec b c); [congruence|reflexivity].
Qed.

Lemma Hostname_plain (a : url.URL) :
  String.index 0 ":" (url.Host a) = None ->
  url.HasPrefix (url.Host a) "[" = false ->
  url.Hostname a = url.Host a.
Proof.
  intros Hcolon Hbr. unfold url.Hostname, url.splitHostPort.
  rewrite (LastIndexByte_absent _ _ Hcolon), Hbr. reflexivity.
Qed.

Example Hostname_ipv4 : url.Hostname (plain_address "192.168.1.1") = "192.168.1.1".
Proof. reflexivity. Qed.

Example Hostname_drops_port :
  url.Hostname (plain_address "192.168.1.1:8080") = "192.168.1.1".
Proof. reflexivity. Qed.

Example Hostname_strips_brackets : url.Hostname (plain_address "[::1]:80") = "::1".
Proof. reflexivity. Qed.

(** ** Credentials *)

(** C7. The request of every transport call carries HTTP Basic
    Authentication built from the user name and password of the
    configured address when the address has credentials, and none when
    it has not; [deviceUrl] gives the address credentials exactly when
    both the user name and the password are set. *)
Theorem C7_basic_auth
    (device : resty.Request -> Go.error + resty.Response)
    (T : Type) (dec : json.Unmarshal T)
    (path : string) (queries : gmap string string) (w : World)
    (s2 : shellyPlugV2.t) (s1 : shellyPlugV1.t) (s0 : shellyPlug.t) (f : Flags) :
  (exists r : resty.Request,
      sent (snd (shellyPlugV2.get device s2 path queries w)) = (sent w ++ [r])%list /\
      (forall usr, url.User (shellyPlugV2.address s2) = Some usr ->
         resty.BasicAuth r = Some (url.username usr, url.password usr)) /\
      (url.User (shellyPlugV2.address s2) = None -> resty.BasicAuth r = None)) /\
  (exists r : resty.Request,
      sent (snd (shellyPlugV1.get device s1 path queries w)) = (sent w ++ [r])%list /\
      (forall usr, url.User (shellyPlugV1.address s1) = Some usr ->
         resty.BasicAuth r = Some (url.username usr, url.password usr)) /\
      (url.User (shellyPlugV1.address s1) = None -> resty.BasicAuth r = None)) /\
  (exists r : resty.Request,
      sent (snd (shellyPlug.get device s0 path queries w)) = (sent w ++ [r])%list /\
      (forall usr, url.User (shellyPlug.address s0) = Some usr ->
         resty.BasicAuth r = Some (url.username usr, url.password usr)) /\
      (url.User (shellyPlug.address s0) = None -> resty.BasicAuth r = None)) /\
  (user f <> "" -> pass f <> "" ->
     url.User (deviceUrl f) = Some (url.UserPassword (user f) (pass f))) /\
  (user f = "" \/ pass f = "" -> url.User (deviceUrl f) = None).
Proof.
  assert (Hcred : forall a : url.URL,
    (forall usr, url.User a = Some usr ->
       credentials a = Some (url.username usr, url.password usr)) /\
    (url.User a = None -> credentials a = None)).
  { intros a. unfold credentials. split.
    - intros usr ->. reflexivity.
    - intros ->. reflexivity. }
  split; [|split; [|split; [|split]]].
  - exists (request_to (shellyPlugV2.address s2) path queries).
    split; [apply V2_get_world | apply Hcred].
  - exists (request_to (shellyPlugV1.address s1) path queries).
    pose proof (V1_get_world device path queries w s1) as Hw. cbv zeta in Hw.
    rewrite Hw. split; [reflexivity | apply Hcred].
  - exists (request_to (shellyPlug.address s0) path queries).
    pose proof (legacy_get_world device path queries w s0) as Hw. cbv zeta in Hw.
    rewrite Hw. split; [reflexivity | apply Hcred].
  - intros Hu Hp. unfold deviceUrl. cbn [url.User].
    destruct (String.eqb_spec (user f) ""); [contradiction|].
    destruct (String.eqb_spec (pass f) ""); [contradiction|]. reflexivity.
  - intros [Hu|Hp]; unfold deviceUrl; cbn [url.User].
    + rewrite Hu. reflexivity.
    + rewrite Hp. destruct (String.eqb (user f) ""); reflexivity.
Qed.

(** ** Construction *)

(** C8. Constructing a client of either generation from an address
    whose [Host] is empty returns the error [invalid address] and leaves
    the world as it was (no request is sent); from an address with a
    non-empty [Host] it returns the client for that address. *)
Theorem C8_construction (address : url.URL) (w : World) :
  (url.Host address = "" ->
     newShellyV1Plug address w = (inl (Go.Errorf "invalid address"), w) /\
     newShellyV2Plug address w = (inl (Go.Errorf "invalid address"), w)) /\
  (url.Host address <> "" ->
     newShellyV1Plug address w = (inr (PlugV1 {| shellyPlugV1.address := address |}), w) /\
     newShellyV2Plug address w = (inr (PlugV2 {| shellyPlugV2.address := address |}), w)).
Proof.
  unfold newShellyV1Plug, newShellyV2Plug, ret. split.
  - intros ->. split; reflexivity.
  - intros Hne. destruct (String.eqb_spec (url.Host address) ""); [contradiction|].
    split; reflexivity.
Qed.

(** The legacy constructor behaves the same way. *)
Lemma NewShellyPlug_spec (address : url.URL) (w : World) :
  shellyPlug.NewShellyPlug address w =
  (if String.eqb (url.Host address) ""
   then inl (Go.Errorf "invalid address")
   else inr {| shellyPlug.address := address |}, w).
Proof.
  unfold shellyPlug.NewShellyPlug, ret.
  destruct (String.eqb (url.Host address) ""); reflexivity.
Qed.

(** ** Relay control *)

Section Control.
Variable device : resty.Request -> Go.error + resty.Response.
Context {decode_relay : json.Unmarshal relayV1.t}.
Context {decode_state : json.Unmarshal SwitchStateV2.t}.
Variable w : World.

Lemma V1_TurnOn_echo (s : shellyPlugV1.t) (res : relayV1.t) :
  answers device decode_relay
    (request_to (shellyPlugV1.address s) "relay/0" {[ "turn" := "on" ]}) res ->
  fst (shellyPlugV1.TurnOn device s w) =
  if relayV1.IsOn res then (true, None)
  else (false, Some (Go.Errorf "relay is not on")).
Proof.
  intros Hans. unfold shellyPlugV1.TurnOn, bind.
  rewrite (run_eq (shellyPlugV1.get device s _ _) w).
  rewrite (V1_get_answers device _ _ w s res Hans).
  destruct (relayV1.IsOn res); reflexivity.
Qed.

Lemma V1_TurnOff_echo (s : shellyPlugV1.t) (res : relayV1.t) :
  answers device decode_relay
    (request_to (shellyPlugV1.address s) "relay/0" {[ "turn" := "off" ]}) res ->
  fst (shellyPlugV1.TurnOff device s w) =
  if relayV1.IsOn res then (true, Some (Go.Errorf "relay is on"))
  else (false, None).
Proof.
  intros Hans. unfold shellyPlugV1.TurnOff, bind.
  rewrite (run_eq (shellyPlugV1.get device s _ _) w).
  rewrite (V1_get_answers device _ _ w s res Hans).
  destruct (relayV1.IsOn res); reflexivity.
Qed.

Lemma V2_TurnOn_echo (s : shellyPlugV2.t) (res : SwitchStateV2.t) :
  answers device decode_state
    (request_to (shellyPlugV2.address s) "relay/0" {[ "turn" := "on" ]}) res ->
  fst (shellyPlugV2.TurnOn device s w) =
  if SwitchStateV2.IsOn res then (true, None)
  else (false, Some (Go.Errorf "relay is not on")).
Proof.
  intros Hans. unfold shellyPlugV2.TurnOn, bind.
  rewrite (run_eq (shellyPlugV2.get device s _ _) w).
  rewrite (V2_get_answers device _ _ w s res Hans).
  destruct (SwitchStateV2.IsOn res); reflexivity.
Qed.

Lemma V2_TurnOff_echo (s : shellyPlugV2.t) (res : SwitchStateV2.t) :
  answers device decode_state
    (request_to (shellyPlugV2.address s) "relay/0" {[ "turn" := "off" ]}) res ->
  fst (shellyPlugV2.TurnOff device s w) =
  if SwitchStateV2.IsOn res then (true, Some (Go.Errorf "relay is on"))
  else (false, None).
Proof.
  intros Hans. unfold shellyPlugV2.TurnOff, bind.
  rewrite (run_eq (shellyPlugV2.get device s _ _) w).
  rewrite (V2_get_answers device _ _ w s res Hans).
  destruct (SwitchStateV2.IsOn res); reflexivity.
Qed.

(** A failed fetch is an error of [TurnOn] and [TurnOff] as well. *)
Lemma V1_TurnOn_transport (s : shellyPlugV1.t) (err : Go.error) :
  fst (shellyPlugV1.get (T := relayV1.t) device s "relay/0" {[ "turn" := "on" ]} w)
    = inl err ->
  fst (shellyPlugV1.TurnOn device s w) = (false, Some err).
Proof.
  intros H. unfold shellyPlugV1.TurnOn, bind.
  rewrite (run_eq (shellyPlugV1.get device s _ _) w), H. reflexivity.
Qed.

End Control.

(** C3. When the device echoes a relay-control request with the output
    off ([ison] false), [TurnOn] returns the error [relay is not on] and
    no success; when it echoes the output on, [TurnOff] returns the error
    [relay is on]; for the generation 1 and the generation 2 client. *)
Theorem C3_turn_postcondition
    (device : resty.Request -> Go.error + resty.Response)
    (decode_relay : json.Unmarshal relayV1.t)
    (decode_state : json.Unmarshal SwitchStateV2.t)
    (s1 : shellyPlugV1.t) (s2 : shellyPlugV2.t) (w : World) :
  (forall res : relayV1.t,
     answers device decode_relay
       (request_to (shellyPlugV1.address s1) "relay/0" {[ "turn" := "on" ]}) res ->
     relayV1.IsOn res = false ->
     fst (shellyPlugV1.TurnOn device s1 w) = (false, Some (Go.Errorf "relay is not on"))) /\
  (forall res : relayV1.t,
     answers device decode_relay
       (request_to (shellyPlugV1.address s1) "relay/0" {[ "turn" := "off" ]}) res ->
     relayV1.IsOn res = true ->
     fst (shellyPlugV1.TurnOff device s1 w) = (true, Some (Go.Errorf "relay is on"))) /\
  (forall res : SwitchStateV2.t,
     answers device decode_state
       (request_to (shellyPlugV2.address s2) "relay/0" {[ "turn" := "on" ]}) res ->
     SwitchStateV2.IsOn res = false ->
     fst (shellyPlugV2.TurnOn device s2 w) = (false, Some (Go.Errorf "relay is not on"))) /\
  (forall res : SwitchStateV2.t,
     answers device decode_state
       (request_to (shellyPlugV2.address s2) "relay/0" {[ "turn" := "off" ]}) res ->
     SwitchStateV2.IsOn res = true ->
     fst (shellyPlugV2.TurnOff device s2 w) = (true, Some (Go.Errorf "relay is on"))).
Proof.
  repeat split; intros res Hans Hon.
  - rewrite (V1_TurnOn_echo device w s1 res Hans), Hon. reflexivity.
  - rewrite (V1_TurnOff_echo device w s1 res Hans), Hon. reflexivity.
  - rewrite (V2_TurnOn_echo device w s2 res Hans), Hon. reflexivity.
  - rewrite (V2_TurnOff_echo device w s2 res Hans), Hon. reflexivity.
Qed.

(** ** Energy rendering, generation 1 *)

(** The encoder accepts a map whose values it accepts. *)
Lemma supported_map (m : gmap string json.any) :
  map_Forall (fun _ x => json.supported x = true) m ->
  json.supported (json.MapStringAny m) = true.
Proof.
  cbn [json.supported].
  apply (map_fold_weak_ind
           (fun (r : bool) (m : gmap string json.any) =>
              map_Forall (fun _ x => json.supported x = true) m -> r = true)).
  - intros _. reflexivity.
  - intros i x m' r Hfresh IH Hall.
    apply map_Forall_insert in Hall as [Hx Hrest]; [|assumption].
    rewrite Hx, (IH Hrest). reflexivity.
Qed.

Lemma reading_v2_index (a b c d e f g : json.any) :
  json.index {[ "power_watt" := a; "power_volt" := b; "power_ampere" := c;
       "power_frequency" := d; "power_total_kwh" := e;
       "internal_celsius" := f; "is_on" := g ]} "power_watt" = a /\
  json.index {[ "power_watt" := a; "power_volt" := b; "power_ampere" := c;
       "power_frequency" := d; "power_total_kwh" := e;
       "internal_celsius" := f; "is_on" := g ]} "power_volt" = b /\
  json.index {[ "power_watt" := a; "power_volt" := b; "power_ampere" := c;
       "power_frequency" := d; "power_total_kwh" := e;
       "internal_celsius" := f; "is_on" := g ]} "power_ampere" = c /\
  json.index {[ "power_watt" := a; "power_volt" := b; "power_ampere" := c;
       "power_frequency" := d; "power_total_kwh" := e;
       "internal_celsius" := f; "is_on" := g ]} "power_frequency" = d /\
  json.index {[ "power_watt" := a; "power_volt" := b; "power_ampere" := c;
       "power_frequency" := d; "power_total_kwh" := e;
       "internal_celsius" := f; "is_on" := g ]} "power_total_kwh" = e /\
  json.index {[ "power_watt" := a; "power_volt" := b; "power_ampere" := c;
       "power_frequency" := d; "power_total_kwh" := e;
       "internal_celsius" := f; "is_on" := g ]} "internal_celsius" = f /\
  json.index {[ "power_watt" := a; "power_volt" := b; "power_ampere" := c;
       "power_frequency" := d; "power_total_kwh" := e;
       "internal_celsius" := f; "is_on" := g ]} "is_on" = g.
Proof. repeat split; vm_compute; reflexivity. Qed.

Ltac all_supported :=
  repeat lazymatch goal with
    | |- map_Forall _ (<[ _ := _ ]> _) => apply map_Forall_insert_2
    | |- map_Forall _ {[ _ := _ ]} => apply map_Forall_singleton
    end;
  cbn [json.supported]; try reflexivity; try assumption.


Lemma is_on_finite (b : bool) : is_finite (if b then 1%float else 0%float) = true.
Proof. destruct b; reflexivity. Qed.

Section EnergyV1.
Variable device : resty.Request -> Go.error + resty.Response.
Variable cfg : Config.
Context {decode_relay : json.Unmarshal relayV1.t}.
Context {decode_status : json.Unmarshal deviceStatusV1.t}.
Variables (s : shellyPlugV1.t) (w : World) (status : deviceStatusV1.t).

Hypothesis fetched :
  answers device decode_status (request_to (shellyPlugV1.address s) "status" ∅) status.

Lemma V1_Status_run :
  shellyPlugV1.Status device s w =
  (inr status, after_request (request_to (shellyPlugV1.address s) "status" ∅) w).
Proof.
  unfold shellyPlugV1.Status.
  rewrite (run_eq (shellyPlugV1.get device s "status" ∅) w).
  rewrite (V1_get_answers device _ _ w s status fetched).
  pose proof (V1_get_world device (T := deviceStatusV1.t) "status" ∅ w s) as Hw.
  cbv zeta in Hw. rewrite Hw. reflexivity.
Qed.

(** No meter, or more than one: an error before anything is written. *)
Lemma V1_RenderEnergy_no_meter :
  length (deviceStatusV1.Meters status) <> 1%nat ->
  fst (shellyPlugV1.RenderEnergy device cfg s w)
    = Go.Returns (Some (Go.Errorf "no meter information received")) /\
  written (snd (shellyPlugV1.RenderEnergy device cfg s w)) = written w.
Proof.
  intros Hm. unfold shellyPlugV1.RenderEnergy, bind. rewrite V1_Status_run.
  destruct (Nat.eqb_spec (length (deviceStatusV1.Meters status)) 1); [contradiction|].
  split; reflexivity.
Qed.

Lemma V1_RenderEnergy_relay_mismatch :
  length (deviceStatusV1.Meters status) = 1%nat ->
  length (deviceStatusV1.Relays status) <> 1%nat ->
  fst (shellyPlugV1.RenderEnergy device cfg s w)
    = Go.Returns (Some (Go.Errorf "invalid relay information received")) /\
  written (snd (shellyPlugV1.RenderEnergy device cfg s w)) = written w.
Proof.
  intros Hm Hr. unfold shellyPlugV1.RenderEnergy, bind. rewrite V1_Status_run.
  rewrite Hm. cbn [Nat.eqb negb].
  destruct (Nat.eqb_spec (length (deviceStatusV1.Relays status)) 1); [contradiction|].
  split; reflexivity.
Qed.

(** With one relay and one meter the render reaches the format switch. *)
Lemma V1_RenderEnergy_json (r : relayV1.t) (m : meterV1.t) :
  jsonFormat cfg = true ->
  deviceStatusV1.Relays status = [r] ->
  deviceStatusV1.Meters status = [m] ->
  Go.int64 (meterV1.Total m) ->
  is_finite (meterV1.Power m) = true ->
  shellyPlugV1.RenderEnergy device cfg s w =
  (Go.Returns None,
   {| sent := sent w ++ [request_to (shellyPlugV1.address s) "status" ∅];
      logged := logged w;
      written := written w ++
        [json.Indented (json.MapStringAny
           {[ "power_watt" := json.Float64 (meterV1.Power m);
              "power_total_kwh" :=
                json.Float64 (Float64.of_int64 (meterV1.Total m) * kwh_per_count)%float;
              "is_on" :=
                json.Float64 (if relayV1.IsOn r then 1%float else 0%float) ]});
         json.Lit LF] |}).
Proof.
  intros Hjson Hr Hm Hrange Hpower.
  unfold shellyPlugV1.RenderEnergy, bind. rewrite V1_Status_run.
  rewrite Hr, Hm. cbn [length Nat.eqb negb lookup list_lookup].
  rewrite Hjson. unfold json.MarshalIndent.
  destruct (kwh_within_tolerance (meterV1.Total m) Hrange) as [Hfin _].
  cbv zeta in Hfin.
  pose proof (is_on_finite (relayV1.IsOn r)) as Hon.
  rewrite supported_map by all_supported.
  step_world. reflexivity.
Qed.

Lemma V1_RenderEnergy_text (r : relayV1.t) (m : meterV1.t) :
  jsonFormat cfg = false -> choriaFormat cfg = false ->
  deviceStatusV1.Relays status = [r] ->
  deviceStatusV1.Meters status = [m] ->
  fst (shellyPlugV1.RenderEnergy device cfg s w) = Go.Returns None /\
  written (snd (shellyPlugV1.RenderEnergy device cfg s w)) =
    (written w ++
     [json.Lit "Meter Information"; json.Lit LF; json.Lit LF;
      json.Lit ("          Powered On: " ++ Fmt.verb_t (relayV1.IsOn r) ++ LF);
      json.Lit ("               Power: " ++ Fmt.verb_f 2 (meterV1.Power m) ++ " Watt" ++ LF);
      json.Lit ("   Total Consumption: "
                ++ Fmt.verb_f 2 (Float64.of_int64 (meterV1.Total m) * kwh_per_count)%float
                ++ " kWh" ++ LF)])%list.
Proof.
  intros Hjson Hchoria Hr Hm.
  unfold shellyPlugV1.RenderEnergy, bind. rewrite V1_Status_run.
  rewrite Hr, Hm. cbn [length Nat.eqb negb lookup list_lookup].
  rewrite Hjson, Hchoria. step_world.
  split; [reflexivity|].
  rewrite <- !app_assoc. cbn [app].
  destruct (relayV1.IsOn r); reflexivity.
Qed.

End EnergyV1.

(** C1. For a generation 1 status with exactly one relay and one meter
    (a counter within [int64] and a finite power reading, as the decoder
    delivers them), [RenderEnergy] in JSON mode returns without error
    and writes one JSON document whose [power_total_kwh] is the
    [float64] product of the counter and the constant
    [0.000016666666666666667]; that product is the counter times 1/60000
    up to a relative error of [2^-51]. *)
Theorem C1_json_power_total_kwh
    (device : resty.Request -> Go.error + resty.Response) (cfg : Config)
    (decode_status : json.Unmarshal deviceStatusV1.t)
    (s : shellyPlugV1.t) (w : World) (status : deviceStatusV1.t)
    (r : relayV1.t) (m : meterV1.t) :
  jsonFormat cfg = true ->
  answers device decode_status (request_to (shellyPlugV1.address s) "status" ∅) status ->
  deviceStatusV1.Relays status = [r] ->
  deviceStatusV1.Meters status = [m] ->
  Go.int64 (meterV1.Total m) ->
  is_finite (meterV1.Power m) = true ->
  exists (reading : gmap string json.any) (kwh : float),
    fst (shellyPlugV1.RenderEnergy device cfg s w) = Go.Returns None /\
    written (snd (shellyPlugV1.RenderEnergy device cfg s w)) =
      (written w ++ [json.Indented (json.MapStringAny reading); json.Lit LF])%list /\
    reading !! "power_total_kwh" = Some (json.Float64 kwh) /\
    kwh = (Float64.of_int64 (meterV1.Total m) * kwh_per_count)%float /\
    Float64.approximates kwh (inject_Z (meterV1.Total m) / 60000).
Proof.
  intros Hjson Hans Hr Hm Hrange Hpower.
  eexists _, _.
  rewrite (V1_RenderEnergy_json device cfg s w status Hans r m Hjson Hr Hm Hrange Hpower).
  cbn [fst snd written].
  split; [reflexivity|]. split; [reflexivity|].
  split; [reflexivity|]. split; [reflexivity|].
  exact (proj2 (kwh_within_tolerance (meterV1.Total m) Hrange)).
Qed.

(** The README's reading: a counter of 613 renders as
    0.010216666666666667. *)
Example kwh_of_613 :
  (Float64.of_int64 613 * kwh_per_count)%float = 0x1.4ec79c9a8e449p-7%float.
Proof. vm_compute. reflexivity. Qed.

(** The constant is the binary64 value nearest to the decimal literal
    of the source: it lies within half a unit in the last place
    ([2^-69]) of 16666666666666667 / 10^21. *)
Example kwh_per_count_nearest :
  (Qabs (Float64.to_Q kwh_per_count - (16666666666666667 # 10 ^ 21)) <= (1 # 2 ^ 69))%Q.
Proof. vm_compute. discriminate. Qed.

(** C9. With exactly one meter and a number of relays other than one,
    the generation 1 [RenderEnergy] returns the error
    [invalid relay information received] and writes nothing, whatever
    the output mode. *)
Theorem C9_relay_count_guard
    (device : resty.Request -> Go.error + resty.Response) (cfg : Config)
    (decode_status : json.Unmarshal deviceStatusV1.t)
    (s : shellyPlugV1.t) (w : World) (status : deviceStatusV1.t) :
  answers device decode_status (request_to (shellyPlugV1.address s) "status" ∅) status ->
  length (deviceStatusV1.Meters status) = 1%nat ->
  length (deviceStatusV1.Relays status) <> 1%nat ->
  fst (shellyPlugV1.RenderEnergy device cfg s w)
    = Go.Returns (Some (Go.Errorf "invalid relay information received")) /\
  written (snd (shellyPlugV1.RenderEnergy device cfg s w)) = written w.
Proof.
  intros Hans Hm Hr.
  exact (V1_RenderEnergy_relay_mismatch device cfg s w status Hans Hm Hr).
Qed.

(** The plain-text report of a meter with power 2.45 and counter 615. *)
Lemma verb_f_power_2_45 : Fmt.verb_f 2 power_2_45 = "2.45".
Proof. vm_compute. reflexivity. Qed.

Lemma verb_f_total_615 :
  Fmt.verb_f 2 (Float64.of_int64 615 * kwh_per_count)%float = "0.01".
Proof. vm_compute. reflexivity. Qed.

(** C5 as stated fails. The body with a meter and no relay list is
    refused: the render returns [invalid relay information received],
    the sink stays empty, and so holds neither of the two lines. *)
Lemma C5_meters_only_is_refused :
  let run :=
    shellyPlugV1.RenderEnergy (replies "meters only") text_mode
      (decode_status := reads status_meters_only)
      plug_v1 idle in
  fst run = Go.Returns (Some (Go.Errorf "invalid relay information received")) /\
  written (snd run) = [] /\
  ~ (exists text : string,
       text_of (written (snd run)) = Some text /\
       Contains text "Power: 2.45 Watt" = true /\
       Contains text "Total Consumption: 0.01 kWh" = true).
Proof.
  cbv zeta. split; [reflexivity|]. split; [reflexivity|].
  intros (text & Htext & Hpower & _).
  cbn in Htext. injection Htext as <-. discriminate Hpower.
Qed.

(** C5, amended. For a status with one relay and the one meter of the
    example (power 2.45, counter 615), [RenderEnergy] in plain-text mode
    writes the heading, the relay state and the lines
    [Power: 2.45 Watt] and [Total Consumption: 0.01 kWh]. *)
Theorem C5_text_report_with_relay
    (device : resty.Request -> Go.error + resty.Response) (cfg : Config)
    (decode_status : json.Unmarshal deviceStatusV1.t)
    (s : shellyPlugV1.t) (w : World) (status : deviceStatusV1.t)
    (r : relayV1.t) (m : meterV1.t) :
  jsonFormat cfg = false -> choriaFormat cfg = false ->
  answers device decode_status (request_to (shellyPlugV1.address s) "status" ∅) status ->
  deviceStatusV1.Relays status = [r] ->
  deviceStatusV1.Meters status = [m] ->
  meterV1.Power m = power_2_45 ->
  meterV1.Total m = 615 ->
  exists (out : list json.chunk) (text : string),
    fst (shellyPlugV1.RenderEnergy device cfg s w) = Go.Returns None /\
    written (snd (shellyPlugV1.RenderEnergy device cfg s w)) = (written w ++ out)%list /\
    text_of out = Some text /\
    text = "Meter Information" ++ LF ++ LF
           ++ "          Powered On: " ++ Fmt.verb_t (relayV1.IsOn r) ++ LF
           ++ "               Power: 2.45 Watt" ++ LF
           ++ "   Total Consumption: 0.01 kWh" ++ LF /\
    Contains text "Power: 2.45 Watt" = true /\
    Contains text "Total Consumption: 0.01 kWh" = true.
Proof.
  intros Hjson Hchoria Hans Hr Hm Hpower Htotal.
  destruct (V1_RenderEnergy_text device cfg s w status Hans r m Hjson Hchoria Hr Hm)
    as [Hres Hout].
  rewrite Hpower, Htotal, verb_f_power_2_45, verb_f_total_615 in Hout.
  destruct (relayV1.IsOn r);
    (eexists _, _; split; [exact Hres|]; split; [exact Hout|]; repeat split; reflexivity).
Qed.

(** ** Energy rendering, generation 2 *)

Section EnergyV2.
Variable device : resty.Request -> Go.error + resty.Response.
Variable cfg : Config.
Context {decode_status : json.Unmarshal DeviceStatusV2.t}.
Variables (s : shellyPlugV2.t) (w : World) (status : DeviceStatusV2.t).

Hypothesis fetched :
  answers device decode_status
    (request_to (shellyPlugV2.address s) "rpc/Shelly.GetStatus" ∅) status.

Lemma V2_Status_run :
  exists w' : World,
    shellyPlugV2.Status device s w = (inr status, w') /\
    sent w' = (sent w ++ [request_to (shellyPlugV2.address s) "rpc/Shelly.GetStatus" ∅])%list /\
    written w' = written w.
Proof.
  unfold shellyPlugV2.Status.
  exists (snd (shellyPlugV2.get (T := DeviceStatusV2.t) device s "rpc/Shelly.GetStatus" ∅ w)).
  split.
  - rewrite (run_eq (shellyPlugV2.get device s _ _) w) at 1.
    rewrite (V2_get_answers device _ _ w s status fetched). reflexivity.
  - apply V2_get_world.
Qed.

Lemma V2_RenderEnergy_no_switch :
  DeviceStatusV2.Switch1 status = None ->
  fst (shellyPlugV2.RenderEnergy device cfg s w)
    = Go.Returns (Some (Go.Errorf "no switch information received")) /\
  written (snd (shellyPlugV2.RenderEnergy device cfg s w)) = written w.
Proof.
  intros Hsw. destruct V2_Status_run as (w' & Hrun & _ & Hw).
  unfold shellyPlugV2.RenderEnergy, bind. rewrite Hrun, Hsw.
  split; [reflexivity | exact Hw].
Qed.

Lemma V2_RenderEnergy_no_energy (sw : SwitchStatusV2.t) :
  DeviceStatusV2.Switch1 status = Some sw ->
  SwitchStatusV2.AEnergy sw = None ->
  fst (shellyPlugV2.RenderEnergy device cfg s w)
    = Go.Returns (Some (Go.Errorf "no meter information received")) /\
  written (snd (shellyPlugV2.RenderEnergy device cfg s w)) = written w.
Proof.
  intros Hsw He. destruct V2_Status_run as (w' & Hrun & _ & Hw).
  unfold shellyPlugV2.RenderEnergy, bind. rewrite Hrun, Hsw, He.
  split; [reflexivity | exact Hw].
Qed.

Lemma V2_RenderEnergy_no_temperature (sw : SwitchStatusV2.t) (e : ActiveEnergyV2.t) :
  DeviceStatusV2.Switch1 status = Some sw ->
  SwitchStatusV2.AEnergy sw = Some e ->
  SwitchStatusV2.Temperature sw = None ->
  fst (shellyPlugV2.RenderEnergy device cfg s w) = Go.Panics Go.nil_dereference /\
  written (snd (shellyPlugV2.RenderEnergy device cfg s w)) = written w.
Proof.
  intros Hsw He Ht. destruct V2_Status_run as (w' & Hrun & _ & Hw).
  unfold shellyPlugV2.RenderEnergy, bind. rewrite Hrun, Hsw, He, Ht.
  split; [reflexivity | exact Hw].
Qed.

(** With switch, energy and temperature present, metrics mode writes
    the envelope of labels and metrics. *)
Lemma V2_RenderEnergy_metrics
    (sw : SwitchStatusV2.t) (e : ActiveEnergyV2.t) (t : TemperatureStatusV2.t) :
  jsonFormat cfg = false -> choriaFormat cfg = true ->
  DeviceStatusV2.Switch1 status = Some sw ->
  SwitchStatusV2.AEnergy sw = Some e ->
  SwitchStatusV2.Temperature sw = Some t ->
  is_finite (SwitchStatusV2.APower sw) = true ->
  is_finite (SwitchStatusV2.Voltage sw) = true ->
  is_finite (SwitchStatusV2.Current sw) = true ->
  is_finite (SwitchStatusV2.Freq sw) = true ->
  is_finite (ActiveEnergyV2.Total e) = true ->
  is_finite (TemperatureStatusV2.TC t) = true ->
  fst (shellyPlugV2.RenderEnergy device cfg s w) = Go.Returns None /\
  written (snd (shellyPlugV2.RenderEnergy device cfg s w)) =
    (written w ++
     [json.Indented (json.MapStringAny
        {[ "labels" := json.MapStringString (labels cfg);
           "metrics" := json.MapStringAny
             {[ "current_power_watt" := json.Float64 (SwitchStatusV2.APower sw);
                "current_power_volt" := json.Float64 (SwitchStatusV2.Voltage sw);
                "current_power_ampere" := json.Float64 (SwitchStatusV2.Current sw);
                "current_power_frequency" := json.Float64 (SwitchStatusV2.Freq sw);
                "internal_celsius" := json.Float64 (TemperatureStatusV2.TC t);
                "total_energy_kwh" := json.Float64 (ActiveEnergyV2.Total e / 1000)%float;
                "relay_on" :=
                  json.Float64 (if SwitchStatusV2.Output sw then 1%float else 0%float) ]} ]});
      json.Lit LF])%list.
Proof.
  intros Hjson Hchoria Hsw He Ht Hp Hv Hc Hf Htot Htc.
  destruct V2_Status_run as (w' & Hrun & _ & Hw).
  unfold shellyPlugV2.RenderEnergy, bind. rewrite Hrun, Hsw, He, Ht, Hjson, Hchoria.
  unfold json.MarshalIndent.
  destruct (reading_v2_index
              (json.Float64 (SwitchStatusV2.APower sw))
              (json.Float64 (SwitchStatusV2.Voltage sw))
              (json.Float64 (SwitchStatusV2.Current sw))
              (json.Float64 (SwitchStatusV2.Freq sw))
              (json.Float64 (ActiveEnergyV2.Total e / 1000)%float)
              (json.Float64 (TemperatureStatusV2.TC t))
              (json.Float64 (if SwitchStatusV2.Output sw then 1%float else 0%float)))
    as (-> & -> & -> & -> & -> & -> & ->).
  rewrite supported_map.
  - step_world. rewrite Hw. split; [reflexivity|]. cbn [app]. reflexivity.
  - pose proof (div_thousand_finite _ Htot). pose proof (is_on_finite (SwitchStatusV2.Output sw)).
    all_supported. apply supported_map. all_supported.
Qed.

End EnergyV2.

(** C4. On a generation 2 status without a switch sub-status
    [RenderEnergy] returns the error [no switch information received];
    on one with a switch but without its active-energy sub-structure it
    returns [no meter information received]; in both cases nothing is
    written to the sink, whatever the output mode. *)
Theorem C4_missing_switch_or_energy
    (device : resty.Request -> Go.error + resty.Response) (cfg : Config)
    (decode_status : json.Unmarshal DeviceStatusV2.t)
    (s : shellyPlugV2.t) (w : World) (status : DeviceStatusV2.t) :
  answers device decode_status
    (request_to (shellyPlugV2.address s) "rpc/Shelly.GetStatus" ∅) status ->
  (DeviceStatusV2.Switch1 status = None ->
     fst (shellyPlugV2.RenderEnergy device cfg s w)
       = Go.Returns (Some (Go.Errorf "no switch information received")) /\
     written (snd (shellyPlugV2.RenderEnergy device cfg s w)) = written w) /\
  (forall sw : SwitchStatusV2.t,
     DeviceStatusV2.Switch1 status = Some sw ->
     SwitchStatusV2.AEnergy sw = None ->
     fst (shellyPlugV2.RenderEnergy device cfg s w)
       = Go.Returns (Some (Go.Errorf "no meter information received")) /\
     written (snd (shellyPlugV2.RenderEnergy device cfg s w)) = written w).
Proof.
  intros Hans. split.
  - exact (V2_RenderEnergy_no_switch device cfg s w status Hans).
  - exact (V2_RenderEnergy_no_energy device cfg s w status Hans).
Qed.

(** C10. On a generation 2 status whose switch and active-energy
    sub-structures are present and whose temperature sub-structure is
    nil, [RenderEnergy] dereferences the nil pointer: it panics, in
    every output mode, before anything is written. *)
Theorem C10_nil_temperature_panics
    (device : resty.Request -> Go.error + resty.Response) (cfg : Config)
    (decode_status : json.Unmarshal DeviceStatusV2.t)
    (s : shellyPlugV2.t) (w : World) (status : DeviceStatusV2.t)
    (sw : SwitchStatusV2.t) (e : ActiveEnergyV2.t) :
  answers device decode_status
    (request_to (shellyPlugV2.address s) "rpc/Shelly.GetStatus" ∅) status ->
  DeviceStatusV2.Switch1 status = Some sw ->
  SwitchStatusV2.AEnergy sw = Some e ->
  SwitchStatusV2.Temperature sw = None ->
  fst (shellyPlugV2.RenderEnergy device cfg s w) = Go.Panics Go.nil_dereference /\
  written (snd (shellyPlugV2.RenderEnergy device cfg s w)) = written w.
Proof.
  intros Hans Hsw He Ht.
  exact (V2_RenderEnergy_no_temperature device cfg s w status Hans sw e Hsw He Ht).
Qed.

(** C2, at a status the code can receive: a switch with an energy
    counter and no temperature. In metrics mode the specification
    promises a [total_energy_kwh] of 1500 / 1000; the render panics on
    the nil temperature pointer and the sink stays empty. *)
Theorem C2_metrics_without_temperature :
  let run :=
    shellyPlugV2.RenderEnergy (replies "switch without temperature") metrics_mode
      (decode_status := reads status_without_temperature)
      plug_v2 idle in
  DeviceStatusV2.Switch1 status_without_temperature = Some switch_without_temperature /\
  option_map ActiveEnergyV2.Total (SwitchStatusV2.AEnergy switch_without_temperature)
    = Some 1500%float /\
  fst run = Go.Panics Go.nil_dereference /\
  written (snd run) = [].
Proof. cbv zeta. repeat split. Qed.

(** ** The statements on concrete plugs *)

Lemma replies_answers {T : Type} (body : string) (v : T) (req : resty.Request) :
  answers (replies body) (reads v) req v.
Proof. eexists. split; [reflexivity|]. split; reflexivity. Qed.

(** C1 on the reading of the example: counter 615, one relay. *)
Lemma C1_witness :
  exists (reading : gmap string json.any) (kwh : float),
    fst (shellyPlugV1.RenderEnergy (replies "status") json_mode
           (decode_status := reads status_one_relay) plug_v1 idle) = Go.Returns None /\
    written (snd (shellyPlugV1.RenderEnergy (replies "status") json_mode
                    (decode_status := reads status_one_relay) plug_v1 idle)) =
      ([] ++ [json.Indented (json.MapStringAny reading); json.Lit LF])%list /\
    reading !! "power_total_kwh" = Some (json.Float64 kwh) /\
    kwh = (Float64.of_int64 615 * kwh_per_count)%float /\
    Float64.approximates kwh (inject_Z 615 / 60000).
Proof.
  apply (C1_json_power_total_kwh (replies "status") json_mode
           (reads status_one_relay) plug_v1 idle status_one_relay
           relayV1.zero meter_615).
  - reflexivity.
  - apply replies_answers.
  - reflexivity.
  - reflexivity.
  - unfold Go.int64. cbn. lia.
  - reflexivity.
Defined.

(** C3 on a plug that echoes the relay off, and on one that echoes it
    on. *)
Lemma C3_witness :
  (fst (shellyPlugV1.TurnOn (replies "relay") (decode_relay := reads relayV1.zero)
          plug_v1 idle) = (false, Some (Go.Errorf "relay is not on")) /\
   fst (shellyPlugV2.TurnOn (replies "relay") (decode_state := reads SwitchStateV2.zero)
          plug_v2 idle) = (false, Some (Go.Errorf "relay is not on"))) /\
  (fst (shellyPlugV1.TurnOff (replies "relay") (decode_relay := reads relay_on)
          plug_v1 idle) = (true, Some (Go.Errorf "relay is on")) /\
   fst (shellyPlugV2.TurnOff (replies "relay") (decode_state := reads switch_state_on)
          plug_v2 idle) = (true, Some (Go.Errorf "relay is on"))).
Proof.
  destruct (C3_turn_postcondition (replies "relay") (reads relayV1.zero)
              (reads SwitchStateV2.zero) plug_v1 plug_v2 idle) as (H1 & _ & H2 & _).
  destruct (C3_turn_postcondition (replies "relay") (reads relay_on)
              (reads switch_state_on) plug_v1 plug_v2 idle) as (_ & H3 & _ & H4).
  split; split.
  - apply (H1 relayV1.zero); [apply replies_answers | reflexivity].
  - apply (H2 SwitchStateV2.zero); [apply replies_answers | reflexivity].
  - apply (H3 relay_on); [apply replies_answers | reflexivity].
  - apply (H4 switch_state_on); [apply replies_answers | reflexivity].
Defined.

(** C4 on a status without a switch and on one without energy. *)
Lemma C4_witness :
  (fst (shellyPlugV2.RenderEnergy (replies "status") text_mode
          (decode_status := reads DeviceStatusV2.zero) plug_v2 idle)
     = Go.Returns (Some (Go.Errorf "no switch information received")) /\
   written (snd (shellyPlugV2.RenderEnergy (replies "status") text_mode
                   (decode_status := reads DeviceStatusV2.zero) plug_v2 idle)) = []) /\
  (fst (shellyPlugV2.RenderEnergy (replies "status") json_mode
          (decode_status := reads status_without_energy) plug_v2 idle)
     = Go.Returns (Some (Go.Errorf "no meter information received")) /\
   written (snd (shellyPlugV2.RenderEnergy (replies "status") json_mode
                   (decode_status := reads status_without_energy) plug_v2 idle)) = []).
Proof.
  split.
  - apply (C4_missing_switch_or_energy (replies "status") text_mode
             (reads DeviceStatusV2.zero) plug_v2 idle DeviceStatusV2.zero
             (replies_answers _ _ _)).
    reflexivity.
  - apply (proj2 (C4_missing_switch_or_energy (replies "status") json_mode
             (reads status_without_energy) plug_v2 idle status_without_energy
             (replies_answers _ _ _)) SwitchStatusV2.zero); reflexivity.
Defined.

(** C5, amended, on the example body with one relay added. *)
Lemma C5_witness :
  exists (out : list json.chunk) (text : string),
    fst (shellyPlugV1.RenderEnergy (replies "status") text_mode
           (decode_status := reads status_one_relay) plug_v1 idle) = Go.Returns None /\
    written (snd (shellyPlugV1.RenderEnergy (replies "status") text_mode
                    (decode_status := reads status_one_relay) plug_v1 idle))
      = ([] ++ out)%list /\
    text_of out = Some text /\
    text = "Meter Information" ++ LF ++ LF
           ++ "          Powered On: " ++ Fmt.verb_t false ++ LF
           ++ "               Power: 2.45 Watt" ++ LF
           ++ "   Total Consumption: 0.01 kWh" ++ LF /\
    Contains text "Power: 2.45 Watt" = true /\
    Contains text "Total Consumption: 0.01 kWh" = true.
Proof.
  apply (C5_text_report_with_relay (replies "status") text_mode
           (reads status_one_relay) plug_v1 idle status_one_relay
           relayV1.zero meter_615); try reflexivity.
  apply replies_answers.
Defined.

(** C7 on an address with credentials and on one without. *)
Lemma C7_witness :
  (exists r : resty.Request,
     sent (snd (shellyPlugV2.get (T := DeviceStatusV2.t) (dec := reads DeviceStatusV2.zero)
                  (replies "status")
                  {| shellyPlugV2.address := address_with_credentials |}
                  "rpc/Shelly.GetStatus" ∅ idle)) = ([] ++ [r])%list /\
     resty.BasicAuth r = Some ("admin", "secret")) /\
  (exists r : resty.Request,
     sent (snd (shellyPlugV1.get (T := deviceStatusV1.t) (dec := reads status_one_relay)
                  (replies "status") plug_v1 "status" ∅ idle)) = ([] ++ [r])%list /\
     resty.BasicAuth r = None).
Proof.
  destruct (C7_basic_auth (replies "status") DeviceStatusV2.t (reads DeviceStatusV2.zero)
              "rpc/Shelly.GetStatus" ∅ idle
              {| shellyPlugV2.address := address_with_credentials |}
              plug_v1 {| shellyPlug.address := plain_address "192.168.1.1" |}
              {| ip := "192.168.1.1"; user := "admin"; pass := "secret"; v2Plus := false |})
    as ((r2 & Hs2 & Hsome & _) & _).
  destruct (C7_basic_auth (replies "status") deviceStatusV1.t (reads status_one_relay)
              "status" ∅ idle plug_v2 plug_v1
              {| shellyPlug.address := plain_address "192.168.1.1" |}
              {| ip := "192.168.1.1"; user := ""; pass := ""; v2Plus := false |})
    as (_ & (r1 & Hs1 & _ & Hnone) & _).
  split.
  - exists r2. split; [exact Hs2|]. apply (Hsome (url.UserPassword "admin" "secret")).
    reflexivity.
  - exists r1. split; [exact Hs1|]. apply Hnone. reflexivity.
Defined.

(** C8 on an address without a host and on one with a host. *)
Lemma C8_witness :
  (newShellyV1Plug (plain_address "") idle = (inl (Go.Errorf "invalid address"), idle) /\
   newShellyV2Plug (plain_address "") idle = (inl (Go.Errorf "invalid address"), idle)) /\
  (newShellyV1Plug (plain_address "192.168.1.1") idle = (inr (PlugV1 plug_v1), idle) /\
   newShellyV2Plug (plain_address "192.168.1.1") idle = (inr (PlugV2 plug_v2), idle)).
Proof.
  split.
  - apply (C8_construction (plain_address "") idle). reflexivity.
  - apply (C8_construction (plain_address "192.168.1.1") idle). discriminate.
Defined.

(** C9 on a status with one meter and two relays. *)
Lemma C9_witness :
  fst (shellyPlugV1.RenderEnergy (replies "status") json_mode
         (decode_status := reads status_two_relays) plug_v1 idle)
    = Go.Returns (Some (Go.Errorf "invalid relay information received")) /\
  written (snd (shellyPlugV1.RenderEnergy (replies "status") json_mode
                  (decode_status := reads status_two_relays) plug_v1 idle)) = [].
Proof.
  apply (C9_relay_count_guard (replies "status") json_mode
           (reads status_two_relays) plug_v1 idle status_two_relays).
  - apply replies_answers.
  - reflexivity.
  - cbn. lia.
Defined.

(** C10 on the switch without temperature, in plain-text mode. *)
Lemma C10_witness :
  fst (shellyPlugV2.RenderEnergy (replies "status") text_mode
         (decode_status := reads status_without_temperature) plug_v2 idle)
    = Go.Panics Go.nil_dereference /\
  written (snd (shellyPlugV2.RenderEnergy (replies "status") text_mode
                  (decode_status := reads status_without_temperature) plug_v2 idle)) = [].
Proof.
  eapply (C10_nil_temperature_panics (replies "status") text_mode
            (reads status_without_temperature) plug_v2 idle status_without_temperature
            switch_without_temperature).
  - apply replies_answers.
  - reflexivity.
  - reflexivity.
  - reflexivity.
Defined.

(** ** Metrics export, generation 2 *)

(** For a generation 2 status whose switch, active-energy and
    temperature sub-structures are all present, with finite readings,
    [RenderEnergy] in metrics-export mode returns without error and
    writes one document with the configured labels and a metrics object
    whose [total_energy_kwh] is the energy total divided by 1000. *)
Theorem metrics_total_energy_kwh
    (device : resty.Request -> Go.error + resty.Response) (cfg : Config)
    (decode_status : json.Unmarshal DeviceStatusV2.t)
    (s : shellyPlugV2.t) (w : World) (status : DeviceStatusV2.t)
    (sw : SwitchStatusV2.t) (e : ActiveEnergyV2.t) (t : TemperatureStatusV2.t) :
  jsonFormat cfg = false -> choriaFormat cfg = true ->
  answers device decode_status
    (request_to (shellyPlugV2.address s) "rpc/Shelly.GetStatus" ∅) status ->
  DeviceStatusV2.Switch1 status = Some sw ->
  SwitchStatusV2.AEnergy sw = Some e ->
  SwitchStatusV2.Temperature sw = Some t ->
  is_finite (SwitchStatusV2.APower sw) = true ->
  is_finite (SwitchStatusV2.Voltage sw) = true ->
  is_finite (SwitchStatusV2.Current sw) = true ->
  is_finite (SwitchStatusV2.Freq sw) = true ->
  is_finite (ActiveEnergyV2.Total e) = true ->
  is_finite (TemperatureStatusV2.TC t) = true ->
  exists data metrics : gmap string json.any,
    fst (shellyPlugV2.RenderEnergy device cfg s w) = Go.Returns None /\
    written (snd (shellyPlugV2.RenderEnergy device cfg s w)) =
      (written w ++ [json.Indented (json.MapStringAny data); json.Lit LF])%list /\
    data !! "labels" = Some (json.MapStringString (labels cfg)) /\
    data !! "metrics" = Some (json.MapStringAny metrics) /\
    metrics !! "total_energy_kwh"
      = Some (json.Float64 (ActiveEnergyV2.Total e / 1000)%float) /\
    metrics !! "current_power_watt" = Some (json.Float64 (SwitchStatusV2.APower sw)).
Proof.
  intros Hjson Hchoria Hans Hsw He Ht Hp Hv Hc Hf Htot Htc.
  destruct (V2_RenderEnergy_metrics device cfg s w status Hans sw e t
              Hjson Hchoria Hsw He Ht Hp Hv Hc Hf Htot Htc) as [Hres Hout].
  eexists _, _. split; [exact Hres|]. split; [exact Hout|].
  repeat split; vm_compute; reflexivity.
Qed.

(** The metrics of the switch with a counter of 1500 Wh: 1.5 kWh. *)
Lemma metrics_witness :
  exists data metrics : gmap string json.any,
    fst (shellyPlugV2.RenderEnergy (replies "status") metrics_mode
           (decode_status := reads status_with_temperature) plug_v2 idle)
      = Go.Returns None /\
    written (snd (shellyPlugV2.RenderEnergy (replies "status") metrics_mode
                    (decode_status := reads status_with_temperature) plug_v2 idle)) =
      ([] ++ [json.Indented (json.MapStringAny data); json.Lit LF])%list /\
    data !! "labels" = Some (json.MapStringString {[ "location" := "office" ]}) /\
    data !! "metrics" = Some (json.MapStringAny metrics) /\
    metrics !! "total_energy_kwh" = Some (json.Float64 (1500 / 1000)%float) /\
    metrics !! "current_power_watt" = Some (json.Float64 8.5%float).
Proof.
  apply (metrics_total_energy_kwh (replies "status") metrics_mode
           (reads status_with_temperature) plug_v2 idle status_with_temperature
           switch_with_temperature
           {| ActiveEnergyV2.Total := 1500; ActiveEnergyV2.ByMinute := [];
              ActiveEnergyV2.MinuteTS := 0 |}
           {| TemperatureStatusV2.TC := 32.5; TemperatureStatusV2.TF := 90.5 |});
    try reflexivity.
  apply replies_answers.
Defined.

Example kwh_of_1500 : (1500 / 1000)%float = 1.5%float.
Proof. reflexivity. Qed.

(** ** The legacy front end *)

Lemma legacy_get_answers
    (device : resty.Request -> Go.error + resty.Response)
    (T : Type) (dec : json.Unmarshal T)
    (path : string) (queries : gmap string string) (w : World)
    (s : shellyPlug.t) (v : T) :
  answers device dec (request_to (shellyPlug.address s) path queries) v ->
  fst (shellyPlug.get device s path queries w) = inr v.
Proof.
  intros (resp & Hdev & Hok & Hdec).
  unfold shellyPlug.get, request_to in *. step_world.
  rewrite Hdev, Hok. unfold json.unmarshal. rewrite Hdec. reflexivity.
Qed.

(** The legacy [energyAction] asks for one meter only: in plain-text
    mode it prints the heading and the two meter lines whatever the
    relay list of the status holds. *)
Theorem legacy_energy_report
    (device : resty.Request -> Go.error + resty.Response) (cfg : Config)
    (decode_status : json.Unmarshal DeviceStatus.t)
    (f : Flags) (w : World) (nfo : DeviceStatus.t) (m : Meter.t) :
  jsonFormat cfg = false -> choriaFormat cfg = false ->
  ip f <> "" ->
  answers device decode_status (request_to (deviceUrl f) "status" ∅) nfo ->
  DeviceStatus.Meters nfo = [m] ->
  fst (legacy.energyAction device cfg f w) = Go.Returns None /\
  written (snd (legacy.energyAction device cfg f w)) =
    (written w ++
     [json.Lit "Meter Information"; json.Lit LF; json.Lit LF;
      json.Lit ("               Power: " ++ Fmt.verb_f 2 (Meter.Power m) ++ " Watt" ++ LF);
      json.Lit ("   Total Consumption: "
                ++ Fmt.verb_f 2 (Float64.of_int64 (Meter.Total m) * kwh_per_count)%float
                ++ " kWh" ++ LF)])%list.
Proof.
  intros Hjson Hchoria Hip Hans Hm.
  unfold legacy.energyAction, bind. rewrite NewShellyPlug_spec.
  change (url.Host (deviceUrl f)) with (ip f).
  destruct (String.eqb_spec (ip f) ""); [contradiction|].
  unfold shellyPlug.Status.
  rewrite (run_eq (shellyPlug.get device _ "status" ∅) w).
  rewrite (legacy_get_answers device _ _ "status" ∅ w
             {| shellyPlug.address := deviceUrl f |} nfo Hans).
  pose proof (legacy_get_world device (T := DeviceStatus.t) "status" ∅ w
                {| shellyPlug.address := deviceUrl f |}) as Hw.
  cbv zeta in Hw. rewrite Hw.
  rewrite Hm. cbn [length Nat.eqb negb lookup list_lookup].
  rewrite Hjson, Hchoria. step_world.
  split; [reflexivity|].
  rewrite <- !app_assoc. reflexivity.
Qed.

(** On the body of the example (a meter, no relay list) the legacy front
    end prints [Power: 2.45 Watt] and [Total Consumption: 0.01 kWh]. *)
Lemma legacy_energy_witness :
  fst (legacy.energyAction (replies "status") text_mode
         (decode_status := reads legacy_status_meters_only)
         (flags_for "192.168.1.1") idle) = Go.Returns None /\
  written (snd (legacy.energyAction (replies "status") text_mode
                  (decode_status := reads legacy_status_meters_only)
                  (flags_for "192.168.1.1") idle)) =
    ([] ++
     [json.Lit "Meter Information"; json.Lit LF; json.Lit LF;
      json.Lit ("               Power: " ++ Fmt.verb_f 2 power_2_45 ++ " Watt" ++ LF);
      json.Lit ("   Total Consumption: "
                ++ Fmt.verb_f 2 (Float64.of_int64 615 * kwh_per_count)%float
                ++ " kWh" ++ LF)])%list.
Proof.
  apply (legacy_energy_report (replies "status") text_mode
           (reads legacy_status_meters_only) (flags_for "192.168.1.1") idle
           legacy_status_meters_only
           {| Meter.Power := power_2_45; Meter.Overpower := 0; Meter.IsValid := false;
              Meter.Timestamp := 0; Meter.Counters := []; Meter.Total := 615 |}).
  - reflexivity.
  - reflexivity.
  - discriminate.
  - apply replies_answers.
  - reflexivity.
Defined.

Example legacy_energy_text :
  text_of (written (snd (legacy.energyAction (replies "status") text_mode
                           (decode_status := reads legacy_status_meters_only)
                           (flags_for "192.168.1.1") idle)))
  = Some ("Meter Information" ++ LF ++ LF
          ++ "               Power: 2.45 Watt" ++ LF
          ++ "   Total Consumption: 0.01 kWh" ++ LF).
Proof. vm_compute. reflexivity. Qed.

(** * The operations in every case *)

(** ** The exchange of a fetch, read backwards *)

Section TransportFailures.
Variable device : resty.Request -> Go.error + resty.Response.
Context {T : Type} {dec : json.Unmarshal T}.
Variables (path : string) (queries : gmap string string) (w : World).

Lemma V1_get_inv (s : shellyPlugV1.t) (v : T) :
  fst (shellyPlugV1.get device s path queries w) = inr v ->
  answers device dec (request_to (shellyPlugV1.address s) path queries) v.
Proof.
  unfold shellyPlugV1.get, answers, request_to. step_world.
  destruct (device _) as [err|resp]; [discriminate|].
  destruct (resty.IsError resp) eqn:Hok; [discriminate|].
  unfold json.unmarshal. destruct (dec _) as [err|res] eqn:Hdec; [discriminate|].
  intros [= <-]. exists resp. auto.
Qed.

Lemma V2_get_inv (s : shellyPlugV2.t) (v : T) :
  fst (shellyPlugV2.get device s path queries w) = inr v ->
  answers device dec (request_to (shellyPlugV2.address s) path queries) v.
Proof.
  unfold shellyPlugV2.get, answers, request_to. step_world.
  destruct (device _) as [err|resp]; [discriminate|].
  destruct (resty.IsError resp) eqn:Hok; [discriminate|].
  unfold json.unmarshal. cbn. destruct (dec _) as [err|res] eqn:Hdec; [discriminate|].
  intros [= <-]. exists resp. auto.
Qed.

Lemma legacy_get_inv (s : shellyPlug.t) (v : T) :
  fst (shellyPlug.get device s path queries w) = inr v ->
  answers device dec (request_to (shellyPlug.address s) path queries) v.
Proof.
  unfold shellyPlug.get, answers, request_to. step_world.
  destruct (device _) as [err|resp]; [discriminate|].
  destruct (resty.IsError resp) eqn:Hok; [discriminate|].
  unfold json.unmarshal. destruct (dec _) as [err|res] eqn:Hdec; [discriminate|].
  intros [= <-]. exists resp. auto.
Qed.

End TransportFailures.

(** ** Failure of an exchange *)

Section TransportFailures.
Variable device : resty.Request -> Go.error + resty.Response.
Context {T : Type} {dec : json.Unmarshal T}.
Variables (path : string) (queries : gmap string string) (w : World).

Lemma V1_get_fails (s : shellyPlugV1.t) (err : Go.error) :
  fst (shellyPlugV1.get device s path queries w) = inl err <->
  fails_with device dec (request_to (shellyPlugV1.address s) path queries) err.
Proof.
  unfold shellyPlugV1.get, fails_with, request_to. step_world.
  destruct (device _) as [e0|resp].
  - split.
    + intros [= ->]. left. reflexivity.
    + intros [[= ->]|[(r & [=] & _)|(r & e & [=] & _)]]. reflexivity.
  - destruct (resty.IsError resp) eqn:Hok.
    + split.
      * intros [= <-]. right. left. exists resp. auto.
      * intros [[=]|[(r & [= <-] & _ & ->)|(r & e & [= <-] & Hno & _)]];
          [reflexivity | congruence].
    + unfold json.unmarshal. destruct (dec _) as [e|res] eqn:Hdec.
      * split.
        -- intros [= <-]. right. right. exists resp, e. auto.
        -- intros [[=]|[(r & [= <-] & Hno & _)|(r & e' & [= <-] & _ & He & ->)]];
             [congruence|]. rewrite Hdec in He. injection He as <-. reflexivity.
      * split; [discriminate|].
        intros [[=]|[(r & [= <-] & Hno & _)|(r & e' & [= <-] & _ & He & _)]];
          congruence.
Qed.

Lemma V2_get_fails (s : shellyPlugV2.t) (err : Go.error) :
  fst (shellyPlugV2.get device s path queries w) = inl err <->
  fails_with device dec (request_to (shellyPlugV2.address s) path queries) err.
Proof.
  unfold shellyPlugV2.get, fails_with, request_to. step_world.
  destruct (device _) as [e0|resp].
  - split.
    + intros [= ->]. left. reflexivity.
    + intros [[= ->]|[(r & [=] & _)|(r & e & [=] & _)]]. reflexivity.
  - destruct (resty.IsError resp) eqn:Hok.
    + split.
      * intros [= <-]. right. left. exists resp. auto.
      * intros [[=]|[(r & [= <-] & _ & ->)|(r & e & [= <-] & Hno & _)]];
          [reflexivity | congruence].
    + unfold json.unmarshal. cbn. destruct (dec _) as [e|res] eqn:Hdec.
      * split.
        -- intros [= <-]. right. right. exists resp, e. auto.
        -- intros [[=]|[(r & [= <-] & Hno & _)|(r & e' & [= <-] & _ & He & ->)]];
             [congruence|]. rewrite Hdec in He. injection He as <-. reflexivity.
      * split; [discriminate|].
        intros [[=]|[(r & [= <-] & Hno & _)|(r & e' & [= <-] & _ & He & _)]];
          congruence.
Qed.

Lemma legacy_get_fails (s : shellyPlug.t) (err : Go.error) :
  fst (shellyPlug.get device s path queries w) = inl err <->
  fails_with device dec (request_to (shellyPlug.address s) path queries) err.
Proof.
  unfold shellyPlug.get, fails_with, request_to. step_world.
  destruct (device _) as [e0|resp].
  - split.
    + intros [= ->]. left. reflexivity.
    + intros [[= ->]|[(r & [=] & _)|(r & e & [=] & _)]]. reflexivity.
  - destruct (resty.IsError resp) eqn:Hok.
    + split.
      * intros [= <-]. right. left. exists resp. auto.
      * intros [[=]|[(r & [= <-] & _ & ->)|(r & e & [= <-] & Hno & _)]];
          [reflexivity | congruence].
    + unfold json.unmarshal. destruct (dec _) as [e|res] eqn:Hdec.
      * split.
        -- intros [= <-]. right. right. exists resp, e. auto.
        -- intros [[=]|[(r & [= <-] & Hno & _)|(r & e' & [= <-] & _ & He & ->)]];
             [congruence|]. rewrite Hdec in He. injection He as <-. reflexivity.
      * split; [discriminate|].
        intros [[=]|[(r & [= <-] & Hno & _)|(r & e' & [= <-] & _ & He & _)]];
          congruence.
Qed.

End TransportFailures.

(** ** Relay control, in every case *)

Section ControlOutcome.
Variable device : resty.Request -> Go.error + resty.Response.
Context {decode_relay : json.Unmarshal relayV1.t}.
Context {decode_state : json.Unmarshal SwitchStateV2.t}.
Variable w : World.

Lemma V1_TurnOn_cases (s : shellyPlugV1.t) :
  (exists res, answers device decode_relay (turn_request (shellyPlugV1.address s) "on") res /\
     fst (shellyPlugV1.TurnOn device s w) =
       if relayV1.IsOn res then (true, None)
       else (false, Some (Go.Errorf "relay is not on"))) \/
  (exists err, fails_with device decode_relay (turn_request (shellyPlugV1.address s) "on") err /\
     fst (shellyPlugV1.TurnOn device s w) = (false, Some err)).
Proof.
  destruct (fst (shellyPlugV1.get (T := relayV1.t) device s "relay/0" {[ "turn" := "on" ]} w))
    as [err|res] eqn:Hget.
  - right. exists err. split; [apply V1_get_fails in Hget; exact Hget|].
    unfold shellyPlugV1.TurnOn, bind.
    rewrite (run_eq (shellyPlugV1.get device s _ _) w), Hget. reflexivity.
  - left. exists res. apply V1_get_inv in Hget. split; [exact Hget|].
    apply V1_TurnOn_echo. exact Hget.
Qed.

Lemma V1_TurnOff_cases (s : shellyPlugV1.t) :
  (exists res, answers device decode_relay (turn_request (shellyPlugV1.address s) "off") res /\
     fst (shellyPlugV1.TurnOff device s w) =
       if relayV1.IsOn res then (true, Some (Go.Errorf "relay is on"))
       else (false, None)) \/
  (exists err, fails_with device decode_relay (turn_request (shellyPlugV1.address s) "off") err /\
     fst (shellyPlugV1.TurnOff device s w) = (false, Some err)).
Proof.
  destruct (fst (shellyPlugV1.get (T := relayV1.t) device s "relay/0" {[ "turn" := "off" ]} w))
    as [err|res] eqn:Hget.
  - right. exists err. split; [apply V1_get_fails in Hget; exact Hget|].
    unfold shellyPlugV1.TurnOff, bind.
    rewrite (run_eq (shellyPlugV1.get device s _ _) w), Hget. reflexivity.
  - left. exists res. apply V1_get_inv in Hget. split; [exact Hget|].
    apply V1_TurnOff_echo. exact Hget.
Qed.

Lemma V2_TurnOn_cases (s : shellyPlugV2.t) :
  (exists res, answers device decode_state (turn_request (shellyPlugV2.address s) "on") res /\
     fst (shellyPlugV2.TurnOn device s w) =
       if SwitchStateV2.IsOn res then (true, None)
       else (false, Some (Go.Errorf "relay is not on"))) \/
  (exists err, fails_with device decode_state (turn_request (shellyPlugV2.address s) "on") err /\
     fst (shellyPlugV2.TurnOn device s w) = (false, Some err)).
Proof.
  destruct (fst (shellyPlugV2.get (T := SwitchStateV2.t) device s "relay/0" {[ "turn" := "on" ]} w))
    as [err|res] eqn:Hget.
  - right. exists err. split; [apply V2_get_fails in Hget; exact Hget|].
    unfold shellyPlugV2.TurnOn, bind.
    rewrite (run_eq (shellyPlugV2.get device s _ _) w), Hget. reflexivity.
  - left. exists res. apply V2_get_inv in Hget. split; [exact Hget|].
    apply V2_TurnOn_echo. exact Hget.
Qed.

Lemma V2_TurnOff_cases (s : shellyPlugV2.t) :
  (exists res, answers device decode_state (turn_request (shellyPlugV2.address s) "off") res /\
     fst (shellyPlugV2.TurnOff device s w) =
       if SwitchStateV2.IsOn res then (true, Some (Go.Errorf "relay is on"))
       else (false, None)) \/
  (exists err, fails_with device decode_state (turn_request (shellyPlugV2.address s) "off") err /\
     fst (shellyPlugV2.TurnOff device s w) = (false, Some err)).
Proof.
  destruct (fst (shellyPlugV2.get (T := SwitchStateV2.t) device s "relay/0" {[ "turn" := "off" ]} w))
    as [err|res] eqn:Hget.
  - right. exists err. split; [apply V2_get_fails in Hget; exact Hget|].
    unfold shellyPlugV2.TurnOff, bind.
    rewrite (run_eq (shellyPlugV2.get device s _ _) w), Hget. reflexivity.
  - left. exists res. apply V2_get_inv in Hget. split; [exact Hget|].
    apply V2_TurnOff_echo. exact Hget.
Qed.

Lemma V1_TurnOn_world (s : shellyPlugV1.t) :
  snd (shellyPlugV1.TurnOn device s w) =
  after_request (turn_request (shellyPlugV1.address s) "on") w.
Proof.
  unfold shellyPlugV1.TurnOn, bind.
  pose proof (V1_get_world device (T := relayV1.t) "relay/0" {[ "turn" := "on" ]} w s) as Hw.
  cbv zeta in Hw.
  destruct (shellyPlugV1.get device s _ _ w) as [[err|res] w']; cbn [snd] in *.
  - exact Hw.
  - destruct (negb _); exact Hw.
Qed.

Lemma V1_TurnOff_world (s : shellyPlugV1.t) :
  snd (shellyPlugV1.TurnOff device s w) =
  after_request (turn_request (shellyPlugV1.address s) "off") w.
Proof.
  unfold shellyPlugV1.TurnOff, bind.
  pose proof (V1_get_world device (T := relayV1.t) "relay/0" {[ "turn" := "off" ]} w s) as Hw.
  cbv zeta in Hw.
  destruct (shellyPlugV1.get device s _ _ w) as [[err|res] w']; cbn [snd] in *.
  - exact Hw.
  - destruct (relayV1.IsOn _); exact Hw.
Qed.

Lemma V2_TurnOn_world (s : shellyPlugV2.t) :
  let w' := snd (shellyPlugV2.TurnOn device s w) in
  sent w' = (sent w ++ [turn_request (shellyPlugV2.address s) "on"])%list /\
  written w' = written w.
Proof.
  unfold shellyPlugV2.TurnOn, bind.
  pose proof (V2_get_world device (T := SwitchStateV2.t) "relay/0" {[ "turn" := "on" ]} w s) as Hw.
  cbv zeta in *.
  destruct (shellyPlugV2.get device s _ _ w) as [[err|res] w']; cbn [snd] in *.
  - exact Hw.
  - destruct (negb _); exact Hw.
Qed.

Lemma V2_TurnOff_world (s : shellyPlugV2.t) :
  let w' := snd (shellyPlugV2.TurnOff device s w) in
  sent w' = (sent w ++ [turn_request (shellyPlugV2.address s) "off"])%list /\
  written w' = written w.
Proof.
  unfold shellyPlugV2.TurnOff, bind.
  pose proof (V2_get_world device (T := SwitchStateV2.t) "relay/0" {[ "turn" := "off" ]} w s) as Hw.
  cbv zeta in *.
  destruct (shellyPlugV2.get device s _ _ w) as [[err|res] w']; cbn [snd] in *.
  - exact Hw.
  - destruct (SwitchStateV2.IsOn _); exact Hw.
Qed.

End ControlOutcome.

(** X5. [TurnOn] returns [true] exactly when it returns no error, and
    it returns no error only when the device answered the request with
    an echo that shows the relay on; for both generations.  So a [true]
    from [TurnOn] always means a relay that the device reports as on. *)
Theorem TurnOn_true_only_when_echoed_on
    (device : resty.Request -> Go.error + resty.Response)
    (decode_relay : json.Unmarshal relayV1.t)
    (decode_state : json.Unmarshal SwitchStateV2.t)
    (w : World) (s1 : shellyPlugV1.t) (s2 : shellyPlugV2.t) :
  (let r := fst (shellyPlugV1.TurnOn device s1 w) in
   (fst r = true <-> snd r = None) /\
   (snd r = None ->
    exists res, answers device decode_relay
                  (turn_request (shellyPlugV1.address s1) "on") res /\
                relayV1.IsOn res = true)) /\
  (let r := fst (shellyPlugV2.TurnOn device s2 w) in
   (fst r = true <-> snd r = None) /\
   (snd r = None ->
    exists res, answers device decode_state
                  (turn_request (shellyPlugV2.address s2) "on") res /\
                SwitchStateV2.IsOn res = true)).
Proof.
  split; cbv zeta.
  - destruct (V1_TurnOn_cases device w s1) as [(res & Hans & ->)|(err & _ & ->)].
    + destruct (relayV1.IsOn res) eqn:Hon; cbn [fst snd].
      * split; [tauto|]. intros _. exists res. auto.
      * split; [split; discriminate | discriminate].
    + cbn [fst snd]. split; [split; discriminate | discriminate].
  - destruct (V2_TurnOn_cases device w s2) as [(res & Hans & ->)|(err & _ & ->)].
    + destruct (SwitchStateV2.IsOn res) eqn:Hon; cbn [fst snd].
      * split; [tauto|]. intros _. exists res. auto.
      * split; [split; discriminate | discriminate].
    + cbn [fst snd]. split; [split; discriminate | discriminate].
Qed.

(** X6. [TurnOff] returns no error only when the device answered the
    request with an echo that shows the relay off, and then it returns
    [false]; whenever it returns [true], it returns the error
    [relay is on] with it.  For both generations. *)
Theorem TurnOff_reports_the_echo
    (device : resty.Request -> Go.error + resty.Response)
    (decode_relay : json.Unmarshal relayV1.t)
    (decode_state : json.Unmarshal SwitchStateV2.t)
    (w : World) (s1 : shellyPlugV1.t) (s2 : shellyPlugV2.t) :
  (let r := fst (shellyPlugV1.TurnOff device s1 w) in
   (snd r = None ->
    fst r = false /\
    exists res, answers device decode_relay
                  (turn_request (shellyPlugV1.address s1) "off") res /\
                relayV1.IsOn res = false) /\
   (fst r = true -> snd r = Some (Go.Errorf "relay is on"))) /\
  (let r := fst (shellyPlugV2.TurnOff device s2 w) in
   (snd r = None ->
    fst r = false /\
    exists res, answers device decode_state
                  (turn_request (shellyPlugV2.address s2) "off") res /\
                SwitchStateV2.IsOn res = false) /\
   (fst r = true -> snd r = Some (Go.Errorf "relay is on"))).
Proof.
  split; cbv zeta.
  - destruct (V1_TurnOff_cases device w s1) as [(res & Hans & ->)|(err & _ & ->)].
    + destruct (relayV1.IsOn res) eqn:Hon; cbn [fst snd].
      * split; [discriminate | reflexivity].
      * split; [|discriminate]. intros _. split; [reflexivity|]. exists res. auto.
    + cbn [fst snd]. split; discriminate.
  - destruct (V2_TurnOff_cases device w s2) as [(res & Hans & ->)|(err & _ & ->)].
    + destruct (SwitchStateV2.IsOn res) eqn:Hon; cbn [fst snd].
      * split; [discriminate | reflexivity].
      * split; [|discriminate]. intros _. split; [reflexivity|]. exists res. auto.
    + cbn [fst snd]. split; discriminate.
Qed.

(** X7. Whatever the device answers, [TurnOn] and [TurnOff] send
    exactly one request, for [relay/0] with the query [turn=on] or
    [turn=off], and write nothing to the sink; the generation 1 client
    leaves the log untouched as well. *)
Theorem turn_sends_one_request_and_writes_nothing
    (device : resty.Request -> Go.error + resty.Response)
    (decode_relay : json.Unmarshal relayV1.t)
    (decode_state : json.Unmarshal SwitchStateV2.t)
    (w : World) (s1 : shellyPlugV1.t) (s2 : shellyPlugV2.t) :
  snd (shellyPlugV1.TurnOn device s1 w) =
    after_request (turn_request (shellyPlugV1.address s1) "on") w /\
  snd (shellyPlugV1.TurnOff device s1 w) =
    after_request (turn_request (shellyPlugV1.address s1) "off") w /\
  (let w' := snd (shellyPlugV2.TurnOn device s2 w) in
   sent w' = (sent w ++ [turn_request (shellyPlugV2.address s2) "on"])%list /\
   written w' = written w) /\
  (let w' := snd (shellyPlugV2.TurnOff device s2 w) in
   sent w' = (sent w ++ [turn_request (shellyPlugV2.address s2) "off"])%list /\
   written w' = written w).
Proof.
  split; [apply V1_TurnOn_world|].
  split; [apply V1_TurnOff_world|].
  split; [apply V2_TurnOn_world | apply V2_TurnOff_world].
Qed.

(** ** The energy report, in every case *)

Lemma MarshalIndent_document (v : json.any) (j : list json.chunk) :
  json.MarshalIndent v = inr j -> j = [json.Indented v].
Proof.
  unfold json.MarshalIndent. destruct (json.supported v); [|discriminate].
  intros [= <-]. reflexivity.
Qed.

(** Every path of the generation 1 render: what it returns and the world
    it leaves, by the exchange, the two guards and the format switch. *)
Ltac walk_V1_RenderEnergy device s w :=
  let Hw := fresh "Hw" in
  unfold shellyPlugV1.RenderEnergy, shellyPlugV1.Status, bind;
  pose proof (V1_get_world device (T := deviceStatusV1.t) "status" ∅ w s) as Hw;
  cbv zeta in Hw;
  let err := fresh "err" in
  let status := fresh "status" in
  let w' := fresh "w'" in
  destruct (shellyPlugV1.get (T := deviceStatusV1.t) device s "status" ∅ w)
    as [[err|status] w'];
  cbn [snd] in Hw; subst w';
  [ | destruct (deviceStatusV1.Meters status) as [|? [|? ?]];
      cbn [length Nat.eqb negb];
      [ | destruct (deviceStatusV1.Relays status) as [|? [|? ?]];
          cbn [length Nat.eqb negb lookup list_lookup] | ] ].

Section EnergyFrameV1.
Variable device : resty.Request -> Go.error + resty.Response.
Variable cfg : Config.
Context {decode_status : json.Unmarshal deviceStatusV1.t}.
Variables (s : shellyPlugV1.t) (w : World).

Lemma V1_RenderEnergy_no_panic (msg : string) :
  fst (shellyPlugV1.RenderEnergy device cfg s w) <> Go.Panics msg.
Proof.
  walk_V1_RenderEnergy device s w; try discriminate.
  destruct (jsonFormat cfg); [|destruct (choriaFormat cfg)];
    try (destruct (json.MarshalIndent _)); discriminate.
Qed.

Lemma V1_RenderEnergy_sent :
  let w' := snd (shellyPlugV1.RenderEnergy device cfg s w) in
  sent w' = (sent w ++ [request_to (shellyPlugV1.address s) "status" ∅])%list /\
  logged w' = logged w.
Proof.
  walk_V1_RenderEnergy device s w; try (split; reflexivity).
  destruct (jsonFormat cfg); [|destruct (choriaFormat cfg)];
    try (destruct (json.MarshalIndent _)); split; reflexivity.
Qed.

Lemma V1_RenderEnergy_all_or_nothing :
  let run := shellyPlugV1.RenderEnergy device cfg s w in
  (fst run <> Go.Returns None -> written (snd run) = written w) /\
  (fst run = Go.Returns None ->
     if jsonFormat cfg || choriaFormat cfg
     then exists v, written (snd run) = (written w ++ [json.Indented v; json.Lit LF])%list
     else exists out text,
            written (snd run) = (written w ++ out)%list /\ text_of out = Some text).
Proof.
  walk_V1_RenderEnergy device s w;
    try (split; [reflexivity | discriminate]).
  destruct (jsonFormat cfg); [|destruct (choriaFormat cfg)]; cbn [orb].
  - destruct (json.MarshalIndent _) as [e|j] eqn:Hj; [split; [reflexivity|discriminate]|].
    apply MarshalIndent_document in Hj. subst j. step_world.
    split; [congruence|]. intros _. eexists. reflexivity.
  - destruct (json.MarshalIndent _) as [e|j] eqn:Hj; [split; [reflexivity|discriminate]|].
    apply MarshalIndent_document in Hj. subst j. step_world.
    split; [congruence|]. intros _. eexists. reflexivity.
  - step_world. split; [congruence|]. intros _.
    rewrite <- !app_assoc. cbn [app]. eexists _, _. split; [reflexivity|].
    cbn [text_of option_map]. reflexivity.
Qed.

End EnergyFrameV1.

Ltac walk_V2_RenderEnergy device s w :=
  let Hsent := fresh "Hsent" in
  let Hwritten := fresh "Hwritten" in
  let Hinv := fresh "Hinv" in
  unfold shellyPlugV2.RenderEnergy, shellyPlugV2.Status, bind;
  pose proof (V2_get_world device (T := DeviceStatusV2.t) "rpc/Shelly.GetStatus" ∅ w s)
    as [Hsent Hwritten];
  pose proof (V2_get_inv device (T := DeviceStatusV2.t) "rpc/Shelly.GetStatus" ∅ w s)
    as Hinv;
  let err := fresh "err" in
  let status := fresh "status" in
  let w' := fresh "w'" in
  destruct (shellyPlugV2.get (T := DeviceStatusV2.t) device s "rpc/Shelly.GetStatus" ∅ w)
    as [[err|status] w'];
  cbn [fst snd] in Hsent, Hwritten, Hinv;
  [ | let sw := fresh "sw" in
      let Hsw := fresh "Hsw" in
      destruct (DeviceStatusV2.Switch1 status) as [sw|] eqn:Hsw;
      [ let e := fresh "e" in
        let He := fresh "He" in
        destruct (SwitchStatusV2.AEnergy sw) as [e|] eqn:He;
        [ let t := fresh "t" in
          let Ht := fresh "Ht" in
          destruct (SwitchStatusV2.Temperature sw) as [t|] eqn:Ht | ] | ] ].

Section EnergyFrameV2.
Variable device : resty.Request -> Go.error + resty.Response.
Variable cfg : Config.
Context {decode_status : json.Unmarshal DeviceStatusV2.t}.
Variables (s : shellyPlugV2.t) (w : World).

Lemma V2_RenderEnergy_panics_iff (msg : string) :
  fst (shellyPlugV2.RenderEnergy device cfg s w) = Go.Panics msg <->
  msg = Go.nil_dereference /\
  exists status sw e,
    answers device decode_status
      (request_to (shellyPlugV2.address s) "rpc/Shelly.GetStatus" ∅) status /\
    DeviceStatusV2.Switch1 status = Some sw /\
    SwitchStatusV2.AEnergy sw = Some e /\
    SwitchStatusV2.Temperature sw = None.
Proof.
  split.
  - walk_V2_RenderEnergy device s w; try discriminate.
    + destruct (jsonFormat cfg); [|destruct (choriaFormat cfg)];
        try (destruct (json.MarshalIndent _)); discriminate.
    + cbn [fst]. intros [= <-]. split; [reflexivity|].
      exists status, sw, e. auto.
  - intros (-> & status & sw & e & Hans & Hsw & He & Ht).
    exact (proj1 (V2_RenderEnergy_no_temperature device cfg s w status Hans sw e Hsw He Ht)).
Qed.

Lemma V2_RenderEnergy_sent :
  sent (snd (shellyPlugV2.RenderEnergy device cfg s w)) =
  (sent w ++ [request_to (shellyPlugV2.address s) "rpc/Shelly.GetStatus" ∅])%list.
Proof.
  walk_V2_RenderEnergy device s w; try exact Hsent.
  destruct (jsonFormat cfg); [|destruct (choriaFormat cfg)];
    try (destruct (json.MarshalIndent _)); exact Hsent.
Qed.

Lemma V2_RenderEnergy_all_or_nothing :
  let run := shellyPlugV2.RenderEnergy device cfg s w in
  (fst run <> Go.Returns None -> written (snd run) = written w) /\
  (fst run = Go.Returns None ->
     if jsonFormat cfg || choriaFormat cfg
     then exists v, written (snd run) = (written w ++ [json.Indented v; json.Lit LF])%list
     else exists out text,
            written (snd run) = (written w ++ out)%list /\ text_of out = Some text).
Proof.
  walk_V2_RenderEnergy device s w;
    try (split; [intros _; exact Hwritten | discriminate]).
  destruct (jsonFormat cfg); [|destruct (choriaFormat cfg)]; cbn [orb].
  - destruct (json.MarshalIndent _) as [e'|j] eqn:Hj;
      [split; [intros _; exact Hwritten | discriminate]|].
    apply MarshalIndent_document in Hj. subst j. step_world. rewrite Hwritten.
    split; [congruence|]. intros _. eexists. reflexivity.
  - destruct (json.MarshalIndent _) as [e'|j] eqn:Hj;
      [split; [intros _; exact Hwritten | discriminate]|].
    apply MarshalIndent_document in Hj. subst j. step_world. rewrite Hwritten.
    split; [congruence|]. intros _. eexists. reflexivity.
  - step_world. rewrite Hwritten. split; [congruence|]. intros _.
    rewrite <- !app_assoc. cbn [app]. eexists _, _. split; [reflexivity|].
    cbn [text_of option_map]. reflexivity.
Qed.

End EnergyFrameV2.

(** ** The envelopes of the energy report *)

Lemma reading_v1_index (a b c : json.any) :
  json.index {[ "power_watt" := a; "power_total_kwh" := b; "is_on" := c ]} "power_watt" = a /\
  json.index {[ "power_watt" := a; "power_total_kwh" := b; "is_on" := c ]} "power_total_kwh" = b /\
  json.index {[ "power_watt" := a; "power_total_kwh" := b; "is_on" := c ]} "is_on" = c.
Proof. repeat split; vm_compute; reflexivity. Qed.

Section MetricsV1.
Variable device : resty.Request -> Go.error + resty.Response.
Variable cfg : Config.
Context {decode_status : json.Unmarshal deviceStatusV1.t}.
Variables (s : shellyPlugV1.t) (w : World) (status : deviceStatusV1.t).

Hypothesis fetched :
  answers device decode_status (request_to (shellyPlugV1.address s) "status" ∅) status.

Lemma V1_RenderEnergy_metrics (r : relayV1.t) (m : meterV1.t) :
  jsonFormat cfg = false -> choriaFormat cfg = true ->
  deviceStatusV1.Relays status = [r] ->
  deviceStatusV1.Meters status = [m] ->
  Go.int64 (meterV1.Total m) ->
  is_finite (meterV1.Power m) = true ->
  fst (shellyPlugV1.RenderEnergy device cfg s w) = Go.Returns None /\
  written (snd (shellyPlugV1.RenderEnergy device cfg s w)) =
    (written w ++
     [json.Indented (json.MapStringAny
        {[ "labels" := json.MapStringString (labels cfg);
           "metrics" := json.MapStringAny
             {[ "current_power_watt" := json.Float64 (meterV1.Power m);
                "today_energy_kwh" :=
                  json.Float64 (Float64.of_int64 (meterV1.Total m) * kwh_per_count)%float;
                "relay_on" :=
                  json.Float64 (if relayV1.IsOn r then 1%float else 0%float) ]} ]});
      json.Lit LF])%list.
Proof.
  intros Hjson Hchoria Hr Hm Hrange Hpower.
  unfold shellyPlugV1.RenderEnergy, bind.
  rewrite (V1_Status_run device s w status fetched).
  rewrite Hr, Hm. cbn [length Nat.eqb negb lookup list_lookup].
  rewrite Hjson, Hchoria. unfold json.MarshalIndent.
  destruct (reading_v1_index
              (json.Float64 (meterV1.Power m))
              (json.Float64 (Float64.of_int64 (meterV1.Total m) * kwh_per_count)%float)
              (json.Float64 (if relayV1.IsOn r then 1%float else 0%float)))
    as (-> & -> & ->).
  destruct (kwh_within_tolerance (meterV1.Total m) Hrange) as [Hfin _].
  cbv zeta in Hfin.
  pose proof (is_on_finite (relayV1.IsOn r)) as Hon.
  rewrite supported_map.
  - step_world. split; [reflexivity|]. cbn [app]. reflexivity.
  - all_supported. apply supported_map. all_supported.
Qed.

End MetricsV1.

Section ReportsV2.
Variable device : resty.Request -> Go.error + resty.Response.
Variable cfg : Config.
Context {decode_status : json.Unmarshal DeviceStatusV2.t}.
Variables (s : shellyPlugV2.t) (w : World) (status : DeviceStatusV2.t).

Hypothesis fetched :
  answers device decode_status
    (request_to (shellyPlugV2.address s) "rpc/Shelly.GetStatus" ∅) status.

Lemma V2_RenderEnergy_json
    (sw : SwitchStatusV2.t) (e : ActiveEnergyV2.t) (t : TemperatureStatusV2.t) :
  jsonFormat cfg = true ->
  DeviceStatusV2.Switch1 status = Some sw ->
  SwitchStatusV2.AEnergy sw = Some e ->
  SwitchStatusV2.Temperature sw = Some t ->
  is_finite (SwitchStatusV2.APower sw) = true ->
  is_finite (SwitchStatusV2.Voltage sw) = true ->
  is_finite (SwitchStatusV2.Current sw) = true ->
  is_finite (SwitchStatusV2.Freq sw) = true ->
  is_finite (ActiveEnergyV2.Total e) = true ->
  is_finite (TemperatureStatusV2.TC t) = true ->
  fst (shellyPlugV2.RenderEnergy device cfg s w) = Go.Returns None /\
  written (snd (shellyPlugV2.RenderEnergy device cfg s w)) =
    (written w ++
     [json.Indented (json.MapStringAny
        {[ "power_watt" := json.Float64 (SwitchStatusV2.APower sw);
           "power_volt" := json.Float64 (SwitchStatusV2.Voltage sw);
           "power_ampere" := json.Float64 (SwitchStatusV2.Current sw);
           "power_frequency" := json.Float64 (SwitchStatusV2.Freq sw);
           "power_total_kwh" := json.Float64 (ActiveEnergyV2.Total e / 1000)%float;
           "internal_celsius" := json.Float64 (TemperatureStatusV2.TC t);
           "is_on" :=
             json.Float64 (if SwitchStatusV2.Output sw then 1%float else 0%float) ]});
      json.Lit LF])%list.
Proof.
  intros Hjson Hsw He Ht Hp Hv Hc Hf Htot Htc.
  destruct (V2_Status_run device s w status fetched) as (w' & Hrun & _ & Hw).
  unfold shellyPlugV2.RenderEnergy, bind. rewrite Hrun, Hsw, He, Ht, Hjson.
  unfold json.MarshalIndent.
  rewrite supported_map.
  - step_world. rewrite Hw. split; [reflexivity|]. cbn [app]. reflexivity.
  - pose proof (div_thousand_finite _ Htot).
    pose proof (is_on_finite (SwitchStatusV2.Output sw)).
    all_supported.
Qed.

Lemma V2_RenderEnergy_text
    (sw : SwitchStatusV2.t) (e : ActiveEnergyV2.t) (t : TemperatureStatusV2.t) :
  jsonFormat cfg = false -> choriaFormat cfg = false ->
  DeviceStatusV2.Switch1 status = Some sw ->
  SwitchStatusV2.AEnergy sw = Some e ->
  SwitchStatusV2.Temperature sw = Some t ->
  fst (shellyPlugV2.RenderEnergy device cfg s w) = Go.Returns None /\
  written (snd (shellyPlugV2.RenderEnergy device cfg s w)) =
    (written w ++
     [json.Lit "Meter Information"; json.Lit LF; json.Lit LF;
      json.Lit ("              Powered On: " ++ Fmt.verb_t (SwitchStatusV2.Output sw) ++ LF);
      json.Lit ("                   Power: " ++ Fmt.verb_f 2 (SwitchStatusV2.APower sw) ++ " Watt" ++ LF);
      json.Lit ("                 Voltage: " ++ Fmt.verb_f 2 (SwitchStatusV2.Voltage sw) ++ " V" ++ LF);
      json.Lit ("                 Current: " ++ Fmt.verb_f 2 (SwitchStatusV2.Current sw) ++ " Amp" ++ LF);
      json.Lit ("               Frequency: " ++ Fmt.verb_f 2 (SwitchStatusV2.Freq sw) ++ " Hz" ++ LF);
      json.Lit ("       Total Consumption: "
                ++ Fmt.verb_f 2 (ActiveEnergyV2.Total e / 1000)%float ++ " kWh" ++ LF);
      json.Lit ("           Internal Temp: "
                ++ Fmt.verb_f 2 (TemperatureStatusV2.TC t) ++ " C" ++ LF)])%list.
Proof.
  intros Hjson Hchoria Hsw He Ht.
  destruct (V2_Status_run device s w status fetched) as (w' & Hrun & _ & Hw).
  unfold shellyPlugV2.RenderEnergy, bind. rewrite Hrun, Hsw, He, Ht, Hjson, Hchoria.
  step_world. rewrite Hw. split; [reflexivity|].
  rewrite <- !app_assoc. cbn [app].
  destruct (SwitchStatusV2.Output sw); reflexivity.
Qed.

End ReportsV2.

(** ** Computations that only write *)

Lemma wrote_nothing (w : World) : wrote [] w = w.
Proof. destruct w. unfold wrote. cbn. rewrite app_nil_r. reflexivity. Qed.

Lemma wrote_more (o1 o2 : list json.chunk) (w : World) :
  wrote o2 (wrote o1 w) = wrote (o1 ++ o2) w.
Proof. unfold wrote. cbn. rewrite app_assoc. reflexivity. Qed.

Lemma emits_ret {A : Type} (a : A) : emits (ret a) a [].
Proof. intros w. unfold ret. rewrite wrote_nothing. reflexivity. Qed.

Lemma emits_Fprintf (text : string) : emits (Fprintf text) tt [json.Lit text].
Proof. intros w. reflexivity. Qed.

Lemma emits_Fprintln (a : list json.chunk) :
  emits (Fprintln a) tt (a ++ [json.Lit LF]).
Proof. intros w. reflexivity. Qed.

Lemma emits_seq {A : Type} (c : M unit) (k : M A) (a : A) (o1 o2 : list json.chunk) :
  emits c tt o1 -> emits k a o2 -> emits (c ;; k) a (o1 ++ o2).
Proof.
  intros Hc Hk w. unfold bind. rewrite Hc, Hk, wrote_more. reflexivity.
Qed.

Lemma emits_and_then {A : Type} (c : M (Go.outcome unit)) (k : M (Go.outcome A))
    (r : Go.outcome unit) (a : Go.outcome A) (o1 o2 : list json.chunk) :
  emits c r o1 ->
  emits (match r with
         | Go.Returns _ => k
         | Go.Panics msg => ret (Go.Panics msg)
         end) a o2 ->
  emits (and_then c k) a (o1 ++ o2).
Proof.
  intros Hc Hk w. unfold and_then, bind. rewrite Hc, Hk, wrote_more. reflexivity.
Qed.

Ltac emit :=
  lazymatch goal with
  | |- emits (ret _) _ _ => apply emits_ret
  | |- emits (Fprintf _) _ _ => apply emits_Fprintf
  | |- emits (Fprintln _) _ _ => apply emits_Fprintln
  | |- emits (and_then _ _) _ _ =>
      eapply emits_and_then; [emit | cbv beta iota; emit]
  | |- emits (bind _ _) _ _ => eapply emits_seq; [emit | emit]
  end.

(** ** The device report, generation 1 *)

Lemma bind_run {A B : Type} (c : M A) (k : A -> M B) (w : World) :
  bind c k w = k (fst (c w)) (snd (c w)).
Proof. unfold bind. destruct (c w). reflexivity. Qed.

Ltac emit_run :=
  lazymatch goal with
  | |- context [bind ?c ?k ?w'] =>
      let H := fresh "Hemit" in
      eassert (emits (bind c k) _ _) as H by emit;
      rewrite (H w'); clear H
  end.

Ltac report_shapes_V1 status :=
  destruct (deviceStatusV1.Relays status) as [|?r [|? ?]];
  destruct (deviceStatusV1.Meters status) as [|?m [|? ?]];
  cbn [length Nat.eqb lookup list_lookup];
  destruct (cloudStatusV1.Enabled (deviceStatusV1.Cloud status));
  try match goal with
      | r : relayV1.t |- _ => destruct (relayV1.HasTimer r)
      end.

(** Whether a chunk occurs in an explicit list of chunks. *)
Ltac absent_or_trivial :=
  let H := fresh "H" in
  intros H; try reflexivity;
  cbn [In String.append] in H;
  repeat (destruct H as [H|H]; [discriminate H|]);
  contradiction.

Ltac present_or_absurd :=
  let H := fresh "H" in
  intros H; try discriminate H;
  cbn [In]; repeat first [left; reflexivity | right].

Ltac ends_with_meter_section :=
  lazymatch goal with
  | |- exists pre, ?l = (pre ++ ?tail)%list =>
      exists (take (length l - length tail) l); reflexivity
  end.

Section InfoV1.
Variable device : resty.Request -> Go.error + resty.Response.
Variable flags : Flags.
Variable lib : Printers.
Context {decode_status : json.Unmarshal deviceStatusV1.t}.
Context {decode_info : json.Unmarshal deviceInfoV1.t}.
Variables (s : shellyPlugV1.t) (w : World).


Lemma V1_get_run {T : Type} {dec : json.Unmarshal T}
    (path : string) (queries : gmap string string) (w0 : World) :
  shellyPlugV1.get device s path queries w0 =
  (fst (shellyPlugV1.get (T := T) device s path queries w0),
   after_request (request_to (shellyPlugV1.address s) path queries) w0).
Proof.
  pose proof (V1_get_world device (T := T) path queries w0 s) as Hw. cbv zeta in Hw.
  rewrite <- Hw. apply run_eq.
Qed.

(** The report fails fast: a failed [shelly] exchange ends it after one
    request, a failed [status] exchange after two, with nothing written. *)
Lemma V1_RenderInfo_info_fails (err : Go.error) :
  fails_with device decode_info (request_to (shellyPlugV1.address s) "shelly" ∅) err ->
  shellyPlugV1.RenderInfo device flags lib s w =
  (Go.Returns (Some err), after_request (request_to (shellyPlugV1.address s) "shelly" ∅) w).
Proof.
  intros Hf. apply (V1_get_fails device "shelly" ∅ w) in Hf.
  unfold shellyPlugV1.RenderInfo, shellyPlugV1.Info. rewrite bind_run.
  rewrite V1_get_run. cbn [fst snd]. rewrite Hf. reflexivity.
Qed.

Lemma V1_RenderInfo_status_fails (nfo : deviceInfoV1.t) (err : Go.error) :
  answers device decode_info (request_to (shellyPlugV1.address s) "shelly" ∅) nfo ->
  fails_with device decode_status (request_to (shellyPlugV1.address s) "status" ∅) err ->
  shellyPlugV1.RenderInfo device flags lib s w =
  (Go.Returns (Some err), after_request (request_to (shellyPlugV1.address s) "status" ∅) (after_request (request_to (shellyPlugV1.address s) "shelly" ∅) w)).
Proof.
  intros Ha Hf.
  unfold shellyPlugV1.RenderInfo, shellyPlugV1.Info, shellyPlugV1.Status.
  rewrite bind_run, V1_get_run. cbn [fst snd].
  rewrite (V1_get_answers device _ _ w s nfo Ha).
  rewrite bind_run, V1_get_run. cbn [fst snd].
  apply (V1_get_fails device "status" ∅ (after_request (request_to (shellyPlugV1.address s) "shelly" ∅) w)) in Hf.
  rewrite Hf. reflexivity.
Qed.

Lemma V1_RenderInfo_report (nfo : deviceInfoV1.t) (status : deviceStatusV1.t) :
  answers device decode_info (request_to (shellyPlugV1.address s) "shelly" ∅) nfo ->
  answers device decode_status (request_to (shellyPlugV1.address s) "status" ∅) status ->
  exists out : list json.chunk,
    shellyPlugV1.RenderInfo device flags lib s w =
    (Go.Returns None,
     wrote out (after_request (request_to (shellyPlugV1.address s) "status" ∅)
                  (after_request (request_to (shellyPlugV1.address s) "shelly" ∅) w))) /\
    (In (json.Lit "Relay Information") out <->
       length (deviceStatusV1.Relays status) = 1%nat) /\
    (In (json.Lit "Meter Information") out <->
       length (deviceStatusV1.Meters status) = 1%nat) /\
    (forall m : meterV1.t, deviceStatusV1.Meters status = [m] ->
       exists pre : list json.chunk,
         out = (pre ++
           [json.Lit LF; json.Lit "Meter Information"; json.Lit LF; json.Lit LF;
            json.Lit ("               Power: " ++ Fmt.verb_f 2 (meterV1.Power m) ++ " Watt" ++ LF);
            json.Lit ("   Total Consumption: "
                      ++ Fmt.verb_f 2 (Float64.of_int64 (meterV1.Total m) * kwh_per_count)%float
                      ++ " kWh" ++ LF)])%list) /\
    (forall r : relayV1.t, deviceStatusV1.Relays status = [r] ->
       In (json.Lit ("        Power Status: "
                     ++ (if relayV1.IsOn r then "On" else "Off") ++ LF)) out) /\
    In (json.Lit ("              Uptime: "
                  ++ Duration_String lib (time.seconds (deviceStatusV1.Uptime status)) ++ LF))
       out /\
    In (json.Lit ("        Memory Total: "
                  ++ IBytes lib (Go.uint64 (deviceStatusV1.RamTotal status)) ++ LF)) out.
Proof.
  intros Ha Hs.
  unfold shellyPlugV1.RenderInfo, shellyPlugV1.Info, shellyPlugV1.Status.
  rewrite bind_run, V1_get_run. cbn [fst snd].
  rewrite (V1_get_answers device _ _ w s nfo Ha).
  rewrite bind_run, V1_get_run. cbn [fst snd].
  rewrite (V1_get_answers device _ _ _ s status Hs).
  report_shapes_V1 status; emit_run;
    (eexists; split; [reflexivity|]; cbn [app length];
     split; [split; [absent_or_trivial | present_or_absurd]|];
     split; [split; [absent_or_trivial | present_or_absurd]|];
     split; [intros m' Hm'; try discriminate Hm'; injection Hm' as <-;
             ends_with_meter_section|];
     split; [intros r' Hr'; try discriminate Hr'; injection Hr' as <-;
             destruct (relayV1.IsOn _); cbn [negb In];
             repeat first [left; reflexivity | right]|];
     split; cbn [In]; repeat first [left; reflexivity | right]).
Qed.

End InfoV1.

(** ** The device report, generation 2 *)

Ltac report_shapes_V2 status :=
  let sys := fresh "sys" in
  let Hsys := fresh "Hsys" in
  let Hwifi := fresh "Hwifi" in
  let Hsw := fresh "Hsw" in
  destruct (DeviceStatusV2.System status) as [sys|] eqn:Hsys;
  [ destruct (DeviceStatusV2.WiFi status) as [?wifi|] eqn:Hwifi;
    [ destruct (AvailableUpdatesV2.Stable (SystemStatusV2.AvailableUpdates sys))
        as [?stable|] eqn:?Hstable;
      (destruct (DeviceStatusV2.Switch1 status) as [?sw|] eqn:Hsw;
       [ match goal with
         | sw : SwitchStatusV2.t |- _ =>
             destruct (SwitchStatusV2.AEnergy sw) as [?e|] eqn:?He;
             [ destruct (SwitchStatusV2.Temperature sw) as [?t|] eqn:?Ht | ]
         end | ])
    | ]
  | ].

Ltac missing_pointer :=
  match goal with
  | H : is_Some None |- _ => destruct H as [? H]; discriminate H
  end.

Ltac returns_iff_present :=
  split;
  [ let H := fresh "H" in
    intros H;
    first
      [ discriminate H
      | split; [eexists; reflexivity|];
        split; [eexists; reflexivity|];
        intros ? [= <-];
        try match goal with
            | E : SwitchStatusV2.AEnergy _ = _ |- _ => rewrite E
            end;
        try match goal with
            | E : SwitchStatusV2.Temperature _ = _ |- _ => rewrite E
            end;
        split; eexists; reflexivity ]
  | let H1 := fresh "H" in
    let H2 := fresh "H" in
    let H3 := fresh "H" in
    intros (H1 & H2 & H3);
    first
      [ reflexivity
      | missing_pointer
      | destruct (H3 _ eq_refl) as [H1' H2'];
        try match type of H1' with
            | is_Some (SwitchStatusV2.AEnergy _) =>
                match goal with
                | E : SwitchStatusV2.AEnergy _ = _ |- _ => rewrite E in H1'
                end
            end;
        try match type of H2' with
            | is_Some (SwitchStatusV2.Temperature _) =>
                match goal with
                | E : SwitchStatusV2.Temperature _ = _ |- _ => rewrite E in H2'
                end
            end;
        missing_pointer ] ].

Ltac absent_or_present :=
  let H := fresh "H" in
  intros H; cbn [In String.append] in H;
  first
    [ repeat (destruct H as [H|H]; [discriminate H|]); contradiction
    | repeat split; eexists; reflexivity ].

Ltac present_or_missing :=
  let H1 := fresh "H" in
  let H2 := fresh "H" in
  let H3 := fresh "H" in
  intros (H1 & H2 & H3);
  first
    [ missing_pointer
    | cbn [In]; repeat first [left; reflexivity | right] ].

Ltac update_lines :=
  let H := fresh "H" in
  intros ? [= <-] H;
  first
    [ missing_pointer
    | match goal with
      | E : AvailableUpdatesV2.Stable _ = _ |- _ => rewrite E
      end;
      split;
      [ cbn [In]; repeat first [left; reflexivity | right]
      | lazymatch goal with
        | |- forall _, _ =>
            let v := fresh "v" in
            let Hin := fresh "Hin" in
            intros v Hin; cbn [In String.append] in Hin;
            repeat (destruct Hin as [Hin|Hin]; [discriminate Hin|]);
            contradiction
        | |- _ => cbn [In]; repeat first [left; reflexivity | right]
        end ] ].

Section InfoV2.
Variable device : resty.Request -> Go.error + resty.Response.
Variable flags : Flags.
Variable lib : Printers.
Context {decode_status : json.Unmarshal DeviceStatusV2.t}.
Context {decode_info : json.Unmarshal DeviceInfoV2.t}.
Variables (s : shellyPlugV2.t) (w : World).

Lemma V2_RenderInfo_info_fails (err : Go.error) :
  fails_with device decode_info (request_to (shellyPlugV2.address s) "shelly" ∅) err ->
  let run := shellyPlugV2.RenderInfo device flags lib s w in
  fst run = Go.Returns (Some err) /\
  sent (snd run) = (sent w ++ [request_to (shellyPlugV2.address s) "shelly" ∅])%list /\
  written (snd run) = written w.
Proof.
  intros Hf. apply (V2_get_fails device "shelly" ∅ w) in Hf.
  pose proof (V2_get_world device (T := DeviceInfoV2.t) "shelly" ∅ w s) as Hw.
  cbv zeta in *.
  unfold shellyPlugV2.RenderInfo, shellyPlugV2.Info. rewrite bind_run.
  rewrite Hf. cbn [fst snd ret]. split; [reflexivity | exact Hw].
Qed.

Lemma V2_RenderInfo_status_fails (nfo : DeviceInfoV2.t) (err : Go.error) :
  answers device decode_info (request_to (shellyPlugV2.address s) "shelly" ∅) nfo ->
  fails_with device decode_status
    (request_to (shellyPlugV2.address s) "rpc/Shelly.GetStatus" ∅) err ->
  let run := shellyPlugV2.RenderInfo device flags lib s w in
  fst run = Go.Returns (Some err) /\
  sent (snd run) =
    (sent w ++ [request_to (shellyPlugV2.address s) "shelly" ∅;
                request_to (shellyPlugV2.address s) "rpc/Shelly.GetStatus" ∅])%list /\
  written (snd run) = written w.
Proof.
  intros Ha Hf.
  pose proof (V2_get_world device (T := DeviceInfoV2.t) "shelly" ∅ w s) as [Hs1 Hw1].
  set (w1 := snd (shellyPlugV2.get (T := DeviceInfoV2.t) device s "shelly" ∅ w)) in *.
  pose proof (V2_get_world device (T := DeviceStatusV2.t) "rpc/Shelly.GetStatus" ∅ w1 s)
    as [Hs2 Hw2].
  apply (V2_get_fails device "rpc/Shelly.GetStatus" ∅ w1) in Hf.
  cbv zeta.
  unfold shellyPlugV2.RenderInfo, shellyPlugV2.Info, shellyPlugV2.Status.
  rewrite bind_run. rewrite (V2_get_answers device _ _ w s nfo Ha).
  fold w1. rewrite bind_run, Hf. cbn [fst snd ret].
  split; [reflexivity|]. split.
  - rewrite Hs2, Hs1, <- app_assoc. reflexivity.
  - rewrite Hw2, Hw1. reflexivity.
Qed.

Lemma V2_RenderInfo_report (nfo : DeviceInfoV2.t) (status : DeviceStatusV2.t) :
  answers device decode_info (request_to (shellyPlugV2.address s) "shelly" ∅) nfo ->
  answers device decode_status
    (request_to (shellyPlugV2.address s) "rpc/Shelly.GetStatus" ∅) status ->
  let run := shellyPlugV2.RenderInfo device flags lib s w in
  exists out : list json.chunk,
    written (snd run) = (written w ++ out)%list /\
    sent (snd run) =
      (sent w ++ [request_to (shellyPlugV2.address s) "shelly" ∅;
                  request_to (shellyPlugV2.address s) "rpc/Shelly.GetStatus" ∅])%list /\
    (fst run = Go.Returns None \/ fst run = Go.Panics Go.nil_dereference) /\
    (fst run = Go.Returns None <->
       is_Some (DeviceStatusV2.System status) /\
       is_Some (DeviceStatusV2.WiFi status) /\
       forall sw, DeviceStatusV2.Switch1 status = Some sw ->
         is_Some (SwitchStatusV2.AEnergy sw) /\ is_Some (SwitchStatusV2.Temperature sw)) /\
    (exists rest, out =
       json.Lit ("Shelly device information for " ++ ip flags ++ LF) :: rest) /\
    (In (json.Lit "Relay Information") out <->
       is_Some (DeviceStatusV2.System status) /\
       is_Some (DeviceStatusV2.WiFi status) /\
       is_Some (DeviceStatusV2.Switch1 status)) /\
    (forall sys : SystemStatusV2.t,
       DeviceStatusV2.System status = Some sys ->
       is_Some (DeviceStatusV2.WiFi status) ->
       match AvailableUpdatesV2.Stable (SystemStatusV2.AvailableUpdates sys) with
       | Some stable =>
           In (json.Lit ("          Has Update: true" ++ LF)) out /\
           In (json.Lit ("    Latest Available: " ++ UpdateInfoV2.Version stable ++ LF)) out
       | None =>
           In (json.Lit ("          Has Update: false" ++ LF)) out /\
           forall v : string, ~ In (json.Lit ("    Latest Available: " ++ v ++ LF)) out
       end).
Proof.
  intros Ha Hs.
  pose proof (V2_get_world device (T := DeviceInfoV2.t) "shelly" ∅ w s) as [Hs1 Hw1].
  set (w1 := snd (shellyPlugV2.get (T := DeviceInfoV2.t) device s "shelly" ∅ w)) in *.
  pose proof (V2_get_world device (T := DeviceStatusV2.t) "rpc/Shelly.GetStatus" ∅ w1 s)
    as [Hs2 Hw2].
  set (w2 := snd (shellyPlugV2.get (T := DeviceStatusV2.t) device s
                    "rpc/Shelly.GetStatus" ∅ w1)) in *.
  cbv zeta.
  unfold shellyPlugV2.RenderInfo, shellyPlugV2.Info, shellyPlugV2.Status.
  rewrite bind_run. rewrite (V2_get_answers device _ _ w s nfo Ha).
  fold w1. rewrite bind_run. rewrite (V2_get_answers device _ _ w1 s status Hs).
  fold w2. clearbody w2 w1.
  assert (Hsent : sent w2 =
    (sent w ++ [request_to (shellyPlugV2.address s) "shelly" ∅;
                request_to (shellyPlugV2.address s) "rpc/Shelly.GetStatus" ∅])%list).
  { rewrite Hs2, Hs1, <- app_assoc. reflexivity. }
  assert (Hwritten : written w2 = written w) by (rewrite Hw2, Hw1; reflexivity).
  clear Hs1 Hs2 Hw1 Hw2.
  report_shapes_V2 status; emit_run; cbn [fst snd wrote sent written app];
    rewrite Hwritten;
    (eexists; split; [reflexivity|]; split; [exact Hsent|];
     split; [first [left; reflexivity | right; reflexivity]|];
     split; [returns_iff_present|];
     split; [eexists; reflexivity|];
     split; [split; [absent_or_present | present_or_missing]|];
     update_lines).
Qed.

End InfoV2.

(** ** The front end *)

Lemma exchange_cases {T : Type} (device : resty.Request -> Go.error + resty.Response)
    (dec : json.Unmarshal T) (req : resty.Request) :
  (exists v, answers device dec req v) \/ (exists err, fails_with device dec req err).
Proof.
  unfold answers, fails_with.
  destruct (device req) as [err|resp] eqn:Hdev.
  - right. exists err. left. reflexivity.
  - destruct (resty.IsError resp) eqn:Hok.
    + right. eexists. right. left. exists resp. auto.
    + destruct (dec (resty.Body resp)) as [e|v] eqn:Hdec.
      * right. eexists. right. right. exists resp, e. auto.
      * left. exists v, resp. auto.
Qed.

Lemma answers_excludes_failure {T : Type}
    (device : resty.Request -> Go.error + resty.Response)
    (dec : json.Unmarshal T) (req : resty.Request) (v : T) (err : Go.error) :
  answers device dec req v -> fails_with device dec req err -> False.
Proof.
  intros (resp & Hdev & Hok & Hdec)
    [H|[(r & H & Hbad & _)|(r & e & H & _ & He & _)]];
    rewrite Hdev in H; try discriminate H; injection H as <-; congruence.
Qed.

Lemma newPlug_run (f : Flags) (w : World) :
  newPlug f w =
  (if v2Plus f then inl (Go.Errorf "shelly V2+ devices are not supported yet")
   else if String.eqb (ip f) "" then inl (Go.Errorf "invalid address")
   else inr (PlugV1 {| shellyPlugV1.address := deviceUrl f |}), w).
Proof.
  unfold newPlug, newShellyV1Plug, ret. cbn [url.Host deviceUrl].
  destruct (v2Plus f); [reflexivity|].
  destruct (String.eqb (ip f) ""); reflexivity.
Qed.

(** The request the front end prepares for a dotted address. *)
Lemma request_to_deviceUrl (f : Flags) (path : string) (queries : gmap string string) :
  String.index 0 ":" (ip f) = None ->
  url.HasPrefix (ip f) "[" = false ->
  request_to (deviceUrl f) path queries =
  {| resty.URL := "http://" ++ ip f ++ "/" ++ path;
     resty.QueryParam := queries;
     resty.BasicAuth :=
       if negb (String.eqb (user f) "") && negb (String.eqb (pass f) "")
       then Some (user f, pass f) else None |}.
Proof.
  intros Hcolon Hbr. unfold request_to.
  rewrite (Hostname_plain (deviceUrl f)) by assumption.
  unfold credentials, deviceUrl. cbn [url.User url.Host].
  destruct (negb (String.eqb (user f) "") && negb (String.eqb (pass f) "")); reflexivity.
Qed.

Section FrontEndRuns.
Variable device : resty.Request -> Go.error + resty.Response.
Variable cfg : Config.
Variable lib : Printers.
Context {decode_relay : json.Unmarshal relayV1.t}.
Context {decode_statusV1 : json.Unmarshal deviceStatusV1.t}.
Context {decode_state : json.Unmarshal SwitchStateV2.t}.
Context {decode_statusV2 : json.Unmarshal DeviceStatusV2.t}.
Context {decode_infoV1 : json.Unmarshal deviceInfoV1.t}.
Context {decode_infoV2 : json.Unmarshal DeviceInfoV2.t}.
Variables (f : Flags) (w : World).

Hypothesis generation_1 : v2Plus f = false.
Hypothesis addressed : ip f <> "".

Lemma newPlug_generation_1 :
  newPlug f w = (inr (PlugV1 {| shellyPlugV1.address := deviceUrl f |}), w).
Proof.
  rewrite newPlug_run, generation_1.
  destruct (String.eqb_spec (ip f) ""); [contradiction|reflexivity].
Qed.

Lemma onAction_run :
  onAction device f w =
  let r := shellyPlugV1.TurnOn device {| shellyPlugV1.address := deviceUrl f |} w in
  match snd (fst r) with
  | Some e => (Some e, snd r)
  | None => (None, wrote [json.Lit "Device turned on"; json.Lit LF] (snd r))
  end.
Proof.
  unfold onAction. rewrite bind_run, newPlug_generation_1. cbn [fst snd TurnOn].
  rewrite bind_run. cbv zeta.
  destruct (snd (fst (shellyPlugV1.TurnOn device _ w))); reflexivity.
Qed.

Lemma offAction_run :
  offAction device f w =
  let r := shellyPlugV1.TurnOff device {| shellyPlugV1.address := deviceUrl f |} w in
  match snd (fst r) with
  | Some e => (Some e, snd r)
  | None => (None, wrote [json.Lit "Device turned off"; json.Lit LF] (snd r))
  end.
Proof.
  unfold offAction. rewrite bind_run, newPlug_generation_1. cbn [fst snd TurnOff].
  rewrite bind_run. cbv zeta.
  destruct (snd (fst (shellyPlugV1.TurnOff device _ w))); reflexivity.
Qed.

Lemma energyAction_run :
  energyAction device cfg f w =
  shellyPlugV1.RenderEnergy device cfg {| shellyPlugV1.address := deviceUrl f |} w.
Proof.
  unfold energyAction. rewrite bind_run, newPlug_generation_1. reflexivity.
Qed.

Lemma infoAction_run :
  infoAction device lib f w =
  shellyPlugV1.RenderInfo device f lib {| shellyPlugV1.address := deviceUrl f |} w.
Proof.
  unfold infoAction. rewrite bind_run, newPlug_generation_1. reflexivity.
Qed.

End FrontEndRuns.

(** ** What an exchange returns *)

(** X3. A fetch of a transport adapter (generation 2, generation 1, the
    legacy client) returns a decoded value exactly when the device
    answers the prepared request with a status of at most 399 and a body
    that decodes to that value; it returns an error exactly when the
    exchange fails: the client's own error unchanged, or
    [<request URL>: <body>] for an error status, or
    [invalid response body: <decoder message>]. *)
Theorem get_outcome
    (device : resty.Request -> Go.error + resty.Response)
    (T : Type) (dec : json.Unmarshal T)
    (path : string) (queries : gmap string string) (w : World)
    (s2 : shellyPlugV2.t) (s1 : shellyPlugV1.t) (s0 : shellyPlug.t) :
  (forall v : T,
     (fst (shellyPlugV2.get device s2 path queries w) = inr v <->
        answers device dec (request_to (shellyPlugV2.address s2) path queries) v) /\
     (fst (shellyPlugV1.get device s1 path queries w) = inr v <->
        answers device dec (request_to (shellyPlugV1.address s1) path queries) v) /\
     (fst (shellyPlug.get device s0 path queries w) = inr v <->
        answers device dec (request_to (shellyPlug.address s0) path queries) v)) /\
  (forall err : Go.error,
     (fst (shellyPlugV2.get device s2 path queries w) = inl err <->
        fails_with device dec (request_to (shellyPlugV2.address s2) path queries) err) /\
     (fst (shellyPlugV1.get device s1 path queries w) = inl err <->
        fails_with device dec (request_to (shellyPlugV1.address s1) path queries) err) /\
     (fst (shellyPlug.get device s0 path queries w) = inl err <->
        fails_with device dec (request_to (shellyPlug.address s0) path queries) err)).
Proof.
  split.
  - intros v. repeat split.
    + apply V2_get_inv.
    + apply V2_get_answers.
    + apply V1_get_inv.
    + apply V1_get_answers.
    + apply legacy_get_inv.
    + apply legacy_get_answers.
  - intros err. split; [|split].
    + apply V2_get_fails.
    + apply V1_get_fails.
    + apply legacy_get_fails.
Qed.

(** An error status hides the body from the decoder: the error names the
    URL and the body as received. *)
Example get_unauthorized :
  fst (shellyPlugV1.get (denies "401 Unauthorized") (dec := reads relay_on)
         plug_v1 "relay/0" {[ "turn" := "on" ]} idle)
  = inl (Go.Errorf "http://192.168.1.1/relay/0: 401 Unauthorized").
Proof. reflexivity. Qed.

(** X4. The generation 2 adapter logs the body of every response whose
    status is not an error, as [body: <body>] and before decoding it (so
    also a body that then fails to decode); it logs nothing when the
    request fails or the status is an error.  The generation 1 and the
    legacy adapter never log. *)
Theorem get_logs_accepted_bodies
    (device : resty.Request -> Go.error + resty.Response)
    (T : Type) (dec : json.Unmarshal T)
    (path : string) (queries : gmap string string) (w : World)
    (s2 : shellyPlugV2.t) (s1 : shellyPlugV1.t) (s0 : shellyPlug.t) :
  logged (snd (shellyPlugV2.get device s2 path queries w)) =
    match device (request_to (shellyPlugV2.address s2) path queries) with
    | inr resp =>
        if resty.IsError resp then logged w
        else (logged w ++ [("body: " ++ resty.Body resp ++ LF)%string])%list
    | inl _ => logged w
    end /\
  logged (snd (shellyPlugV1.get device s1 path queries w)) = logged w /\
  logged (snd (shellyPlug.get device s0 path queries w)) = logged w.
Proof.
  split; [|split].
  - unfold shellyPlugV2.get, request_to. step_world.
    destruct (device _) as [err|resp]; [reflexivity|].
    destruct (resty.IsError resp); [reflexivity|].
    cbn. destruct (json.unmarshal _); reflexivity.
  - pose proof (V1_get_world device path queries w s1) as Hw. cbv zeta in Hw.
    rewrite Hw. reflexivity.
  - pose proof (legacy_get_world device path queries w s0) as Hw. cbv zeta in Hw.
    rewrite Hw. reflexivity.
Qed.

(** A body that does not decode is in the log all the same. *)
Example undecodable_body_is_logged :
  shellyPlugV2.get (replies "<html>") (dec := rejects (T := SwitchStateV2.t) "invalid character")
    plug_v2 "relay/0" {[ "turn" := "on" ]} idle
  = (inl (Go.Errorf "invalid response body: invalid character"),
     {| sent := [turn_request (plain_address "192.168.1.1") "on"];
        logged := ["body: <html>" ++ LF];
        written := [] |}).
Proof. reflexivity. Qed.

(** ** Failed exchanges *)



(** ** What the energy report does in every case *)

(** X9. The generation 1 [RenderEnergy] never panics: the two length
    guards keep [status.Meters[0]] and [status.Relays[0]] in range.
    Whatever the device answers, it sends exactly one request, for
    [status] with no query, and logs nothing. *)
Theorem V1_RenderEnergy_never_panics
    (device : resty.Request -> Go.error + resty.Response) (cfg : Config)
    (decode_status : json.Unmarshal deviceStatusV1.t)
    (s : shellyPlugV1.t) (w : World) :
  (forall msg : string,
     fst (shellyPlugV1.RenderEnergy device cfg s w) <> Go.Panics msg) /\
  sent (snd (shellyPlugV1.RenderEnergy device cfg s w)) =
    (sent w ++ [request_to (shellyPlugV1.address s) "status" ∅])%list /\
  logged (snd (shellyPlugV1.RenderEnergy device cfg s w)) = logged w.
Proof.
  split; [intros msg; apply V1_RenderEnergy_no_panic|].
  apply V1_RenderEnergy_sent.
Qed.

(** X10. The generation 2 [RenderEnergy] panics in exactly one
    situation: the status was fetched, its switch and the switch's
    energy counter are present, and the switch's temperature is nil; the
    panic is the nil pointer dereference.  It always sends exactly one
    request, for [rpc/Shelly.GetStatus]. *)
Theorem V2_RenderEnergy_panics_exactly_without_temperature
    (device : resty.Request -> Go.error + resty.Response) (cfg : Config)
    (decode_status : json.Unmarshal DeviceStatusV2.t)
    (s : shellyPlugV2.t) (w : World) :
  (forall msg : string,
     fst (shellyPlugV2.RenderEnergy device cfg s w) = Go.Panics msg <->
     msg = Go.nil_dereference /\
     exists status sw e,
       answers device decode_status
         (request_to (shellyPlugV2.address s) "rpc/Shelly.GetStatus" ∅) status /\
       DeviceStatusV2.Switch1 status = Some sw /\
       SwitchStatusV2.AEnergy sw = Some e /\
       SwitchStatusV2.Temperature sw = None) /\
  sent (snd (shellyPlugV2.RenderEnergy device cfg s w)) =
    (sent w ++ [request_to (shellyPlugV2.address s) "rpc/Shelly.GetStatus" ∅])%list.
Proof.
  split; [intros msg; apply V2_RenderEnergy_panics_iff | apply V2_RenderEnergy_sent].
Qed.

(** X11. [RenderEnergy] writes all of its report or nothing, for both
    generations: unless it returns nil the sink is unchanged; when it
    returns nil, JSON and metrics mode have written exactly one document
    followed by a line feed, and plain-text mode literal text only. *)
Theorem RenderEnergy_all_or_nothing
    (device : resty.Request -> Go.error + resty.Response) (cfg : Config)
    (decode_statusV1 : json.Unmarshal deviceStatusV1.t)
    (decode_statusV2 : json.Unmarshal DeviceStatusV2.t)
    (s1 : shellyPlugV1.t) (s2 : shellyPlugV2.t) (w : World) :
  (let run := shellyPlugV1.RenderEnergy device cfg s1 w in
   (fst run <> Go.Returns None -> written (snd run) = written w) /\
   (fst run = Go.Returns None ->
      if jsonFormat cfg || choriaFormat cfg
      then exists v, written (snd run) = (written w ++ [json.Indented v; json.Lit LF])%list
      else exists out text,
             written (snd run) = (written w ++ out)%list /\ text_of out = Some text)) /\
  (let run := shellyPlugV2.RenderEnergy device cfg s2 w in
   (fst run <> Go.Returns None -> written (snd run) = written w) /\
   (fst run = Go.Returns None ->
      if jsonFormat cfg || choriaFormat cfg
      then exists v, written (snd run) = (written w ++ [json.Indented v; json.Lit LF])%list
      else exists out text,
             written (snd run) = (written w ++ out)%list /\ text_of out = Some text)).
Proof.
  split; [apply V1_RenderEnergy_all_or_nothing | apply V2_RenderEnergy_all_or_nothing].
Qed.

(** X12. The output mode is chosen by [jsonFormat] first: with
    [jsonFormat] set, [RenderEnergy] does the same whatever
    [choriaFormat] and [labels] hold; with both flags clear it does the
    same whatever [labels] holds.  For both generations. *)
Theorem json_mode_takes_precedence
    (device : resty.Request -> Go.error + resty.Response) (cfg cfg' : Config)
    (decode_statusV1 : json.Unmarshal deviceStatusV1.t)
    (decode_statusV2 : json.Unmarshal DeviceStatusV2.t)
    (s1 : shellyPlugV1.t) (s2 : shellyPlugV2.t) (w : World) :
  jsonFormat cfg = jsonFormat cfg' ->
  jsonFormat cfg = true \/ (choriaFormat cfg = false /\ choriaFormat cfg' = false) ->
  shellyPlugV1.RenderEnergy device cfg s1 w = shellyPlugV1.RenderEnergy device cfg' s1 w /\
  shellyPlugV2.RenderEnergy device cfg s2 w = shellyPlugV2.RenderEnergy device cfg' s2 w.
Proof.
  intros Hsame [Hjson|[Hc Hc']].
  - assert (Hjson' : jsonFormat cfg' = true) by congruence.
    split.
    + walk_V1_RenderEnergy device s1 w; try reflexivity.
      rewrite Hjson, Hjson'. reflexivity.
    + walk_V2_RenderEnergy device s2 w; try reflexivity.
      rewrite Hjson, Hjson'. reflexivity.
  - split.
    + walk_V1_RenderEnergy device s1 w; try reflexivity.
      rewrite <- Hsame, Hc, Hc'. destruct (jsonFormat cfg); reflexivity.
    + walk_V2_RenderEnergy device s2 w; try reflexivity.
      rewrite <- Hsame, Hc, Hc'. destruct (jsonFormat cfg); reflexivity.
Qed.

(** With both flags given, the report is the JSON reading, not the
    metrics envelope. *)
Lemma json_mode_witness :
  shellyPlugV1.RenderEnergy (replies "status")
    {| jsonFormat := true; choriaFormat := true; labels := {[ "location" := "office" ]} |}
    (decode_status := reads status_one_relay) plug_v1 idle
  = shellyPlugV1.RenderEnergy (replies "status") json_mode
      (decode_status := reads status_one_relay) plug_v1 idle /\
  shellyPlugV2.RenderEnergy (replies "status")
    {| jsonFormat := true; choriaFormat := true; labels := {[ "location" := "office" ]} |}
    (decode_status := reads status_with_temperature) plug_v2 idle
  = shellyPlugV2.RenderEnergy (replies "status") json_mode
      (decode_status := reads status_with_temperature) plug_v2 idle.
Proof.
  apply (json_mode_takes_precedence (replies "status")
           {| jsonFormat := true; choriaFormat := true;
              labels := {[ "location" := "office" ]} |}
           json_mode (reads status_one_relay) (reads status_with_temperature)
           plug_v1 plug_v2 idle).
  - reflexivity.
  - left. reflexivity.
Defined.

Lemma string_append_assoc (a b c : string) : (a ++ b) ++ c = a ++ (b ++ c).
Proof.
  induction a as [|x a IH]; [reflexivity|].
  change (String x ((a ++ b) ++ c) = String x (a ++ (b ++ c))).
  rewrite IH. reflexivity.
Qed.

Lemma string_append_empty (a : string) : a ++ "" = a.
Proof.
  induction a as [|x a IH]; [reflexivity|].
  change (String x (a ++ "") = String x a). rewrite IH. reflexivity.
Qed.

(** ** The other modes of the energy report *)

Lemma metrics_v1_lookup (l a b c : json.any) :
  ({[ "labels" := l;
      "metrics" := json.MapStringAny
        {[ "current_power_watt" := a; "today_energy_kwh" := b; "relay_on" := c ]} ]}
     : gmap string json.any) !! "labels" = Some l /\
  ({[ "labels" := l;
      "metrics" := json.MapStringAny
        {[ "current_power_watt" := a; "today_energy_kwh" := b; "relay_on" := c ]} ]}
     : gmap string json.any) !! "metrics" =
    Some (json.MapStringAny
            {[ "current_power_watt" := a; "today_energy_kwh" := b; "relay_on" := c ]}) /\
  ({[ "current_power_watt" := a; "today_energy_kwh" := b; "relay_on" := c ]}
     : gmap string json.any) !! "current_power_watt" = Some a /\
  ({[ "current_power_watt" := a; "today_energy_kwh" := b; "relay_on" := c ]}
     : gmap string json.any) !! "today_energy_kwh" = Some b /\
  ({[ "current_power_watt" := a; "today_energy_kwh" := b; "relay_on" := c ]}
     : gmap string json.any) !! "relay_on" = Some c.
Proof. repeat split; vm_compute; reflexivity. Qed.

(** X13. For a generation 1 status with exactly one relay and one meter
    (counter within [int64], finite power), [RenderEnergy] in metrics
    mode returns nil and writes one document of the configured labels
    and three metrics: [current_power_watt], the power;
    [today_energy_kwh], which is the total counter times
    [0.000016666666666666667] (the counter over 60000 up to [2^-51]),
    not a daily figure; and [relay_on], 1 when the relay is on and 0
    when it is off. *)
Theorem V1_metrics_export
    (device : resty.Request -> Go.error + resty.Response) (cfg : Config)
    (decode_status : json.Unmarshal deviceStatusV1.t)
    (s : shellyPlugV1.t) (w : World) (status : deviceStatusV1.t)
    (r : relayV1.t) (m : meterV1.t) :
  jsonFormat cfg = false -> choriaFormat cfg = true ->
  answers device decode_status (request_to (shellyPlugV1.address s) "status" ∅) status ->
  deviceStatusV1.Relays status = [r] ->
  deviceStatusV1.Meters status = [m] ->
  Go.int64 (meterV1.Total m) ->
  is_finite (meterV1.Power m) = true ->
  exists (data metrics : gmap string json.any) (kwh : float),
    fst (shellyPlugV1.RenderEnergy device cfg s w) = Go.Returns None /\
    written (snd (shellyPlugV1.RenderEnergy device cfg s w)) =
      (written w ++ [json.Indented (json.MapStringAny data); json.Lit LF])%list /\
    data !! "labels" = Some (json.MapStringString (labels cfg)) /\
    data !! "metrics" = Some (json.MapStringAny metrics) /\
    metrics !! "current_power_watt" = Some (json.Float64 (meterV1.Power m)) /\
    metrics !! "today_energy_kwh" = Some (json.Float64 kwh) /\
    kwh = (Float64.of_int64 (meterV1.Total m) * kwh_per_count)%float /\
    Float64.approximates kwh (inject_Z (meterV1.Total m) / 60000) /\
    metrics !! "relay_on" =
      Some (json.Float64 (if relayV1.IsOn r then 1%float else 0%float)).
Proof.
  intros Hjson Hchoria Hans Hr Hm Hrange Hpower.
  destruct (V1_RenderEnergy_metrics device cfg s w status Hans r m
              Hjson Hchoria Hr Hm Hrange Hpower) as [Hres Hout].
  destruct (metrics_v1_lookup (json.MapStringString (labels cfg))
              (json.Float64 (meterV1.Power m))
              (json.Float64 (Float64.of_int64 (meterV1.Total m) * kwh_per_count)%float)
              (json.Float64 (if relayV1.IsOn r then 1%float else 0%float)))
    as (Hlabels & Hmetrics & Hwatt & Hkwh & Hon).
  eexists _, _, _. split; [exact Hres|]. split; [exact Hout|].
  split; [exact Hlabels|]. split; [exact Hmetrics|].
  split; [exact Hwatt|]. split; [exact Hkwh|].
  split; [reflexivity|].
  split; [exact (proj2 (kwh_within_tolerance (meterV1.Total m) Hrange)) | exact Hon].
Qed.

(** The metrics of the meter with power 2.45 and counter 615, relay
    off. *)
Lemma V1_metrics_witness :
  exists (data metrics : gmap string json.any) (kwh : float),
    fst (shellyPlugV1.RenderEnergy (replies "status") metrics_mode
           (decode_status := reads status_one_relay) plug_v1 idle) = Go.Returns None /\
    written (snd (shellyPlugV1.RenderEnergy (replies "status") metrics_mode
                    (decode_status := reads status_one_relay) plug_v1 idle)) =
      ([] ++ [json.Indented (json.MapStringAny data); json.Lit LF])%list /\
    data !! "labels" = Some (json.MapStringString {[ "location" := "office" ]}) /\
    data !! "metrics" = Some (json.MapStringAny metrics) /\
    metrics !! "current_power_watt" = Some (json.Float64 power_2_45) /\
    metrics !! "today_energy_kwh" = Some (json.Float64 kwh) /\
    kwh = (Float64.of_int64 615 * kwh_per_count)%float /\
    Float64.approximates kwh (inject_Z 615 / 60000) /\
    metrics !! "relay_on" = Some (json.Float64 0%float).
Proof.
  apply (V1_metrics_export (replies "status") metrics_mode (reads status_one_relay)
           plug_v1 idle status_one_relay relayV1.zero meter_615);
    try reflexivity.
  - apply replies_answers.
  - unfold Go.int64. cbn [meterV1.Total meter_615]. lia.
Defined.

(** X14. For a generation 2 status whose switch, energy counter and
    temperature are present (finite readings), [RenderEnergy] in JSON
    mode returns nil and writes one document with the readings
    [power_watt], [power_volt], [power_ampere], [power_frequency],
    [internal_celsius], the total divided by 1000 as [power_total_kwh],
    and [is_on] as 1 for an output that is on and 0 for one that is
    off. *)
Theorem V2_json_reading
    (device : resty.Request -> Go.error + resty.Response) (cfg : Config)
    (decode_status : json.Unmarshal DeviceStatusV2.t)
    (s : shellyPlugV2.t) (w : World) (status : DeviceStatusV2.t)
    (sw : SwitchStatusV2.t) (e : ActiveEnergyV2.t) (t : TemperatureStatusV2.t) :
  jsonFormat cfg = true ->
  answers device decode_status
    (request_to (shellyPlugV2.address s) "rpc/Shelly.GetStatus" ∅) status ->
  DeviceStatusV2.Switch1 status = Some sw ->
  SwitchStatusV2.AEnergy sw = Some e ->
  SwitchStatusV2.Temperature sw = Some t ->
  is_finite (SwitchStatusV2.APower sw) = true ->
  is_finite (SwitchStatusV2.Voltage sw) = true ->
  is_finite (SwitchStatusV2.Current sw) = true ->
  is_finite (SwitchStatusV2.Freq sw) = true ->
  is_finite (ActiveEnergyV2.Total e) = true ->
  is_finite (TemperatureStatusV2.TC t) = true ->
  exists reading : gmap string json.any,
    fst (shellyPlugV2.RenderEnergy device cfg s w) = Go.Returns None /\
    written (snd (shellyPlugV2.RenderEnergy device cfg s w)) =
      (written w ++ [json.Indented (json.MapStringAny reading); json.Lit LF])%list /\
    reading !! "power_watt" = Some (json.Float64 (SwitchStatusV2.APower sw)) /\
    reading !! "power_volt" = Some (json.Float64 (SwitchStatusV2.Voltage sw)) /\
    reading !! "power_ampere" = Some (json.Float64 (SwitchStatusV2.Current sw)) /\
    reading !! "power_frequency" = Some (json.Float64 (SwitchStatusV2.Freq sw)) /\
    reading !! "power_total_kwh" =
      Some (json.Float64 (ActiveEnergyV2.Total e / 1000)%float) /\
    reading !! "internal_celsius" = Some (json.Float64 (TemperatureStatusV2.TC t)) /\
    reading !! "is_on" =
      Some (json.Float64 (if SwitchStatusV2.Output sw then 1%float else 0%float)) /\
    size reading = 7%nat.
Proof.
  intros Hjson Hans Hsw He Ht Hp Hv Hc Hf Htot Htc.
  destruct (V2_RenderEnergy_json device cfg s w status Hans sw e t
              Hjson Hsw He Ht Hp Hv Hc Hf Htot Htc) as [Hres Hout].
  eexists. split; [exact Hres|]. split; [exact Hout|].
  repeat split; vm_compute; reflexivity.
Qed.

Lemma V2_json_witness :
  exists reading : gmap string json.any,
    fst (shellyPlugV2.RenderEnergy (replies "status") json_mode
           (decode_status := reads status_with_temperature) plug_v2 idle)
      = Go.Returns None /\
    written (snd (shellyPlugV2.RenderEnergy (replies "status") json_mode
                    (decode_status := reads status_with_temperature) plug_v2 idle)) =
      ([] ++ [json.Indented (json.MapStringAny reading); json.Lit LF])%list /\
    reading !! "power_watt" = Some (json.Float64 8.5%float) /\
    reading !! "power_volt" = Some (json.Float64 230%float) /\
    reading !! "power_ampere" = Some (json.Float64 0.0625%float) /\
    reading !! "power_frequency" = Some (json.Float64 50%float) /\
    reading !! "power_total_kwh" = Some (json.Float64 (1500 / 1000)%float) /\
    reading !! "internal_celsius" = Some (json.Float64 32.5%float) /\
    reading !! "is_on" = Some (json.Float64 1%float) /\
    size reading = 7%nat.
Proof.
  apply (V2_json_reading (replies "status") json_mode
           (reads status_with_temperature) plug_v2 idle status_with_temperature
           switch_with_temperature
           {| ActiveEnergyV2.Total := 1500; ActiveEnergyV2.ByMinute := [];
              ActiveEnergyV2.MinuteTS := 0 |}
           {| TemperatureStatusV2.TC := 32.5; TemperatureStatusV2.TF := 90.5 |});
    try reflexivity.
  apply replies_answers.
Defined.

(** X15. For a generation 2 status whose switch, energy counter and
    temperature are present, [RenderEnergy] in plain-text mode returns
    nil and writes the heading, an empty line and seven lines: the
    output state as [true] or [false], power, voltage, current and
    frequency, the total divided by 1000 in kWh and the temperature in
    degrees Celsius, each number with two decimals. *)
Theorem V2_text_report
    (device : resty.Request -> Go.error + resty.Response) (cfg : Config)
    (decode_status : json.Unmarshal DeviceStatusV2.t)
    (s : shellyPlugV2.t) (w : World) (status : DeviceStatusV2.t)
    (sw : SwitchStatusV2.t) (e : ActiveEnergyV2.t) (t : TemperatureStatusV2.t) :
  jsonFormat cfg = false -> choriaFormat cfg = false ->
  answers device decode_status
    (request_to (shellyPlugV2.address s) "rpc/Shelly.GetStatus" ∅) status ->
  DeviceStatusV2.Switch1 status = Some sw ->
  SwitchStatusV2.AEnergy sw = Some e ->
  SwitchStatusV2.Temperature sw = Some t ->
  exists out : list json.chunk,
    fst (shellyPlugV2.RenderEnergy device cfg s w) = Go.Returns None /\
    written (snd (shellyPlugV2.RenderEnergy device cfg s w)) = (written w ++ out)%list /\
    text_of out = Some
      ("Meter Information" ++ LF ++ LF
       ++ "              Powered On: " ++ Fmt.verb_t (SwitchStatusV2.Output sw) ++ LF
       ++ "                   Power: " ++ Fmt.verb_f 2 (SwitchStatusV2.APower sw) ++ " Watt" ++ LF
       ++ "                 Voltage: " ++ Fmt.verb_f 2 (SwitchStatusV2.Voltage sw) ++ " V" ++ LF
       ++ "                 Current: " ++ Fmt.verb_f 2 (SwitchStatusV2.Current sw) ++ " Amp" ++ LF
       ++ "               Frequency: " ++ Fmt.verb_f 2 (SwitchStatusV2.Freq sw) ++ " Hz" ++ LF
       ++ "       Total Consumption: "
       ++ Fmt.verb_f 2 (ActiveEnergyV2.Total e / 1000)%float ++ " kWh" ++ LF
       ++ "           Internal Temp: "
       ++ Fmt.verb_f 2 (TemperatureStatusV2.TC t) ++ " C" ++ LF).
Proof.
  intros Hjson Hchoria Hans Hsw He Ht.
  destruct (V2_RenderEnergy_text device cfg s w status Hans sw e t
              Hjson Hchoria Hsw He Ht) as [Hres Hout].
  eexists. split; [exact Hres|]. split; [exact Hout|].
  cbn [text_of option_map]. f_equal.
  rewrite !string_append_assoc, string_append_empty. reflexivity.
Qed.

(** The report of the switch with 8.5 W, 230 V, 0.0625 A, 50 Hz, a
    counter of 1500 Wh and 32.5 degrees; [%.2f] rounds 0.0625 to even. *)
Lemma V2_text_witness :
  exists out : list json.chunk,
    fst (shellyPlugV2.RenderEnergy (replies "status") text_mode
           (decode_status := reads status_with_temperature) plug_v2 idle)
      = Go.Returns None /\
    written (snd (shellyPlugV2.RenderEnergy (replies "status") text_mode
                    (decode_status := reads status_with_temperature) plug_v2 idle))
      = ([] ++ out)%list /\
    text_of out = Some
      ("Meter Information" ++ LF ++ LF
       ++ "              Powered On: true" ++ LF
       ++ "                   Power: 8.50 Watt" ++ LF
       ++ "                 Voltage: 230.00 V" ++ LF
       ++ "                 Current: 0.06 Amp" ++ LF
       ++ "               Frequency: 50.00 Hz" ++ LF
       ++ "       Total Consumption: 1.50 kWh" ++ LF
       ++ "           Internal Temp: 32.50 C" ++ LF).
Proof.
  destruct (V2_text_report (replies "status") text_mode
              (reads status_with_temperature) plug_v2 idle status_with_temperature
              switch_with_temperature
              {| ActiveEnergyV2.Total := 1500; ActiveEnergyV2.ByMinute := [];
                 ActiveEnergyV2.MinuteTS := 0 |}
              {| TemperatureStatusV2.TC := 32.5; TemperatureStatusV2.TF := 90.5 |}
              eq_refl eq_refl (replies_answers "status" status_with_temperature _)
              eq_refl eq_refl eq_refl) as (out & Hres & Hout & Htext).
  exists out. split; [exact Hres|]. split; [exact Hout|].
  rewrite Htext. vm_compute. reflexivity.
Defined.

(** ** Which client the front end builds *)

(** X16. [newPlug] touches nothing and never builds a generation 2
    client: it returns a client exactly when the [v2] switch is off and
    the address is not empty, and that client is the generation 1 client
    for [deviceUrl]. *)
Theorem newPlug_only_builds_generation_1 (f : Flags) (w : World) :
  snd (newPlug f w) = w /\
  (forall p : Plug,
     fst (newPlug f w) = inr p <->
     v2Plus f = false /\ ip f <> "" /\
     p = PlugV1 {| shellyPlugV1.address := deviceUrl f |}) /\
  (forall s2 : shellyPlugV2.t, fst (newPlug f w) <> inr (PlugV2 s2)).
Proof.
  rewrite newPlug_run. cbn [fst snd].
  split; [reflexivity|].
  destruct (v2Plus f).
  - split; [|discriminate].
    intros p. split; [discriminate | intros (H & _); discriminate H].
  - destruct (String.eqb_spec (ip f) "") as [Hip|Hip].
    + split; [|discriminate].
      intros p. split; [discriminate | intros (_ & H & _); contradiction].
    + split; [|discriminate].
      intros p. split.
      * intros [= <-]. auto.
      * intros (_ & _ & ->). reflexivity.
Qed.

(** X17. With the [v2] switch on, every action of the front end returns
    the error [shelly V2+ devices are not supported yet] at once: no
    request is sent and nothing is written. *)
Theorem v2_switch_disables_every_action
    (device : resty.Request -> Go.error + resty.Response) (cfg : Config)
    (lib : Printers)
    (decode_relay : json.Unmarshal relayV1.t)
    (decode_statusV1 : json.Unmarshal deviceStatusV1.t)
    (decode_state : json.Unmarshal SwitchStateV2.t)
    (decode_statusV2 : json.Unmarshal DeviceStatusV2.t)
    (decode_infoV1 : json.Unmarshal deviceInfoV1.t)
    (decode_infoV2 : json.Unmarshal DeviceInfoV2.t)
    (f : Flags) (w : World) :
  v2Plus f = true ->
  onAction device f w =
    (Some (Go.Errorf "shelly V2+ devices are not supported yet"), w) /\
  offAction device f w =
    (Some (Go.Errorf "shelly V2+ devices are not supported yet"), w) /\
  energyAction device cfg f w =
    (Go.Returns (Some (Go.Errorf "shelly V2+ devices are not supported yet")), w) /\
  infoAction device lib f w =
    (Go.Returns (Some (Go.Errorf "shelly V2+ devices are not supported yet")), w).
Proof.
  intros Hv2.
  unfold onAction, offAction, energyAction, infoAction.
  rewrite !bind_run, newPlug_run, Hv2. repeat split.
Qed.

Lemma v2_switch_witness :
  onAction (replies "relay") (decode_relay := reads relay_on)
    (decode_state := reads switch_state_on) flags_v2 idle =
    (Some (Go.Errorf "shelly V2+ devices are not supported yet"), idle) /\
  offAction (replies "relay") (decode_relay := reads relay_on)
    (decode_state := reads switch_state_on) flags_v2 idle =
    (Some (Go.Errorf "shelly V2+ devices are not supported yet"), idle) /\
  energyAction (replies "status") text_mode (decode_statusV1 := reads status_one_relay)
    (decode_statusV2 := reads status_with_temperature) flags_v2 idle =
    (Go.Returns (Some (Go.Errorf "shelly V2+ devices are not supported yet")), idle) /\
  infoAction (replies "status") (decode_statusV1 := reads status_one_relay)
    (decode_statusV2 := reads status_with_temperature) plain_printers
    (decode_infoV1 := rejects "none") (decode_infoV2 := rejects "none") flags_v2 idle =
    (Go.Returns (Some (Go.Errorf "shelly V2+ devices are not supported yet")), idle).
Proof.
  destruct (v2_switch_disables_every_action (replies "relay") text_mode plain_printers
              (reads relay_on) (reads status_one_relay) (reads switch_state_on)
              (reads status_with_temperature) (rejects "none") (rejects "none")
              flags_v2 idle eq_refl) as (Hon & Hoff & _ & _).
  destruct (v2_switch_disables_every_action (replies "status") text_mode plain_printers
              (reads relay_on) (reads status_one_relay) (reads switch_state_on)
              (reads status_with_temperature) (rejects "none") (rejects "none")
              flags_v2 idle eq_refl) as (_ & _ & Henergy & Hinfo).
  repeat split; assumption.
Defined.

(** ** The on and off actions *)

Section Announcements.
Variable device : resty.Request -> Go.error + resty.Response.
Context {decode_relay : json.Unmarshal relayV1.t}.
Context {decode_state : json.Unmarshal SwitchStateV2.t}.
Variables (f : Flags) (w : World).

Lemma onAction_outcome :
  let run := onAction device f w in
  (fst run = None <->
     v2Plus f = false /\ ip f <> "" /\
     exists res, answers device decode_relay (turn_request (deviceUrl f) "on") res /\
                 relayV1.IsOn res = true) /\
  written (snd run) =
    match fst run with
    | None => (written w ++ [json.Lit "Device turned on"; json.Lit LF])%list
    | Some _ => written w
    end.
Proof.
  cbv zeta.
  destruct (v2Plus f) eqn:Hv2.
  { unfold onAction. rewrite bind_run, newPlug_run, Hv2. cbn [fst snd ret].
    split; [|reflexivity]. split; [discriminate | intros (H & _); discriminate H]. }
  destruct (String.eqb_spec (ip f) "") as [Hip|Hip].
  { unfold onAction. rewrite bind_run, newPlug_run, Hv2.
    destruct (String.eqb_spec (ip f) ""); [|contradiction]. cbn [fst snd ret].
    split; [|reflexivity]. split; [discriminate | intros (_ & H & _); contradiction]. }
  rewrite (onAction_run device f w Hv2 Hip). cbv zeta.
  pose proof (V1_TurnOn_world device w {| shellyPlugV1.address := deviceUrl f |}) as Hw.
  destruct (V1_TurnOn_cases device w {| shellyPlugV1.address := deviceUrl f |})
    as [(res & Hans & Hres)|(err & Hfail & Hres)];
    cbn [shellyPlugV1.address] in *; rewrite Hres, Hw.
  - destruct (relayV1.IsOn res) eqn:Hon; cbn [fst snd wrote written after_request].
    + split; [|reflexivity]. split; [|reflexivity].
      intros _. split; [reflexivity|]. split; [assumption|]. exists res. auto.
    + split; [|reflexivity]. split; [discriminate|].
      intros (_ & _ & res' & Hans' & Hon').
      destruct Hans as (resp & Hdev & _ & Hdec), Hans' as (resp' & Hdev' & _ & Hdec').
      rewrite Hdev in Hdev'. injection Hdev' as <-. congruence.
  - cbn [fst snd wrote written after_request].
    split; [|reflexivity]. split; [discriminate|].
    intros (_ & _ & res' & Hans' & _).
    destruct (answers_excludes_failure _ _ _ _ _ Hans' Hfail).
Qed.

Lemma offAction_outcome :
  let run := offAction device f w in
  (fst run = None <->
     v2Plus f = false /\ ip f <> "" /\
     exists res, answers device decode_relay (turn_request (deviceUrl f) "off") res /\
                 relayV1.IsOn res = false) /\
  written (snd run) =
    match fst run with
    | None => (written w ++ [json.Lit "Device turned off"; json.Lit LF])%list
    | Some _ => written w
    end.
Proof.
  cbv zeta.
  destruct (v2Plus f) eqn:Hv2.
  { unfold offAction. rewrite bind_run, newPlug_run, Hv2. cbn [fst snd ret].
    split; [|reflexivity]. split; [discriminate | intros (H & _); discriminate H]. }
  destruct (String.eqb_spec (ip f) "") as [Hip|Hip].
  { unfold offAction. rewrite bind_run, newPlug_run, Hv2.
    destruct (String.eqb_spec (ip f) ""); [|contradiction]. cbn [fst snd ret].
    split; [|reflexivity]. split; [discriminate | intros (_ & H & _); contradiction]. }
  rewrite (offAction_run device f w Hv2 Hip). cbv zeta.
  pose proof (V1_TurnOff_world device w {| shellyPlugV1.address := deviceUrl f |}) as Hw.
  destruct (V1_TurnOff_cases device w {| shellyPlugV1.address := deviceUrl f |})
    as [(res & Hans & Hres)|(err & Hfail & Hres)];
    cbn [shellyPlugV1.address] in *; rewrite Hres, Hw.
  - destruct (relayV1.IsOn res) eqn:Hon; cbn [fst snd wrote written after_request].
    + split; [|reflexivity]. split; [discriminate|].
      intros (_ & _ & res' & Hans' & Hon').
      destruct Hans as (resp & Hdev & _ & Hdec), Hans' as (resp' & Hdev' & _ & Hdec').
      rewrite Hdev in Hdev'. injection Hdev' as <-. congruence.
    + split; [|reflexivity]. split; [|reflexivity].
      intros _. split; [reflexivity|]. split; [assumption|]. exists res. auto.
  - cbn [fst snd wrote written after_request].
    split; [|reflexivity]. split; [discriminate|].
    intros (_ & _ & res' & Hans' & _).
    destruct (answers_excludes_failure _ _ _ _ _ Hans' Hfail).
Qed.

End Announcements.

(** X18. [onAction] returns nil exactly when the [v2] switch is off, the
    address is not empty and the device echoes the relay as on; then,
    and only then, it prints [Device turned on].  [offAction] returns
    nil exactly when the device echoes the relay as off, and only then
    prints [Device turned off].  On every error nothing is printed. *)
Theorem on_off_announce_success_only
    (device : resty.Request -> Go.error + resty.Response)
    (decode_relay : json.Unmarshal relayV1.t)
    (decode_state : json.Unmarshal SwitchStateV2.t)
    (f : Flags) (w : World) :
  (let run := onAction device f w in
   (fst run = None <->
      v2Plus f = false /\ ip f <> "" /\
      exists res, answers device decode_relay (turn_request (deviceUrl f) "on") res /\
                  relayV1.IsOn res = true) /\
   written (snd run) =
     match fst run with
     | None => (written w ++ [json.Lit "Device turned on"; json.Lit LF])%list
     | Some _ => written w
     end) /\
  (let run := offAction device f w in
   (fst run = None <->
      v2Plus f = false /\ ip f <> "" /\
      exists res, answers device decode_relay (turn_request (deviceUrl f) "off") res /\
                  relayV1.IsOn res = false) /\
   written (snd run) =
     match fst run with
     | None => (written w ++ [json.Lit "Device turned off"; json.Lit LF])%list
     | Some _ => written w
     end).
Proof.
  split; [apply onAction_outcome | apply offAction_outcome].
Qed.

(** ** The device report: outcomes *)

Section InfoOutcomeV1.
Variable device : resty.Request -> Go.error + resty.Response.
Variable flags : Flags.
Variable lib : Printers.
Context {decode_status : json.Unmarshal deviceStatusV1.t}.
Context {decode_info : json.Unmarshal deviceInfoV1.t}.
Variables (s : shellyPlugV1.t) (w : World).

Lemma V1_RenderInfo_cases :
  (exists err,
     fails_with device decode_info (request_to (shellyPlugV1.address s) "shelly" ∅) err /\
     shellyPlugV1.RenderInfo device flags lib s w =
       (Go.Returns (Some err),
        after_request (request_to (shellyPlugV1.address s) "shelly" ∅) w)) \/
  (exists nfo err,
     answers device decode_info (request_to (shellyPlugV1.address s) "shelly" ∅) nfo /\
     fails_with device decode_status (request_to (shellyPlugV1.address s) "status" ∅) err /\
     shellyPlugV1.RenderInfo device flags lib s w =
       (Go.Returns (Some err),
        after_request (request_to (shellyPlugV1.address s) "status" ∅)
          (after_request (request_to (shellyPlugV1.address s) "shelly" ∅) w))) \/
  (exists nfo status out,
     answers device decode_info (request_to (shellyPlugV1.address s) "shelly" ∅) nfo /\
     answers device decode_status (request_to (shellyPlugV1.address s) "status" ∅) status /\
     shellyPlugV1.RenderInfo device flags lib s w =
       (Go.Returns None,
        wrote out
          (after_request (request_to (shellyPlugV1.address s) "status" ∅)
             (after_request (request_to (shellyPlugV1.address s) "shelly" ∅) w)))).
Proof.
  destruct (exchange_cases device decode_info
              (request_to (shellyPlugV1.address s) "shelly" ∅)) as [[nfo Hi]|[err Hi]].
  - destruct (exchange_cases device decode_status
                (request_to (shellyPlugV1.address s) "status" ∅)) as [[status Hs]|[err Hs]].
    + right. right.
      destruct (V1_RenderInfo_report device flags lib s w nfo status Hi Hs)
        as (out & Hrun & _).
      exists nfo, status, out. auto.
    + right. left. exists nfo, err. split; [assumption|]. split; [assumption|].
      apply (V1_RenderInfo_status_fails device flags lib s w nfo err Hi Hs).
  - left. exists err. split; [assumption|].
    apply (V1_RenderInfo_info_fails device flags lib s w err Hi).
Qed.

End InfoOutcomeV1.

(** X20. The device report fails fast, for both generations: when the
    [shelly] exchange fails, [RenderInfo] returns that error after one
    request; when it succeeds and the status exchange fails, it returns
    that error after the two requests, [shelly] first; in both cases
    nothing is written. *)
Theorem RenderInfo_fails_fast
    (device : resty.Request -> Go.error + resty.Response)
    (flags : Flags) (lib : Printers)
    (decode_statusV1 : json.Unmarshal deviceStatusV1.t)
    (decode_infoV1 : json.Unmarshal deviceInfoV1.t)
    (decode_statusV2 : json.Unmarshal DeviceStatusV2.t)
    (decode_infoV2 : json.Unmarshal DeviceInfoV2.t)
    (s1 : shellyPlugV1.t) (s2 : shellyPlugV2.t) (w : World) (err : Go.error) :
  (fails_with device decode_infoV1 (request_to (shellyPlugV1.address s1) "shelly" ∅) err ->
     shellyPlugV1.RenderInfo device flags lib s1 w =
       (Go.Returns (Some err),
        after_request (request_to (shellyPlugV1.address s1) "shelly" ∅) w)) /\
  (forall nfo,
     answers device decode_infoV1 (request_to (shellyPlugV1.address s1) "shelly" ∅) nfo ->
     fails_with device decode_statusV1 (request_to (shellyPlugV1.address s1) "status" ∅) err ->
     shellyPlugV1.RenderInfo device flags lib s1 w =
       (Go.Returns (Some err),
        after_request (request_to (shellyPlugV1.address s1) "status" ∅)
          (after_request (request_to (shellyPlugV1.address s1) "shelly" ∅) w))) /\
  (fails_with device decode_infoV2 (request_to (shellyPlugV2.address s2) "shelly" ∅) err ->
     let run := shellyPlugV2.RenderInfo device flags lib s2 w in
     fst run = Go.Returns (Some err) /\
     sent (snd run) = (sent w ++ [request_to (shellyPlugV2.address s2) "shelly" ∅])%list /\
     written (snd run) = written w) /\
  (forall nfo,
     answers device decode_infoV2 (request_to (shellyPlugV2.address s2) "shelly" ∅) nfo ->
     fails_with device decode_statusV2
       (request_to (shellyPlugV2.address s2) "rpc/Shelly.GetStatus" ∅) err ->
     let run := shellyPlugV2.RenderInfo device flags lib s2 w in
     fst run = Go.Returns (Some err) /\
     sent (snd run) =
       (sent w ++ [request_to (shellyPlugV2.address s2) "shelly" ∅;
                   request_to (shellyPlugV2.address s2) "rpc/Shelly.GetStatus" ∅])%list /\
     written (snd run) = written w).
Proof.
  split; [|split; [|split]].
  - apply V1_RenderInfo_info_fails.
  - intros nfo. apply V1_RenderInfo_status_fails.
  - apply V2_RenderInfo_info_fails.
  - intros nfo. apply V2_RenderInfo_status_fails.
Qed.

(** A plug that asks for credentials refuses the first request of the
    report. *)
Lemma RenderInfo_fails_fast_witness :
  shellyPlugV1.RenderInfo (denies "401 Unauthorized")
    (decode_status := reads status_one_relay) (flags_for "192.168.1.1") plain_printers
    (decode_info := reads info_v1) plug_v1 idle =
  (Go.Returns (Some (Go.Errorf "http://192.168.1.1/shelly: 401 Unauthorized")),
   after_request (request_to (plain_address "192.168.1.1") "shelly" ∅) idle).
Proof.
  apply (RenderInfo_fails_fast (denies "401 Unauthorized") (flags_for "192.168.1.1")
           plain_printers (reads status_one_relay) (reads info_v1)
           (reads status_with_temperature) (rejects "none") plug_v1 plug_v2 idle).
  right. left. eexists. split; [reflexivity|]. split; reflexivity.
Defined.

(** X21. The generation 1 [RenderInfo] never panics, and it returns nil
    exactly when both exchanges are answered: no content of the two
    documents makes it fail.  Unless it returns nil, nothing is
    written. *)
Theorem V1_RenderInfo_outcome
    (device : resty.Request -> Go.error + resty.Response)
    (flags : Flags) (lib : Printers)
    (decode_status : json.Unmarshal deviceStatusV1.t)
    (decode_info : json.Unmarshal deviceInfoV1.t)
    (s : shellyPlugV1.t) (w : World) :
  let run := shellyPlugV1.RenderInfo device flags lib s w in
  (forall msg : string, fst run <> Go.Panics msg) /\
  (fst run = Go.Returns None <->
     (exists nfo, answers device decode_info
                    (request_to (shellyPlugV1.address s) "shelly" ∅) nfo) /\
     (exists status, answers device decode_status
                       (request_to (shellyPlugV1.address s) "status" ∅) status)) /\
  (fst run <> Go.Returns None -> written (snd run) = written w).
Proof.
  cbv zeta.
  destruct (V1_RenderInfo_cases device flags lib s w)
    as [(err & Hi & ->)|[(nfo & err & Hi & Hs & ->)|(nfo & status & out & Hi & Hs & ->)]];
    cbn [fst snd].
  - split; [discriminate|]. split; [|reflexivity].
    split; [discriminate|]. intros [[nfo Hi'] _].
    destruct (answers_excludes_failure _ _ _ _ _ Hi' Hi).
  - split; [discriminate|]. split; [|reflexivity].
    split; [discriminate|]. intros [_ [status Hs']].
    destruct (answers_excludes_failure _ _ _ _ _ Hs' Hs).
  - split; [discriminate|]. split; [|congruence].
    split; [|reflexivity]. intros _. split; eauto.
Qed.

(** ** The device report: contents *)

(** X22. When both exchanges are answered, the generation 1 report
    holds the relay section exactly when the status lists one relay and
    the meter section exactly when it lists one meter, each
    independently of the other (unlike [RenderEnergy], it does not ask
    for as many relays as meters).  The relay section gives the state as
    [On] or [Off]; the meter section ends the report, with the power and
    the total counter times [0.000016666666666666667], two decimals
    each. *)
Theorem V1_report_sections
    (device : resty.Request -> Go.error + resty.Response)
    (flags : Flags) (lib : Printers)
    (decode_status : json.Unmarshal deviceStatusV1.t)
    (decode_info : json.Unmarshal deviceInfoV1.t)
    (s : shellyPlugV1.t) (w : World)
    (nfo : deviceInfoV1.t) (status : deviceStatusV1.t) :
  answers device decode_info (request_to (shellyPlugV1.address s) "shelly" ∅) nfo ->
  answers device decode_status (request_to (shellyPlugV1.address s) "status" ∅) status ->
  exists out : list json.chunk,
    fst (shellyPlugV1.RenderInfo device flags lib s w) = Go.Returns None /\
    written (snd (shellyPlugV1.RenderInfo device flags lib s w)) = (written w ++ out)%list /\
    (In (json.Lit "Relay Information") out <->
       length (deviceStatusV1.Relays status) = 1%nat) /\
    (In (json.Lit "Meter Information") out <->
       length (deviceStatusV1.Meters status) = 1%nat) /\
    (forall r : relayV1.t, deviceStatusV1.Relays status = [r] ->
       In (json.Lit ("        Power Status: "
                     ++ (if relayV1.IsOn r then "On" else "Off") ++ LF)) out) /\
    (forall m : meterV1.t, deviceStatusV1.Meters status = [m] ->
       exists pre : list json.chunk,
         out = (pre ++
           [json.Lit LF; json.Lit "Meter Information"; json.Lit LF; json.Lit LF;
            json.Lit ("               Power: " ++ Fmt.verb_f 2 (meterV1.Power m) ++ " Watt" ++ LF);
            json.Lit ("   Total Consumption: "
                      ++ Fmt.verb_f 2 (Float64.of_int64 (meterV1.Total m) * kwh_per_count)%float
                      ++ " kWh" ++ LF)])%list).
Proof.
  intros Hi Hs.
  destruct (V1_RenderInfo_report device flags lib s w nfo status Hi Hs)
    as (out & Hrun & Hrelay & Hmeter & Hend & Hstate & _).
  exists out. rewrite Hrun. cbn [fst snd wrote written after_request].
  repeat split; try assumption; try apply Hrelay; try apply Hmeter.
Qed.

(** The body with a meter and no relay, which [RenderEnergy] refuses:
    the report shows its meter section and no relay section. *)
Lemma V1_report_sections_witness :
  exists out : list json.chunk,
    fst (shellyPlugV1.RenderInfo (replies "document")
           (decode_status := reads status_meters_only) (flags_for "192.168.1.1")
           plain_printers (decode_info := reads info_v1) plug_v1 idle) = Go.Returns None /\
    written (snd (shellyPlugV1.RenderInfo (replies "document")
                    (decode_status := reads status_meters_only) (flags_for "192.168.1.1")
                    plain_printers (decode_info := reads info_v1) plug_v1 idle))
      = ([] ++ out)%list /\
    ~ In (json.Lit "Relay Information") out /\
    In (json.Lit "Meter Information") out /\
    exists pre : list json.chunk,
      out = (pre ++
        [json.Lit LF; json.Lit "Meter Information"; json.Lit LF; json.Lit LF;
         json.Lit ("               Power: 2.45 Watt" ++ LF);
         json.Lit ("   Total Consumption: 0.01 kWh" ++ LF)])%list.
Proof.
  destruct (V1_report_sections (replies "document") (flags_for "192.168.1.1")
              plain_printers (reads status_meters_only) (reads info_v1) plug_v1 idle
              info_v1 status_meters_only
              (replies_answers "document" info_v1 _)
              (replies_answers "document" status_meters_only _))
    as (out & Hres & Hout & Hrelay & Hmeter & _ & Hend).
  exists out. split; [exact Hres|]. split; [exact Hout|].
  split; [intros H; apply Hrelay in H; discriminate H|].
  split; [apply Hmeter; reflexivity|].
  destruct (Hend meter_615 eq_refl) as [pre Hpre]. exists pre.
  rewrite Hpre. cbn [meterV1.Power meterV1.Total meter_615].
  rewrite verb_f_power_2_45, verb_f_total_615. reflexivity.
Defined.

(** ** Durations and sizes in the report *)

Lemma seconds_exact (n : Z) :
  -9223372036 <= n <= 9223372036 -> time.seconds n = n * 1000000000.
Proof.
  intros Hn. unfold time.seconds, time.Second, Go.wrap_int64.
  rewrite Z.mod_small; lia.
Qed.

Lemma uint64_of_int64 (n : Z) :
  Go.int64 n -> Go.uint64 n = if (n <? 0)%Z then n + 2 ^ 64 else n.
Proof.
  unfold Go.int64, Go.uint64. intros Hn.
  destruct (Z.ltb_spec n 0).
  - rewrite <- (Z_mod_plus_full n 1 (2 ^ 64)), Z.mul_1_l. apply Z.mod_small. lia.
  - apply Z.mod_small. lia.
Qed.

(** X23. The uptime line of the generation 1 report converts the
    seconds to nanoseconds in [int64]: for an uptime of at most
    9223372036 seconds (292 years) the duration printed is the uptime
    times [10^9], with no wrap-around.  The memory line converts the
    [int64] byte count to [uint64]: a count that is not negative is
    printed as it is, a negative one as the count plus [2^64]. *)
Theorem V1_report_quantities
    (device : resty.Request -> Go.error + resty.Response)
    (flags : Flags) (lib : Printers)
    (decode_status : json.Unmarshal deviceStatusV1.t)
    (decode_info : json.Unmarshal deviceInfoV1.t)
    (s : shellyPlugV1.t) (w : World)
    (nfo : deviceInfoV1.t) (status : deviceStatusV1.t) :
  answers device decode_info (request_to (shellyPlugV1.address s) "shelly" ∅) nfo ->
  answers device decode_status (request_to (shellyPlugV1.address s) "status" ∅) status ->
  0 <= deviceStatusV1.Uptime status <= 9223372036 ->
  Go.int64 (deviceStatusV1.RamTotal status) ->
  exists out : list json.chunk,
    written (snd (shellyPlugV1.RenderInfo device flags lib s w)) = (written w ++ out)%list /\
    In (json.Lit ("              Uptime: "
                  ++ Duration_String lib (deviceStatusV1.Uptime status * 1000000000) ++ LF))
       out /\
    In (json.Lit ("        Memory Total: "
                  ++ IBytes lib (if (deviceStatusV1.RamTotal status <? 0)%Z
                                 then deviceStatusV1.RamTotal status + 2 ^ 64
                                 else deviceStatusV1.RamTotal status) ++ LF)) out.
Proof.
  intros Hi Hs Hup Hram.
  destruct (V1_RenderInfo_report device flags lib s w nfo status Hi Hs)
    as (out & Hrun & _ & _ & _ & _ & Huptime & Hmemory).
  exists out. rewrite Hrun. cbn [fst snd wrote written after_request].
  split; [reflexivity|].
  rewrite seconds_exact in Huptime by lia.
  rewrite (uint64_of_int64 _ Hram) in Hmemory.
  split; assumption.
Qed.

(** A plug that has been up for a day: 86400000000000 nanoseconds. *)
Lemma V1_report_quantities_witness :
  exists out : list json.chunk,
    written (snd (shellyPlugV1.RenderInfo (replies "document")
                    (decode_status := reads status_running) (flags_for "192.168.1.1")
                    plain_printers (decode_info := reads info_v1) plug_v1 idle))
      = ([] ++ out)%list /\
    In (json.Lit ("              Uptime: 86400000000000ns" ++ LF)) out /\
    In (json.Lit ("        Memory Total: 51272 B" ++ LF)) out.
Proof.
  apply (V1_report_quantities (replies "document") (flags_for "192.168.1.1")
           plain_printers (reads status_running) (reads info_v1) plug_v1 idle
           info_v1 status_running).
  - apply replies_answers.
  - apply replies_answers.
  - cbn [deviceStatusV1.Uptime status_running]. lia.
  - unfold Go.int64. cbn [deviceStatusV1.RamTotal status_running]. lia.
Defined.

(** One second more than 9223372036 and the product wraps around to a
    negative duration. *)
Example seconds_wrap : time.seconds 9223372037 = -9223372036709551616.
Proof. reflexivity. Qed.

(** ** The device report, generation 2: outcome and contents *)

(** X24. When both exchanges are answered, the generation 2
    [RenderInfo] returns nil exactly when the status holds its system
    and WiFi parts and, if it holds a switch, the switch holds its
    energy counter and its temperature; otherwise it panics on the nil
    pointer.  The report is written as it goes: the title line is in
    the sink in every case, also when the call panics further on. *)
Theorem V2_RenderInfo_outcome
    (device : resty.Request -> Go.error + resty.Response)
    (flags : Flags) (lib : Printers)
    (decode_status : json.Unmarshal DeviceStatusV2.t)
    (decode_info : json.Unmarshal DeviceInfoV2.t)
    (s : shellyPlugV2.t) (w : World)
    (nfo : DeviceInfoV2.t) (status : DeviceStatusV2.t) :
  answers device decode_info (request_to (shellyPlugV2.address s) "shelly" ∅) nfo ->
  answers device decode_status
    (request_to (shellyPlugV2.address s) "rpc/Shelly.GetStatus" ∅) status ->
  let run := shellyPlugV2.RenderInfo device flags lib s w in
  (fst run = Go.Returns None <->
     is_Some (DeviceStatusV2.System status) /\
     is_Some (DeviceStatusV2.WiFi status) /\
     forall sw, DeviceStatusV2.Switch1 status = Some sw ->
       is_Some (SwitchStatusV2.AEnergy sw) /\ is_Some (SwitchStatusV2.Temperature sw)) /\
  (fst run <> Go.Returns None -> fst run = Go.Panics Go.nil_dereference) /\
  (exists rest : list json.chunk,
     written (snd run) =
       (written w ++
        json.Lit ("Shelly device information for " ++ ip flags ++ LF) :: rest)%list) /\
  sent (snd run) =
    (sent w ++ [request_to (shellyPlugV2.address s) "shelly" ∅;
                request_to (shellyPlugV2.address s) "rpc/Shelly.GetStatus" ∅])%list.
Proof.
  intros Hi Hs.
  destruct (V2_RenderInfo_report device flags lib s w nfo status Hi Hs)
    as (out & Hout & Hsent & Hres & Hiff & (rest & Hrest) & _).
  cbv zeta in *. split; [exact Hiff|].
  split; [intros Hno; destruct Hres; [contradiction|assumption]|].
  split; [exists rest; rewrite Hout, Hrest; reflexivity | exact Hsent].
Qed.

(** A plug without a temperature sensor: the report panics, with its
    beginning already in the sink. *)
Lemma V2_RenderInfo_witness :
  let run :=
    shellyPlugV2.RenderInfo (replies "document")
      (decode_status := reads status_plug_without_temperature) (flags_for "192.168.1.1")
      plain_printers (decode_info := reads info_v2) plug_v2 idle in
  fst run = Go.Panics Go.nil_dereference /\
  exists rest : list json.chunk,
    written (snd run) =
      ([] ++ json.Lit ("Shelly device information for 192.168.1.1" ++ LF) :: rest)%list.
Proof.
  destruct (V2_RenderInfo_outcome (replies "document") (flags_for "192.168.1.1")
              plain_printers (reads status_plug_without_temperature) (reads info_v2)
              plug_v2 idle info_v2 status_plug_without_temperature
              (replies_answers "document" info_v2 _)
              (replies_answers "document" status_plug_without_temperature _))
    as (Hiff & Hpanic & Hpartial & _).
  cbv zeta. split; [|exact Hpartial].
  apply Hpanic. intros Hnil. apply Hiff in Hnil as (_ & _ & Hsw).
  destruct (Hsw switch_without_temperature eq_refl) as [_ [t Ht]]. discriminate Ht.
Defined.

(** X25. When both exchanges are answered and the status holds its
    system and WiFi parts, the generation 2 report holds the relay
    section exactly when the status holds a switch.  Only a stable
    firmware counts as an update: with one on offer the report says
    [Has Update: true] and names its version; with none (also when a
    beta firmware is on offer) it says [Has Update: false] and has no
    [Latest Available] line. *)
Theorem V2_report_sections
    (device : resty.Request -> Go.error + resty.Response)
    (flags : Flags) (lib : Printers)
    (decode_status : json.Unmarshal DeviceStatusV2.t)
    (decode_info : json.Unmarshal DeviceInfoV2.t)
    (s : shellyPlugV2.t) (w : World)
    (nfo : DeviceInfoV2.t) (status : DeviceStatusV2.t)
    (sys : SystemStatusV2.t) (wifi : WifiStatusV2.t) :
  answers device decode_info (request_to (shellyPlugV2.address s) "shelly" ∅) nfo ->
  answers device decode_status
    (request_to (shellyPlugV2.address s) "rpc/Shelly.GetStatus" ∅) status ->
  DeviceStatusV2.System status = Some sys ->
  DeviceStatusV2.WiFi status = Some wifi ->
  exists out : list json.chunk,
    written (snd (shellyPlugV2.RenderInfo device flags lib s w)) = (written w ++ out)%list /\
    (In (json.Lit "Relay Information") out <-> is_Some (DeviceStatusV2.Switch1 status)) /\
    match AvailableUpdatesV2.Stable (SystemStatusV2.AvailableUpdates sys) with
    | Some stable =>
        In (json.Lit ("          Has Update: true" ++ LF)) out /\
        In (json.Lit ("    Latest Available: " ++ UpdateInfoV2.Version stable ++ LF)) out
    | None =>
        In (json.Lit ("          Has Update: false" ++ LF)) out /\
        forall v : string, ~ In (json.Lit ("    Latest Available: " ++ v ++ LF)) out
    end.
Proof.
  intros Hi Hs Hsys Hwifi.
  destruct (V2_RenderInfo_report device flags lib s w nfo status Hi Hs)
    as (out & Hout & _ & _ & _ & _ & Hrelay & Hupdate).
  cbv zeta in *. exists out. split; [exact Hout|]. split.
  - rewrite Hrelay, Hsys, Hwifi. split; [tauto|].
    intros H. split; [eexists; reflexivity|]. split; [eexists; reflexivity | exact H].
  - apply Hupdate; [exact Hsys | rewrite Hwifi; eexists; reflexivity].
Qed.

(** A device without a switch, on which only a beta firmware is on
    offer. *)
Lemma V2_report_sections_witness :
  exists out : list json.chunk,
    written (snd (shellyPlugV2.RenderInfo (replies "document")
                    (decode_status := reads status_without_switch)
                    (flags_for "192.168.1.1") plain_printers
                    (decode_info := reads info_v2) plug_v2 idle)) = ([] ++ out)%list /\
    ~ In (json.Lit "Relay Information") out /\
    In (json.Lit ("          Has Update: false" ++ LF)) out /\
    forall v : string, ~ In (json.Lit ("    Latest Available: " ++ v ++ LF)) out.
Proof.
  destruct (V2_report_sections (replies "document") (flags_for "192.168.1.1")
              plain_printers (reads status_without_switch) (reads info_v2)
              plug_v2 idle info_v2 status_without_switch system_beta_only wifi_connected
              (replies_answers "document" info_v2 _)
              (replies_answers "document" status_without_switch _)
              eq_refl eq_refl)
    as (out & Hout & Hrelay & Hfalse & Hnone).
  exists out. split; [exact Hout|].
  split; [intros H; apply Hrelay in H; destruct H as [sw Hsw]; discriminate Hsw|].
  split; assumption.
Defined.

(** ** From the flags to the wire *)

(** X19. With the [v2] switch off and a dotted address (not empty, no
    colon, no opening bracket), the first request of every action goes
    to [http://<address>/<path>]: [relay/0] with [turn=on] or
    [turn=off], [status], and [shelly] for the report, followed there
    by [status] at most.  Each request carries the user name and the
    password as basic authentication when both are set, and no
    credentials when either is empty. *)
Theorem actions_reach_the_device
    (device : resty.Request -> Go.error + resty.Response) (cfg : Config)
    (lib : Printers)
    (decode_relay : json.Unmarshal relayV1.t)
    (decode_statusV1 : json.Unmarshal deviceStatusV1.t)
    (decode_state : json.Unmarshal SwitchStateV2.t)
    (decode_statusV2 : json.Unmarshal DeviceStatusV2.t)
    (decode_infoV1 : json.Unmarshal deviceInfoV1.t)
    (decode_infoV2 : json.Unmarshal DeviceInfoV2.t)
    (f : Flags) (w : World) :
  v2Plus f = false ->
  ip f <> "" ->
  String.index 0 ":" (ip f) = None ->
  url.HasPrefix (ip f) "[" = false ->
  let request path queries :=
    {| resty.URL := "http://" ++ ip f ++ "/" ++ path;
       resty.QueryParam := queries;
       resty.BasicAuth :=
         if negb (String.eqb (user f) "") && negb (String.eqb (pass f) "")
         then Some (user f, pass f) else None |} in
  sent (snd (onAction device f w)) =
    (sent w ++ [request "relay/0" {[ "turn" := "on" ]}])%list /\
  sent (snd (offAction device f w)) =
    (sent w ++ [request "relay/0" {[ "turn" := "off" ]}])%list /\
  sent (snd (energyAction device cfg f w)) = (sent w ++ [request "status" ∅])%list /\
  (sent (snd (infoAction device lib f w)) = (sent w ++ [request "shelly" ∅])%list \/
   sent (snd (infoAction device lib f w)) =
     (sent w ++ [request "shelly" ∅; request "status" ∅])%list).
Proof.
  intros Hv2 Hip Hcolon Hbr. cbv beta zeta.
  rewrite <- !(request_to_deviceUrl f) by assumption.
  split; [|split; [|split]].
  - rewrite (onAction_run device f w Hv2 Hip). cbv zeta.
    pose proof (V1_TurnOn_world device w {| shellyPlugV1.address := deviceUrl f |}) as Hw.
    destruct (snd (fst (shellyPlugV1.TurnOn device _ w)));
      cbn [snd wrote sent]; rewrite Hw; reflexivity.
  - rewrite (offAction_run device f w Hv2 Hip). cbv zeta.
    pose proof (V1_TurnOff_world device w {| shellyPlugV1.address := deviceUrl f |}) as Hw.
    destruct (snd (fst (shellyPlugV1.TurnOff device _ w)));
      cbn [snd wrote sent]; rewrite Hw; reflexivity.
  - rewrite (energyAction_run device cfg f w Hv2 Hip).
    apply (V1_RenderEnergy_sent device cfg {| shellyPlugV1.address := deviceUrl f |} w).
  - rewrite (infoAction_run device lib f w Hv2 Hip).
    destruct (V1_RenderInfo_cases device f lib {| shellyPlugV1.address := deviceUrl f |} w)
      as [(err & _ & ->)|[(nfo & err & _ & _ & ->)|(nfo & status & out & _ & _ & ->)]];
      cbn [snd wrote sent after_request shellyPlugV1.address].
    + left. reflexivity.
    + right. rewrite <- app_assoc. reflexivity.
    + right. rewrite <- app_assoc. reflexivity.
Qed.

(** The requests for the plug at 192.168.1.1 with the user [admin]. *)
Lemma actions_reach_the_device_witness :
  sent (snd (onAction (replies "relay") (decode_relay := reads relay_on)
               (decode_state := reads switch_state_on) flags_with_credentials idle)) =
    ([] ++ [ {| resty.URL := "http://" ++ "192.168.1.1" ++ "/" ++ "relay/0";
                resty.QueryParam := {[ "turn" := "on" ]};
                resty.BasicAuth := Some ("admin", "secret") |} ])%list /\
  sent (snd (energyAction (replies "status") text_mode
               (decode_statusV1 := reads status_one_relay)
               (decode_statusV2 := reads status_with_temperature)
               flags_with_credentials idle)) =
    ([] ++ [ {| resty.URL := "http://" ++ "192.168.1.1" ++ "/" ++ "status";
                resty.QueryParam := ∅;
                resty.BasicAuth := Some ("admin", "secret") |} ])%list.
Proof.
  destruct (actions_reach_the_device (replies "relay") text_mode plain_printers
              (reads relay_on) (reads status_one_relay) (reads switch_state_on)
              (reads status_with_temperature) (reads info_v1) (reads info_v2)
              flags_with_credentials idle eq_refl) as (Hon & _);
    [discriminate | reflexivity | reflexivity |].
  destruct (actions_reach_the_device (replies "status") text_mode plain_printers
              (reads relay_on) (reads status_one_relay) (reads switch_state_on)
              (reads status_with_temperature) (reads info_v1) (reads info_v2)
              flags_with_credentials idle eq_refl) as (_ & _ & Henergy & _);
    [discriminate | reflexivity | reflexivity |].
  split; [exact Hon | exact Henergy].
Defined.

(** An IPv6 address is given to the URL without brackets, so
    [Hostname] takes its last group for a port when that group is
    decimal: the request for the plug at [2001:db8::1] goes to
    [http://2001:db8:/relay/0]. *)
Example ipv6_address_is_cut :
  sent (snd (onAction (replies "relay") (decode_relay := reads relay_on)
               (decode_state := reads switch_state_on) (flags_for "2001:db8::1") idle)) =
  [ {| resty.URL := "http://2001:db8:/relay/0";
       resty.QueryParam := {[ "turn" := "on" ]};
       resty.BasicAuth := None |} ].
Proof. reflexivity. Qed.

(** ** The legacy client *)

Section LegacyControl.
Variable device : resty.Request -> Go.error + resty.Response.
Context {decode_relay : json.Unmarshal Relay.t}.
Variables (s : shellyPlug.t) (w : World).

Lemma legacy_TurnOn_cases :
  (exists res, answers device decode_relay (turn_request (shellyPlug.address s) "on") res /\
     fst (shellyPlug.TurnOn device s w) =
       if Relay.IsOn res then (Some res, None)
       else (None, Some (Go.Errorf "relay is not on"))) \/
  (exists err, fails_with device decode_relay (turn_request (shellyPlug.address s) "on") err /\
     fst (shellyPlug.TurnOn device s w) = (None, Some err)).
Proof.
  unfold shellyPlug.TurnOn. rewrite bind_run.
  destruct (fst (shellyPlug.get (T := Relay.t) device s "relay/0" {[ "turn" := "on" ]} w))
    as [err|res] eqn:Hget.
  - right. exists err. split; [apply legacy_get_fails in Hget; exact Hget | reflexivity].
  - left. exists res. split; [apply legacy_get_inv in Hget; exact Hget|].
    destruct (Relay.IsOn res); reflexivity.
Qed.

Lemma legacy_TurnOff_cases :
  (exists res, answers device decode_relay (turn_request (shellyPlug.address s) "off") res /\
     fst (shellyPlug.TurnOff device s w) =
       if Relay.IsOn res then (Some res, Some (Go.Errorf "relay is on"))
       else (Some res, None)) \/
  (exists err, fails_with device decode_relay (turn_request (shellyPlug.address s) "off") err /\
     fst (shellyPlug.TurnOff device s w) = (None, Some err)).
Proof.
  unfold shellyPlug.TurnOff. rewrite bind_run.
  destruct (fst (shellyPlug.get (T := Relay.t) device s "relay/0" {[ "turn" := "off" ]} w))
    as [err|res] eqn:Hget.
  - right. exists err. split; [apply legacy_get_fails in Hget; exact Hget | reflexivity].
  - left. exists res. split; [apply legacy_get_inv in Hget; exact Hget|].
    destruct (Relay.IsOn res); reflexivity.
Qed.

End LegacyControl.

Lemma answers_unique {T : Type} (device : resty.Request -> Go.error + resty.Response)
    (dec : json.Unmarshal T) (req : resty.Request) (v v' : T) :
  answers device dec req v -> answers device dec req v' -> v = v'.
Proof.
  intros (resp & Hdev & _ & Hdec) (resp' & Hdev' & _ & Hdec').
  rewrite Hdev in Hdev'. injection Hdev' as <-. congruence.
Qed.

(** X26. The legacy [TurnOn] returns the relay exactly when it returns
    no error, and that relay is on.  The legacy [TurnOff] returns the
    relay whenever the device answered, also together with the error
    [relay is on]: it returns no error exactly when the relay it
    returns is off. *)
Theorem legacy_turn_results
    (device : resty.Request -> Go.error + resty.Response)
    (decode_relay : json.Unmarshal Relay.t) (s : shellyPlug.t) (w : World) :
  (let r := fst (shellyPlug.TurnOn device s w) in
   (is_Some (fst r) <-> snd r = None) /\
   (forall res, fst r = Some res ->
      Relay.IsOn res = true /\
      answers device decode_relay (turn_request (shellyPlug.address s) "on") res)) /\
  (let r := fst (shellyPlug.TurnOff device s w) in
   (forall res, fst r = Some res <->
      answers device decode_relay (turn_request (shellyPlug.address s) "off") res) /\
   (forall res, fst r = Some res ->
      snd r = if Relay.IsOn res then Some (Go.Errorf "relay is on") else None)).
Proof.
  split; cbv zeta.
  - destruct (legacy_TurnOn_cases device s w) as [(res & Hans & ->)|(err & _ & ->)].
    + destruct (Relay.IsOn res) eqn:Hon; cbn [fst snd].
      * split; [split; [reflexivity | eexists; reflexivity]|].
        intros res' [= <-]. auto.
      * split; [split; [intros [? [=]] | discriminate] | discriminate].
    + cbn [fst snd]. split; [split; [intros [? [=]] | discriminate] | discriminate].
  - destruct (legacy_TurnOff_cases device s w) as [(res & Hans & ->)|(err & Hfail & ->)].
    + assert (Hfst : fst (if Relay.IsOn res
                          then (Some res, Some (Go.Errorf "relay is on"))
                          else (Some res, @None Go.error)) = Some res)
        by (destruct (Relay.IsOn res); reflexivity).
      rewrite Hfst. split.
      * intros res'. split; [intros [= <-]; exact Hans|].
        intros Hans'. f_equal. exact (answers_unique _ _ _ _ _ Hans Hans').
      * intros res' [= <-]. destruct (Relay.IsOn res); reflexivity.
    + cbn [fst snd]. split; [|discriminate].
      intros res. split; [discriminate|].
      intros Hans. destruct (answers_excludes_failure _ _ _ _ _ Hans Hfail).
Qed.

(** ** The legacy front end and the unified one *)

Section SameExchange.
Variable device : resty.Request -> Go.error + resty.Response.
Context {T T' : Type} {dec : json.Unmarshal T} {dec' : json.Unmarshal T'}.
Variables (address : url.URL) (path : string) (queries : gmap string string) (w : World).

(** The legacy adapter and the generation 1 adapter perform the same
    exchange. *)
Lemma legacy_get_as_V1 :
  shellyPlug.get (T := T) device {| shellyPlug.address := address |} path queries w =
  (match device (request_to address path queries) with
   | inl err => inl err
   | inr resp =>
       if resty.IsError resp
       then inl (Go.Errorf (resty.RequestURL resp ++ ": " ++ resty.Body resp))
       else match dec (resty.Body resp) with
            | inl err => inl (Go.Errorf ("invalid response body: " ++ Go.Error err))
            | inr res => inr res
            end
   end, after_request (request_to address path queries) w).
Proof.
  unfold shellyPlug.get, request_to. step_world. cbn [shellyPlug.address].
  destruct (device _) as [err|resp]; [reflexivity|].
  destruct (resty.IsError resp); [reflexivity|].
  unfold json.unmarshal. destruct (dec _); reflexivity.
Qed.

Lemma V1_get_as_legacy :
  shellyPlugV1.get (T := T') device {| shellyPlugV1.address := address |} path queries w =
  (match device (request_to address path queries) with
   | inl err => inl err
   | inr resp =>
       if resty.IsError resp
       then inl (Go.Errorf (resty.RequestURL resp ++ ": " ++ resty.Body resp))
       else match dec' (resty.Body resp) with
            | inl err => inl (Go.Errorf ("invalid response body: " ++ Go.Error err))
            | inr res => inr res
            end
   end, after_request (request_to address path queries) w).
Proof.
  unfold shellyPlugV1.get, request_to. step_world. cbn [shellyPlugV1.address].
  destruct (device _) as [err|resp]; [reflexivity|].
  destruct (resty.IsError resp); [reflexivity|].
  unfold json.unmarshal. destruct (dec' _); reflexivity.
Qed.

End SameExchange.

(** X27. With the [v2] switch off, [onAction] and [offAction] of the
    unified front end do exactly what those of the legacy front end do
    (the same request, the same result, the same line printed),
    provided the two decoders of the relay echo read the same
    document. *)
Theorem unified_on_off_as_legacy
    (device : resty.Request -> Go.error + resty.Response)
    (legacy_relay_decoder : json.Unmarshal Relay.t)
    (decode_relay : json.Unmarshal relayV1.t)
    (decode_state : json.Unmarshal SwitchStateV2.t)
    (f : Flags) (w : World) :
  v2Plus f = false ->
  same_echo legacy_relay_decoder decode_relay ->
  onAction device f w = legacy.onAction device f w /\
  offAction device f w = legacy.offAction device f w.
Proof.
  intros Hv2 Hsame.
  unfold onAction, offAction, legacy.onAction, legacy.offAction.
  rewrite !bind_run, newPlug_run, Hv2, NewShellyPlug_spec. cbn [url.Host deviceUrl fst snd].
  destruct (String.eqb (ip f) ""); [split; reflexivity|].
  cbn [TurnOn TurnOff].
  unfold shellyPlugV1.TurnOn, shellyPlugV1.TurnOff, shellyPlug.TurnOn, shellyPlug.TurnOff.
  rewrite !bind_run.
  rewrite !legacy_get_as_V1, !V1_get_as_legacy.
  cbn [fst snd].
  split.
  - destruct (device _) as [err|resp]; [reflexivity|].
    destruct (resty.IsError resp); [reflexivity|].
    specialize (Hsame (resty.Body resp)).
    destruct (legacy_relay_decoder _) as [e|r], (decode_relay _) as [e'|r'];
      try contradiction; [subst e'; reflexivity|].
    rewrite Hsame. destruct (relayV1.IsOn r'); reflexivity.
  - destruct (device _) as [err|resp]; [reflexivity|].
    destruct (resty.IsError resp); [reflexivity|].
    specialize (Hsame (resty.Body resp)).
    destruct (legacy_relay_decoder _) as [e|r], (decode_relay _) as [e'|r'];
      try contradiction; [subst e'; reflexivity|].
    rewrite Hsame. destruct (relayV1.IsOn r'); reflexivity.
Qed.

Lemma unified_on_off_witness :
  onAction (replies "relay") (decode_relay := reads relay_on)
    (decode_state := reads switch_state_on) (flags_for "192.168.1.1") idle
  = legacy.onAction (replies "relay") (decode_relay := reads (legacy_relay true))
      (flags_for "192.168.1.1") idle /\
  offAction (replies "relay") (decode_relay := reads relay_on)
    (decode_state := reads switch_state_on) (flags_for "192.168.1.1") idle
  = legacy.offAction (replies "relay") (decode_relay := reads (legacy_relay true))
      (flags_for "192.168.1.1") idle.
Proof.
  apply (unified_on_off_as_legacy (replies "relay") (reads (legacy_relay true))
           (reads relay_on) (reads switch_state_on) (flags_for "192.168.1.1") idle).
  - reflexivity.
  - intros body. reflexivity.
Defined.

(** ** The legacy report and the unified one *)

Ltac legacy_shapes status :=
  destruct (DeviceStatus.Relays status) as [|?r [|? ?]];
  destruct (DeviceStatus.Meters status) as [|?m [|? ?]];
  cbn [map length Nat.eqb lookup list_lookup];
  destruct (CloudStatus.Enabled (DeviceStatus.Cloud status));
  try match goal with
      | r : Relay.t |- _ =>
          cbn [relay_as_V1 relayV1.HasTimer]; destruct (Relay.HasTimer r)
      end.

Section SameReport.
Variable device : resty.Request -> Go.error + resty.Response.
Variable lib : Printers.
Context {legacy_status : json.Unmarshal DeviceStatus.t}.
Context {legacy_info_decoder : json.Unmarshal DeviceInfo.t}.
Context {decode_statusV1 : json.Unmarshal deviceStatusV1.t}.
Context {decode_statusV2 : json.Unmarshal DeviceStatusV2.t}.
Context {decode_infoV1 : json.Unmarshal deviceInfoV1.t}.
Context {decode_infoV2 : json.Unmarshal DeviceInfoV2.t}.
Variables (f : Flags) (w : World).

Hypothesis generation_1 : v2Plus f = false.
Hypothesis same_info : same_document info_as_V1 legacy_info_decoder decode_infoV1.
Hypothesis same_status : same_document status_as_V1 legacy_status decode_statusV1.

Lemma report_as_legacy :
  let unified := infoAction device lib f w in
  let old := legacy.infoAction device lib f w in
  fst unified = fst old /\
  sent (snd unified) = sent (snd old) /\
  logged (snd unified) = logged (snd old) /\
  (fst old <> Go.Returns None ->
     written (snd old) = written w /\ written (snd unified) = written w) /\
  (fst old = Go.Returns None ->
     exists (pre post : list json.chunk) (memory : string),
       written (snd old) =
         (written w ++ pre ++ json.Lit ("         Memory Used: " ++ memory ++ LF) :: post)%list /\
       written (snd unified) =
         (written w ++ pre ++ json.Lit ("        Memory Total: " ++ memory ++ LF) :: post)%list).
Proof.
  cbv zeta.
  unfold infoAction, legacy.infoAction.
  rewrite !bind_run, newPlug_run, generation_1, NewShellyPlug_spec.
  cbn [url.Host deviceUrl fst snd].
  destruct (String.eqb (ip f) "").
  { cbn [ret fst snd]. repeat split; try reflexivity. discriminate. }
  cbn [RenderInfo].
  unfold shellyPlugV1.RenderInfo, shellyPlugV1.Info, shellyPlugV1.Status,
    shellyPlug.Info, shellyPlug.Status.
  rewrite !bind_run.
  rewrite !legacy_get_as_V1, !V1_get_as_legacy. cbn [fst snd].
  destruct (device (request_to _ "shelly" ∅)) as [err|resp].
  { cbn [ret fst snd]. repeat split; try reflexivity. discriminate. }
  destruct (resty.IsError resp).
  { cbn [ret fst snd]. repeat split; try reflexivity. discriminate. }
  rewrite (same_info (resty.Body resp)).
  destruct (legacy_info_decoder (resty.Body resp)) as [e|nfo].
  { cbn [ret fst snd]. repeat split; try reflexivity. discriminate. }
  rewrite !bind_run.
  rewrite !legacy_get_as_V1, !V1_get_as_legacy. cbn [fst snd].
  destruct (device (request_to _ "status" ∅)) as [err|resp'].
  { cbn [ret fst snd]. repeat split; try reflexivity. discriminate. }
  destruct (resty.IsError resp').
  { cbn [ret fst snd]. repeat split; try reflexivity. discriminate. }
  rewrite (same_status (resty.Body resp')).
  destruct (legacy_status (resty.Body resp')) as [e|status].
  { cbn [ret fst snd]. repeat split; try reflexivity. discriminate. }
  cbn [status_as_V1 info_as_V1
       deviceStatusV1.MAC deviceStatusV1.Unixtime deviceStatusV1.Uptime
       deviceStatusV1.RamTotal deviceStatusV1.RamFree deviceStatusV1.FsSize
       deviceStatusV1.FsFree deviceStatusV1.WiFi deviceStatusV1.Cloud
       deviceStatusV1.MQTT deviceStatusV1.Update deviceStatusV1.Relays
       deviceStatusV1.Meters wiFiStatusV1.IP wiFiStatusV1.SSID wiFiStatusV1.RSSI
       cloudStatusV1.Enabled cloudStatusV1.Connected mQTTStatusV1.Connected
       updateStatusV1.HasUpdate updateStatusV1.NewVersion
       deviceInfoV1.Type_ deviceInfoV1.FW].
  legacy_shapes status;
    cbn [relay_as_V1 meter_as_V1 relayV1.IsOn relayV1.HasTimer relayV1.TimerStarted
         relayV1.TimerDuration relayV1.TimerRemaining meterV1.Power meterV1.Total];
    emit_run; emit_run;
    cbn [fst snd wrote sent logged written after_request app];
    (split; [reflexivity|]; split; [reflexivity|]; split; [reflexivity|];
     split; [intros H; contradiction|]; intros _;
     lazymatch goal with
     | |- exists pre post memory,
            (written w ++ ?old_out)%list = _ /\ (written w ++ ?new_out)%list = _ =>
         exists (take 14 old_out), (drop 15 old_out),
                (IBytes lib (Go.uint64 (DeviceStatus.RamTotal status)));
         split; reflexivity
     end).
Qed.

End SameReport.

(** X28. With the [v2] switch off, and decoders that read the same
    documents, the report of the unified front end is the report of the
    legacy [infoAction]: the same requests, the same result, and the
    same text but for one label, the total memory, which the legacy
    report prints as [Memory Used] and the unified one as
    [Memory Total].  When the legacy action fails, both write
    nothing. *)
Theorem unified_report_as_legacy
    (device : resty.Request -> Go.error + resty.Response) (lib : Printers)
    (legacy_status : json.Unmarshal DeviceStatus.t)
    (legacy_info_decoder : json.Unmarshal DeviceInfo.t)
    (decode_statusV1 : json.Unmarshal deviceStatusV1.t)
    (decode_statusV2 : json.Unmarshal DeviceStatusV2.t)
    (decode_infoV1 : json.Unmarshal deviceInfoV1.t)
    (decode_infoV2 : json.Unmarshal DeviceInfoV2.t)
    (f : Flags) (w : World) :
  v2Plus f = false ->
  same_document info_as_V1 legacy_info_decoder decode_infoV1 ->
  same_document status_as_V1 legacy_status decode_statusV1 ->
  let unified := infoAction device lib f w in
  let old := legacy.infoAction device lib f w in
  fst unified = fst old /\
  sent (snd unified) = sent (snd old) /\
  logged (snd unified) = logged (snd old) /\
  (fst old <> Go.Returns None ->
     written (snd old) = written w /\ written (snd unified) = written w) /\
  (fst old = Go.Returns None ->
     exists (pre post : list json.chunk) (memory : string),
       written (snd old) =
         (written w ++ pre ++ json.Lit ("         Memory Used: " ++ memory ++ LF) :: post)%list /\
       written (snd unified) =
         (written w ++ pre ++ json.Lit ("        Memory Total: " ++ memory ++ LF) :: post)%list).
Proof.
  intros Hv2 Hinfo Hstatus.
  exact (report_as_legacy device lib f w Hv2 Hinfo Hstatus).
Qed.

Lemma unified_report_witness :
  fst (infoAction (replies "document")
         (decode_statusV1 := reads (status_as_V1 legacy_status_meters_only))
         (decode_statusV2 := reads status_with_temperature) plain_printers
         (decode_infoV1 := reads (info_as_V1 legacy_info))
         (decode_infoV2 := reads info_v2) (flags_for "192.168.1.1") idle)
  = fst (legacy.infoAction (replies "document")
           (decode_status := reads legacy_status_meters_only) plain_printers
           (decode_info := reads legacy_info) (flags_for "192.168.1.1") idle).
Proof.
  apply (unified_report_as_legacy (replies "document") plain_printers
           (reads legacy_status_meters_only) (reads legacy_info)
           (reads (status_as_V1 legacy_status_meters_only))
           (reads status_with_temperature)
           (reads (info_as_V1 legacy_info)) (reads info_v2)
           (flags_for "192.168.1.1") idle).
  - reflexivity.
  - intros body. reflexivity.
  - intros body. reflexivity.
Defined.

(** ** The sign of the total *)

Lemma approximates_sign (f : float) (q : Q) :
  Float64.approximates f q ->
  ((0 <= q)%Q -> (0 <= Float64.to_Q f)%Q) /\
  ((q <= 0)%Q -> (Float64.to_Q f <= 0)%Q).
Proof.
  unfold Float64.approximates, Float64.tolerance.
  change (1 # 2 ^ 51)%Q with (1 # 2251799813685248)%Q.
  intros H. apply Qabs_Qle_condition in H. destruct H as [Hlo Hhi].
  split.
  - intros Hq. rewrite (Qabs_pos q Hq) in Hlo, Hhi. lra.
  - intros Hq. rewrite (Qabs_neg q Hq) in Hlo, Hhi. lra.
Qed.

(** X29. The total that the generation 1 client prints and exports,
    [float64(Total) * 0.000016666666666666667], is a finite number for
    every [int64] counter (never NaN, never an infinity), it is not
    negative when the counter is not negative, not positive when the
    counter is not positive, and so zero for a counter of zero. *)
Theorem V1_total_keeps_the_sign (m : meterV1.t) :
  Go.int64 (meterV1.Total m) ->
  let kwh := (Float64.of_int64 (meterV1.Total m) * kwh_per_count)%float in
  is_finite kwh = true /\
  (0 <= meterV1.Total m -> (0 <= Float64.to_Q kwh)%Q) /\
  (meterV1.Total m <= 0 -> (Float64.to_Q kwh <= 0)%Q) /\
  (meterV1.Total m = 0 -> (Float64.to_Q kwh == 0)%Q).
Proof.
  intros Hrange.
  destruct (kwh_within_tolerance (meterV1.Total m) Hrange) as [Hfin Happrox].
  cbv zeta in *. split; [exact Hfin|].
  destruct (approximates_sign _ _ Happrox) as [Hpos Hneg].
  assert (Hup : 0 <= meterV1.Total m -> (0 <= Float64.to_Q
            (Float64.of_int64 (meterV1.Total m) * kwh_per_count)%float)%Q).
  { intros Ht. apply Hpos. rewrite Zle_Qle in Ht. change (inject_Z 0) with 0%Q in Ht.
    apply Qle_shift_div_l; [reflexivity|]. lra. }
  assert (Hdown : meterV1.Total m <= 0 -> (Float64.to_Q
            (Float64.of_int64 (meterV1.Total m) * kwh_per_count)%float <= 0)%Q).
  { intros Ht. apply Hneg. rewrite Zle_Qle in Ht. change (inject_Z 0) with 0%Q in Ht.
    apply Qle_shift_div_r; [reflexivity|]. lra. }
  split; [exact Hup|]. split; [exact Hdown|].
  intros Hzero. apply Qle_antisym; [apply Hdown | apply Hup]; lia.
Qed.

Lemma V1_total_sign_witness :
  is_finite (Float64.of_int64 615 * kwh_per_count)%float = true /\
  (0 <= Float64.to_Q (Float64.of_int64 615 * kwh_per_count)%float)%Q.
Proof.
  destruct (V1_total_keeps_the_sign meter_615) as (Hfin & Hpos & _).
  - unfold Go.int64. cbn [meterV1.Total meter_615]. lia.
  - split; [exact Hfin|]. apply Hpos. cbn [meterV1.Total meter_615]. lia.
Defined.

(** ** Addresses with a colon *)

Lemma append_cons (c : ascii) (a b : string) : String c a ++ b = String c (a ++ b).
Proof. reflexivity. Qed.

Lemma length_append (a b : string) :
  String.length (a ++ b) = (String.length a + String.length b)%nat.
Proof.
  induction a as [|c a IH]; [reflexivity|].
  rewrite append_cons. cbn [String.length]. rewrite IH. reflexivity.
Qed.

Lemma substring_all (b : string) : String.substring 0 (String.length b) b = b.
Proof.
  induction b as [|c b IH]; [reflexivity|].
  cbn [String.length String.substring]. rewrite IH. reflexivity.
Qed.

Lemma substring_skip (a b : string) :
  String.substring (String.length a) (String.length b) (a ++ b) = b.
Proof.
  induction a as [|c a IH]; [apply substring_all|].
  rewrite append_cons. cbn [String.length String.substring]. exact IH.
Qed.

Lemma substring_front (a b : string) :
  String.substring 0 (String.length a) (a ++ b) = a.
Proof.
  induction a as [|c a IH].
  - destruct b; reflexivity.
  - rewrite append_cons. cbn [String.length String.substring]. rewrite IH. reflexivity.
Qed.

Lemma digits_hold_no_colon (digits : string) :
  url.all_digits digits = true -> url.LastIndexByte digits ":"%char = None.
Proof.
  induction digits as [|c d IH]; [reflexivity|].
  cbn [url.all_digits url.LastIndexByte]. intros H.
  apply andb_prop in H as [Hc Hd]. rewrite (IH Hd).
  destruct (Ascii.eqb_spec c ":"%char) as [->|_]; [discriminate Hc | reflexivity].
Qed.

Lemma LastIndexByte_tail (front digits : string) :
  url.all_digits digits = true ->
  url.LastIndexByte (front ++ ":" ++ digits) ":"%char = Some (String.length front).
Proof.
  intros Hd. induction front as [|c a IH].
  - change ("" ++ ":" ++ digits) with (String ":"%char digits).
    cbn [url.LastIndexByte]. rewrite (digits_hold_no_colon _ Hd). reflexivity.
  - rewrite append_cons. cbn [url.LastIndexByte String.length]. rewrite IH. reflexivity.
Qed.

Lemma Hostname_cuts_tail (a : url.URL) (front digits : string) :
  url.Host a = front ++ ":" ++ digits ->
  url.all_digits digits = true ->
  url.HasPrefix front "[" = false ->
  url.Hostname a = front.
Proof.
  intros Hhost Hd Hbr. unfold url.Hostname, url.splitHostPort.
  rewrite Hhost, (LastIndexByte_tail _ _ Hd).
  assert (Hfrom : url.from (String.length front) (front ++ ":" ++ digits) = ":" ++ digits).
  { unfold url.from. rewrite length_append.
    replace (String.length front + String.length (":" ++ digits) - String.length front)%nat
      with (String.length (":" ++ digits)) by lia.
    apply substring_skip. }
  assert (Hupto : url.upto (String.length front) (front ++ ":" ++ digits) = front).
  { unfold url.upto. apply substring_front. }
  rewrite Hfrom, Hupto.
  change (url.validOptionalPort (":" ++ digits)) with (url.all_digits digits).
  rewrite Hd, Hbr. reflexivity.
Qed.

(** X30. The front end puts the address into the URL as it is printed,
    without brackets.  So for an address that ends in a colon and
    decimal digits (an IPv6 address whose last group is decimal)
    [Hostname] takes that group for a port: with the [v2] switch off,
    the requests of the actions go to the host that is left when the
    last colon and the digits after it are cut off. *)
Theorem address_tail_taken_for_port
    (device : resty.Request -> Go.error + resty.Response) (cfg : Config)
    (decode_relay : json.Unmarshal relayV1.t)
    (decode_statusV1 : json.Unmarshal deviceStatusV1.t)
    (decode_state : json.Unmarshal SwitchStateV2.t)
    (decode_statusV2 : json.Unmarshal DeviceStatusV2.t)
    (f : Flags) (w : World) (front digits : string) :
  v2Plus f = false ->
  ip f = front ++ ":" ++ digits ->
  url.all_digits digits = true ->
  url.HasPrefix front "[" = false ->
  url.Hostname (deviceUrl f) = front /\
  sent (snd (onAction device f w)) =
    (sent w ++ [ {| resty.URL := "http://" ++ front ++ "/" ++ "relay/0";
                    resty.QueryParam := {[ "turn" := "on" ]};
                    resty.BasicAuth := credentials (deviceUrl f) |} ])%list /\
  sent (snd (energyAction device cfg f w)) =
    (sent w ++ [ {| resty.URL := "http://" ++ front ++ "/" ++ "status";
                    resty.QueryParam := ∅;
                    resty.BasicAuth := credentials (deviceUrl f) |} ])%list.
Proof.
  intros Hv2 Hip Hd Hbr.
  assert (Hhost : url.Hostname (deviceUrl f) = front).
  { apply (Hostname_cuts_tail (deviceUrl f) front digits); assumption. }
  assert (Hne : ip f <> "").
  { rewrite Hip. destruct front; discriminate. }
  split; [exact Hhost|]. rewrite <- Hhost. split.
  - rewrite (onAction_run device f w Hv2 Hne). cbv zeta.
    pose proof (V1_TurnOn_world device w {| shellyPlugV1.address := deviceUrl f |}) as Hw.
    destruct (snd (fst (shellyPlugV1.TurnOn device _ w)));
      cbn [snd wrote sent]; rewrite Hw; reflexivity.
  - rewrite (energyAction_run device cfg f w Hv2 Hne).
    apply (V1_RenderEnergy_sent device cfg {| shellyPlugV1.address := deviceUrl f |} w).
Qed.

(** The plug at [2001:db8::1] is asked at the host [2001:db8:]. *)
Lemma address_tail_witness :
  url.Hostname (deviceUrl (flags_for "2001:db8::1")) = "2001:db8:" /\
  sent (snd (onAction (replies "relay") (decode_relay := reads relay_on)
               (decode_state := reads switch_state_on) (flags_for "2001:db8::1") idle)) =
    ([] ++ [ {| resty.URL := "http://" ++ "2001:db8:" ++ "/" ++ "relay/0";
                resty.QueryParam := {[ "turn" := "on" ]};
                resty.BasicAuth := credentials (deviceUrl (flags_for "2001:db8::1")) |} ])%list.
Proof.
  destruct (address_tail_taken_for_port (replies "relay") text_mode
              (reads relay_on) (reads status_one_relay) (reads switch_state_on)
              (reads status_with_temperature) (flags_for "2001:db8::1") idle
              "2001:db8:" "1" eq_refl eq_refl eq_refl eq_refl) as (Hhost & Hon & _).
  split; [exact Hhost | exact Hon].
Defined.
